(** * github-cms: the repository synchronisation service, its configuration
      check, its request handlers and the markdown helpers.

    The development embeds
      - [lib/config.ts]    ([getConfig], [validateConfig], [getValidatedConfig],
                            [isGitHubConfigured], [sanitizeConfigForLogging]),
      - [lib/markdown.ts]  ([extractMarkdownTitle], [createSlug], the options
                            of the renderer),
      - [lib/drafts.ts]    ([validateDraft], [draftToMarkdown],
                            [generateDraftFilename], the drafts kept in
                            [localStorage]),
      - [lib/github.ts]    (the [GitHubService] class),
      - [app/api/github/{list,publish,fetch}/route.ts] (the handlers)
    and states the properties of the synchronisation engine over them.

    The remote store is reached through Octokit only.  Service methods are
    therefore written as trees of Octokit calls ([Prog]); a tree is run
    against any store by [run], and the statements that need the behaviour
    of the store itself use the in-memory object store of [MemStore]. *)

From Stdlib Require Import NArith Ascii String.
From stdpp Require Import base option list strings pretty gmap.

Open Scope string_scope.

(* ================================================================== *)
(** ** JavaScript string helpers *)
(* ================================================================== *)

Module Js.

(** [s.startsWith(p)] *)
Fixpoint startsWith (p s : string) : bool :=
  match p, s with
  | EmptyString, _ => true
  | String a p', String b s' => bool_decide (a = b) && startsWith p' s'
  | String _ _, EmptyString => false
  end.

(** [s.endsWith(p)]: one of the suffixes of [s] is [p]. *)
Fixpoint endsWith (p s : string) : bool :=
  bool_decide (s = p)
  || match s with
     | String _ s' => endsWith p s'
     | EmptyString => false
     end.

(** Truthiness of a string value: only the empty string is falsy. *)
Definition truthy (s : string) : bool :=
  match s with EmptyString => false | String _ _ => true end.

(** [v || d] where [v] is a possibly undefined string. *)
Definition or_default (v : option string) (d : string) : string :=
  match v with
  | Some s => if truthy s then s else d
  | None => d
  end.

(** [xs.join(sep)] *)
Fixpoint join (sep : string) (xs : list string) : string :=
  match xs with
  | [] => ""
  | [x] => x
  | x :: rest => x +:+ sep +:+ join sep rest
  end.

(** A value caught by a [catch] clause. *)
Inductive Thrown : Type :=
| Error (message : string)
    (* [new Error(message)]: an Error without a [status] property *)
| RequestError (status : N) (message : string)
    (* Octokit's RequestError: an Error carrying the HTTP status *)
| OtherValue (status : option N).
    (* any other thrown value, with its [status] when it is an object
       that has one *)

(** [error && typeof error === 'object' && 'status' in error
     && error.status === 404] *)
Definition status_is_404 (error : Thrown) : bool :=
  match error with
  | RequestError st _ => (st =? 404)%N
  | OtherValue (Some st) => (st =? 404)%N
  | _ => false
  end.

(** [error instanceof Error ? error.message : 'Unknown error'] *)
Definition message_or_unknown (error : Thrown) : string :=
  match error with
  | Error m => m
  | RequestError _ m => m
  | OtherValue _ => "Unknown error"
  end.

End Js.

(* ================================================================== *)
(** ** lib/config.ts : configuration from the environment *)
(* ================================================================== *)

Module Config.
Import Js.

(** [process.env], restricted to the variables that are read. *)
Record Env : Type := {
  GITHUB_TOKEN : option string;
  GITHUB_OWNER : option string;
  GITHUB_REPO : option string;
  GITHUB_BRANCH : option string;
  NODE_ENV : option string;
}.

Record GithubSettings : Type := {
  token : string;
  owner : string;
  repo : string;
  branch : string;
}.

Record AppSettings : Type := {
  nodeEnv : string;
  isDev : bool;
  isProd : bool;
}.

Record AppConfig : Type := {
  github : GithubSettings;
  app : AppSettings;
}.

Definition getConfig (env : Env) : AppConfig :=
  let nodeEnv := or_default (NODE_ENV env) "development" in
  {| github :=
       {| token := or_default (GITHUB_TOKEN env) "";
          owner := or_default (GITHUB_OWNER env) "";
          repo := or_default (GITHUB_REPO env) "";
          branch := or_default (GITHUB_BRANCH env) "main" |};
     app :=
       {| nodeEnv := nodeEnv;
          isDev := bool_decide (nodeEnv = "development");
          isProd := bool_decide (nodeEnv = "production") |} |}.

(** [errors.push] appends, so the messages come in the order of the tests. *)
Definition validateConfig (config : AppConfig) : list string :=
  let g := github config in
  (if negb (truthy (token g)) then ["GITHUB_TOKEN is required"] else [])
  ++ (if negb (truthy (owner g)) then ["GITHUB_OWNER is required"] else [])
  ++ (if negb (truthy (repo g)) then ["GITHUB_REPO is required"] else [])
  ++ (if truthy (token g)
         && negb (startsWith "ghp_" (token g))
         && negb (startsWith "github_pat_" (token g))
      then ["GITHUB_TOKEN appears to be invalid (should start with ghp_ or github_pat_)"]
      else []).

Definition newline : string := String (ascii_of_nat 10) "".

Definition getValidatedConfig (env : Env) : Thrown + AppConfig :=
  let config := getConfig env in
  let errors := validateConfig config in
  if bool_decide (0 < length errors)
  then inl (Error ("Configuration validation failed:" +:+ newline +:+ join newline errors))
  else inr config.

Definition isGitHubConfigured (env : Env) : bool :=
  bool_decide (length (validateConfig (getConfig env)) = 0).

(** The [app] part is copied as it is. *)
Definition sanitizeConfigForLogging (config : AppConfig) : AppConfig :=
  let g := github config in
  {| github :=
       {| token := if truthy (token g) then "[REDACTED]" else "[MISSING]";
          owner := if truthy (owner g) then owner g else "[MISSING]";
          repo := if truthy (repo g) then repo g else "[MISSING]";
          branch := branch g |};
     app := app config |}.

End Config.

(* ================================================================== *)
(** ** lib/markdown.ts : title extraction

    [trim] and [substring] of JavaScript work on UTF-16 code units, and
    [trim] strips characters outside ASCII as well; a markdown text is
    therefore a list of code units here. *)
(* ================================================================== *)

Module Markdown.

Definition ustring := list N.

(** An ASCII literal as code units. *)
Definition u (s : string) : ustring :=
  List.map N_of_ascii (String.list_ascii_of_string s).

(** WhiteSpace and LineTerminator of ECMAScript, the set [trim] strips. *)
Definition isWhiteSpace (c : N) : bool :=
  ((9 <=? c) && (c <=? 13) || (c =? 32) || (c =? 160) || (c =? 5760)
   || (8192 <=? c) && (c <=? 8202) || (c =? 8232) || (c =? 8233)
   || (c =? 8239) || (c =? 8287) || (c =? 12288) || (c =? 65279))%N.

Fixpoint trimStart (s : ustring) : ustring :=
  match s with
  | c :: s' => if isWhiteSpace c then trimStart s' else s
  | [] => []
  end.

Definition trimEnd (s : ustring) : ustring :=
  List.rev (trimStart (List.rev s)).

Definition trim (s : ustring) : ustring := trimEnd (trimStart s).

(** [s.split('\n')]: never empty, one more piece than there are newlines. *)
Fixpoint split_newline (s : ustring) : list ustring :=
  match s with
  | [] => [[]]
  | c :: s' =>
      if (c =? 10)%N then [] :: split_newline s'
      else match split_newline s' with
           | l :: ls => (c :: l) :: ls
           | [] => [[c]]
           end
  end.

Fixpoint startsWith (p s : ustring) : bool :=
  match p, s with
  | [], _ => true
  | a :: p', b :: s' => (a =? b)%N && startsWith p' s'
  | _ :: _, [] => false
  end.

(** [s.substring(a)] and [s.substring(0, b)] *)
Definition substring_from (a : nat) (s : ustring) : ustring := drop a s.
Definition substring_to (b : nat) (s : ustring) : ustring := take b s.

(** First loop: the first line that, trimmed, starts with "# ". *)
Fixpoint heading_loop (lines : list ustring) : option ustring :=
  match lines with
  | [] => None
  | line :: rest =>
      let trimmed := trim line in
      if startsWith (u "# ") trimmed
      then Some (trim (substring_from 2 trimmed))
      else heading_loop rest
  end.

(** Second loop: the first line that, trimmed, is non-empty and does not
    start with "---". *)
Fixpoint first_line_loop (lines : list ustring) : option ustring :=
  match lines with
  | [] => None
  | line :: rest =>
      let trimmed := trim line in
      if negb (bool_decide (trimmed = [])) && negb (startsWith (u "---") trimmed)
      then Some (substring_to 100 trimmed)
      else first_line_loop rest
  end.

Definition extractMarkdownTitle (markdownContent : ustring) : ustring :=
  let lines := split_newline markdownContent in
  match heading_loop lines with
  | Some t => t
  | None =>
      match first_line_loop lines with
      | Some t => t
      | None => u "Untitled"
      end
  end.

(** *** The description of the title in the words of the specification *)

(** A top-level heading line. *)
Definition is_heading (line : ustring) : bool :=
  startsWith (u "# ") (trim line).

(** The text of a heading line: what follows the marker, trimmed. *)
Definition heading_text (line : ustring) : ustring :=
  trim (drop 2 (trim line)).

(** A line that is neither blank nor a separator (it starts with "---"). *)
Definition is_content_line (line : ustring) : bool :=
  negb (bool_decide (trim line = [])) && negb (startsWith (u "---") (trim line)).

Definition title_spec (md : ustring) : ustring :=
  let lines := split_newline md in
  match List.find is_heading lines with
  | Some l => heading_text l
  | None =>
      match List.find is_content_line lines with
      | Some l => take 100 (trim l)
      | None => u "Untitled"
      end
  end.

(** The code unit of the line feed. *)
Definition LF : N := 10.

Definition single_line (t : ustring) : Prop := LF ∉ t.
Definition no_surrounding_whitespace (t : ustring) : Prop := trim t = t.

(** *** Rendering

    The two stages are library calls: [marked] and the [sanitize] method
    of DOMPurify.  The module fixes the options given to the sanitizer
    and what is returned when a stage throws. *)

Record SanitizeOptions : Type := {
  ALLOWED_TAGS : list string;
  ALLOWED_ATTR : list string;
  ALLOW_DATA_ATTR : bool;
}.

Definition sanitize_options : SanitizeOptions :=
  {| ALLOWED_TAGS :=
       ["h1"; "h2"; "h3"; "h4"; "h5"; "h6";
        "p"; "br"; "hr";
        "strong"; "em"; "u"; "del"; "code";
        "pre"; "blockquote";
        "ul"; "ol"; "li";
        "table"; "thead"; "tbody"; "tr"; "th"; "td";
        "a"; "img";
        "div"; "span"];
     ALLOWED_ATTR :=
       ["href"; "title"; "alt"; "src";
        "class"; "id";
        "target"; "rel"];
     ALLOW_DATA_ATTR := false |}.

Section Render.
(** [marked(markdownContent)] under the options [gfm] and [breaks]. *)
Variable marked : string -> Js.Thrown + string.
(** [DOMPurify(window).sanitize(htmlContent, options)] *)
Variable sanitize : SanitizeOptions -> string -> Js.Thrown + string.

Definition parseMarkdown (markdownContent : string) : string :=
  match marked markdownContent with
  | inr htmlContent => htmlContent
  | inl _ => "<p>Error parsing markdown content</p>"
  end.

Definition sanitizeHTML (htmlContent : string) : string :=
  match sanitize sanitize_options htmlContent with
  | inr cleanHTML => cleanHTML
  | inl _ => "<p>Error processing content</p>"
  end.

Definition markdownToHTML (markdownContent : string) : string :=
  sanitizeHTML (parseMarkdown markdownContent).

End Render.

(** *** Slugs

    The slug has only ASCII characters, and a character outside ASCII is
    outside [a-z0-9] in UTF-8 as in UTF-16: here the title is the
    sequence of its UTF-8 bytes.  [toLowerCase] is the method of
    JavaScript strings. *)

(** The class [a-z0-9] of the regular expression. *)
Definition is_slug_char (c : ascii) : bool :=
  let n := N_of_ascii c in
  ((97 <=? n) && (n <=? 122) || (48 <=? n) && (n <=? 57))%N.

Definition hyphen : ascii := "-"%char.

(** [s.replace(/[^a-z0-9]+/g, '-')]; [in_run] tells that the characters
    just before belong to a run that has been replaced already. *)
Fixpoint replace_runs (in_run : bool) (s : list ascii) : list ascii :=
  match s with
  | [] => []
  | c :: s' =>
      if is_slug_char c then c :: replace_runs false s'
      else if in_run then replace_runs true s'
      else hyphen :: replace_runs true s'
  end.

Fixpoint drop_hyphens (s : list ascii) : list ascii :=
  match s with
  | c :: s' => if bool_decide (c = hyphen) then drop_hyphens s' else s
  | [] => []
  end.

(** [s.replace(/^-+|-+$/g, '')] *)
Definition strip_hyphens (s : list ascii) : list ascii :=
  List.rev (drop_hyphens (List.rev (drop_hyphens s))).

Section Slug.
Variable toLowerCase : string -> string.

(** The slug before [substring(0, 50)]. *)
Definition slug_chars (title : string) : list ascii :=
  strip_hyphens (replace_runs false (String.list_ascii_of_string (toLowerCase title))).

Definition createSlug (title : string) : string :=
  String.string_of_list_ascii (take 50 (slug_chars title)).

End Slug.

(** Shapes of a slug, for the statements about [createSlug]: its
    alphabet, and the absence of two hyphens in a row ([spaced] reads the
    same off the head of the list). *)
Definition slug_alphabet (c : ascii) : Prop := is_slug_char c = true \/ c = hyphen.

Definition no_double_hyphen (l : list ascii) : Prop :=
  forall l1 l2, l <> (l1 ++ hyphen :: hyphen :: l2)%list.

Fixpoint spaced (l : list ascii) : Prop :=
  match l with
  | a :: (b :: _) as t => ~ (a = hyphen /\ b = hyphen) /\ spaced t
  | _ => True
  end.

End Markdown.


(* ================================================================== *)
(** ** Octokit: the calls the service makes, and programs over them *)
(* ================================================================== *)

Module Octokit.
Export Js.

(** An element of the array [repos.getContent] answers for a directory. *)
Record ContentItem : Type := {
  item_type : string;
  item_name : string;
  item_path : string;
  item_sha : string;
}.

(** [response.data] of [repos.getContent]. *)
Inductive ContentData : Type :=
| DirectoryListing (items : list ContentItem)
    (* an array: the path is a directory *)
| FileObject (content : string) (sha : string)
    (* an object with [content] (base64) and [sha]: a file *)
| ObjectWithoutContent (sha : string).
    (* an object with [sha] and no [content]: a submodule *)

(** An element of the [tree] argument of [git.createTree]. *)
Record TreeEntry : Type := {
  path : string;
  mode : string;
  type : string;
  sha : string;
}.

(** [data] of [git.getCommit]: the fields that are read. *)
Record CommitData : Type := {
  commit_sha : string;
  commit_tree_sha : string;
}.

(** One constructor per Octokit method used, with the fields of its
    argument object; the index is the type of [data] in the answer,
    restricted to what the service reads ([ref.object.sha], [blob.sha],
    [tree.sha], [newCommit.sha]). *)
Inductive ApiCall : Type -> Type :=
| repos_getContent (owner repo path ref : string) : ApiCall ContentData
| repos_createOrUpdateFileContents
    (owner repo path message content branch : string) (sha : option string)
  : ApiCall unit
| git_getRef (owner repo ref : string) : ApiCall string
| git_getCommit (owner repo commit_sha : string) : ApiCall CommitData
| git_createBlob (owner repo content encoding : string) : ApiCall string
| git_createTree (owner repo base_tree : string) (tree : list TreeEntry)
  : ApiCall string
| git_createCommit (owner repo message tree : string) (parents : list string)
  : ApiCall string
| git_updateRef (owner repo ref sha : string) : ApiCall unit.

(** A request as it appears in a trace. *)
Definition Request : Type := { R : Type & ApiCall R }.
Definition request {R} (c : ApiCall R) : Request := existT R c.

(** The requests that write to the store. *)
Definition is_mutation (q : Request) : bool :=
  match projT2 q with
  | repos_getContent _ _ _ _ | git_getRef _ _ _ | git_getCommit _ _ _ => false
  | _ => true
  end.

(** An asynchronous computation: a value, a rejection, or a call whose
    answer (fulfilled or rejected) the continuation receives. *)
Inductive Prog (A : Type) : Type :=
| Ret (a : A)
| Throw (e : Thrown)
| Call {R : Type} (c : ApiCall R) (k : Thrown + R -> Prog A).
Arguments Ret {A} a.
Arguments Throw {A} e.
Arguments Call {A R} c k.

Fixpoint bind {A B} (p : Prog A) (f : A -> Prog B) : Prog B :=
  match p with
  | Ret a => f a
  | Throw e => Throw e
  | Call c k => Call c (fun r => bind (k r) f)
  end.

(** [await octokit.m(args)]: a rejected call throws. *)
Definition await {R} (c : ApiCall R) : Prog R :=
  Call c (fun r => match r with inl e => Throw e | inr x => Ret x end).

(** [try { p } catch (error) { h error }] *)
Fixpoint try_catch {A} (p : Prog A) (h : Thrown -> Prog A) : Prog A :=
  match p with
  | Ret a => Ret a
  | Throw e => h e
  | Call c k => Call c (fun r => try_catch (k r) h)
  end.

(** The settled result of a promise. *)
Definition settle {A} (p : Prog A) : Prog (Thrown + A) :=
  try_catch (bind p (fun a => Ret (inr a))) (fun e => Ret (inl e)).

Declare Scope prog_scope.
Delimit Scope prog_scope with prog.
Notation "x <- p ;; q" := (bind p (fun x => q))
  (at level 100, p at next level, right associativity) : prog_scope.
Notation "p ;; q" := (bind p (fun _ => q))
  (at level 100, right associativity) : prog_scope.
Open Scope prog_scope.

(** [Promise.allSettled(ps)].  The promises of [xs.map(async ...)] are
    all started, in the order of the array, before any is awaited: every
    one of them issues its calls whatever happens to the others. *)
Fixpoint allSettled {A} (ps : list (Prog A)) : Prog (list (Thrown + A)) :=
  match ps with
  | [] => Ret []
  | p :: rest =>
      r <- settle p ;;
      rs <- allSettled rest ;;
      Ret (r :: rs)
  end.

(** The fulfilled values when all are, else the first rejection. *)
Fixpoint collect {A} (rs : list (Thrown + A)) : Thrown + list A :=
  match rs with
  | [] => inr []
  | inl e :: _ => inl e
  | inr a :: rest =>
      match collect rest with
      | inl e => inl e
      | inr l => inr (a :: l)
      end
  end.

(** [Promise.all(ps)] *)
Definition all {A} (ps : list (Prog A)) : Prog (list A) :=
  rs <- allSettled ps ;;
  match collect rs with
  | inl e => Throw e
  | inr l => Ret l
  end.

(** *** Running a program against a store *)

(** A store answers every call and moves to a new state. *)
Definition Handler (St : Type) : Type :=
  forall R, ApiCall R -> St -> St * (Thrown + R).

Record Outcome (St A : Type) : Type := {
  final : St;
  trace : list Request;
  result : Thrown + A;
}.
Arguments final {St A} o.
Arguments trace {St A} o.
Arguments result {St A} o.

(** What the rest of the world does just before the call number [i] of
    a run is served: other writers change the store, and the request
    may be lost or refused on its way (then the store does not see it). *)
Definition World (St : Type) : Type := nat -> St -> St * option Thrown.

Definition answer {St R} (h : Handler St) (env : World St) (i : nat)
    (c : ApiCall R) (s : St) : St * (Thrown + R) :=
  let (s1, fault) := env i s in
  match fault with
  | Some e => (s1, inl e)
  | None => h R c s1
  end.

(** [run_env h env i p s] runs [p] from state [s]; [i] is the number of
    calls of this run made so far. *)
Fixpoint run_env {St A} (h : Handler St) (env : World St)
    (i : nat) (p : Prog A) (s : St) : Outcome St A :=
  match p with
  | Ret a => {| final := s; trace := []; result := inr a |}
  | Throw e => {| final := s; trace := []; result := inl e |}
  | Call c k =>
      let (s', r) := answer h env i c s in
      let o := run_env h env (S i) (k r) s' in
      {| final := final o; trace := request c :: trace o; result := result o |}
  end.

(** The outcome of [p] followed by [f]. *)
Definition then_run {St A B} (o : Outcome St A)
    (f : A -> nat -> St -> Outcome St B) (i : nat) : Outcome St B :=
  match result o with
  | inl e => {| final := final o; trace := trace o; result := inl e |}
  | inr a =>
      let o' := f a (i + length (trace o)) (final o) in
      {| final := final o'; trace := (trace o ++ trace o')%list; result := result o' |}
  end.

(** The outcome of [p] inside [try], [hd] being the [catch] clause. *)
Definition catch_run {St A} (o : Outcome St A)
    (hd : Thrown -> nat -> St -> Outcome St A) (i : nat) : Outcome St A :=
  match result o with
  | inr a => {| final := final o; trace := trace o; result := inr a |}
  | inl e =>
      let o' := hd e (i + length (trace o)) (final o) in
      {| final := final o'; trace := (trace o ++ trace o')%list; result := result o' |}
  end.

(** Every value [p] can return satisfies [Q], whatever the calls answer. *)
Fixpoint returns_only {A} (Q : A -> Prop) (p : Prog A) : Prop :=
  match p with
  | Ret a => Q a
  | Throw _ => True
  | Call c k => forall r, returns_only Q (k r)
  end.

(** [p] throws nothing, whatever the calls answer. *)
Fixpoint never_throws {A} (p : Prog A) : Prop :=
  match p with
  | Ret _ => True
  | Throw _ => False
  | Call c k => forall r, never_throws (k r)
  end.

(** Nobody else writes and no request is lost. *)
Definition quiet {St} : World St := fun _ s => (s, None).

Definition run {St A} (h : Handler St) (p : Prog A) (s : St) : Outcome St A :=
  run_env h quiet 0 p s.

(** Another writer acts once, by [other], just before call [j]. *)
Definition once {St} (j : nat) (other : St -> St) : World St :=
  fun i s => if bool_decide (i = j) then (other s, None) else (s, None).

(** Nobody else writes; the requests numbered by [lost] fail. *)
Definition faults {St} (lost : nat -> option Thrown) : World St :=
  fun i s => (s, lost i).

End Octokit.

(* ================================================================== *)
(** ** Node's Buffer: base64 of the UTF-8 bytes of a string

    A [string] of the service is the sequence of its UTF-8 bytes. *)
(* ================================================================== *)

Module Buffer.

Definition alphabet : list ascii :=
  String.list_ascii_of_string
    "ABCDEFGHIJKLMNOPQRSTUVWXYZabcdefghijklmnopqrstuvwxyz0123456789+/".

Definition digit (n : N) : ascii :=
  nth (N.to_nat n) alphabet "A"%char.

Fixpoint encode (bytes : list N) : list N :=
  match bytes with
  | [] => []
  | [a] => [a / 4; (a mod 4) * 16; 64; 64]
  | [a; b] => [a / 4; (a mod 4) * 16 + b / 16; (b mod 16) * 4; 64]
  | a :: b :: c :: rest =>
      a / 4 :: (a mod 4) * 16 + b / 16 :: (b mod 16) * 4 + c / 64 :: c mod 64
      :: encode rest
  end%N.

(** [Buffer.from(s, 'utf8').toString('base64')] *)
Definition toBase64 (s : string) : string :=
  String.string_of_list_ascii
    (List.map (fun d => if (d =? 64)%N then "="%char else digit d)
       (encode (List.map N_of_ascii (String.list_ascii_of_string s)))).

(** The value of a base64 digit; other characters are skipped. *)
Definition value (c : ascii) : option N :=
  let n := N_of_ascii c in
  (if (65 <=? n) && (n <=? 90) then Some (n - 65)
   else if (97 <=? n) && (n <=? 122) then Some (n - 71)
   else if (48 <=? n) && (n <=? 57) then Some (n + 4)
   else if (n =? 43) || (n =? 45) then Some 62
   else if (n =? 47) || (n =? 95) then Some 63
   else None)%N.

Fixpoint digits (cs : list ascii) : list N :=
  match cs with
  | [] => []
  | c :: rest =>
      if bool_decide (c = "="%char) then []
      else match value c with
           | Some v => v :: digits rest
           | None => digits rest
           end
  end.

Fixpoint decode (ds : list N) : list N :=
  match ds with
  | a :: b :: c :: d :: rest =>
      (a * 4 + b / 16) :: ((b mod 16) * 16 + c / 4) :: ((c mod 4) * 64 + d)
      :: decode rest
  | [a; b; c] => [a * 4 + b / 16; (b mod 16) * 16 + c / 4]
  | [a; b] => [a * 4 + b / 16]
  | _ => []
  end%N.

(** [Buffer.from(s, 'base64').toString('utf8')] *)
Definition fromBase64 (s : string) : string :=
  String.string_of_list_ascii
    (List.map ascii_of_N (decode (digits (String.list_ascii_of_string s)))).

End Buffer.

(* ================================================================== *)
(** ** lib/github.ts : the GitHubService class *)
(* ================================================================== *)

Module GitHub.
Import Octokit.

Record GitHubConfig : Type := {
  owner : string;
  repo : string;
  token : string;
  branch : option string;
}.

Record GitHubFile : Type := {
  name : string;
  content : string;
  sha : option string;
}.

Section Service.
(** [this.config]; [this.octokit] is built from [config.token], which
    every call of the service carries as its credential. *)
Variable config : GitHubConfig.

(** [this.config.branch || 'main'] *)
Definition branch_or_main : string := or_default (branch config) "main".

Definition fetchMarkdownFile (filePath : string) : Prog string :=
  try_catch
    (response <- await (repos_getContent (owner config) (repo config)
                          filePath branch_or_main) ;;
     match response with
     | FileObject content _ => Ret (Buffer.fromBase64 content)
     | _ => Throw (Error "File not found or is not a file")
     end)
    (fun error => Throw (Error ("Failed to fetch file: " +:+ filePath))).

Definition getFileSha (filePath : string) : Prog (option string) :=
  try_catch
    (response <- await (repos_getContent (owner config) (repo config)
                          filePath branch_or_main) ;;
     match response with
     | FileObject _ sha => Ret (Some sha)
     | ObjectWithoutContent sha => Ret (Some sha)
     | DirectoryListing _ => Ret None
     end)
    (fun error => if status_is_404 error then Ret None else Throw error).

(** [...(existingSha && { sha: existingSha })] *)
Definition sha_field (existingSha : option string) : option string :=
  match existingSha with
  | Some s => if truthy s then Some s else None
  | None => None
  end.

Definition commitFile (filePath content message : string) : Prog unit :=
  try_catch
    (existingSha <- getFileSha filePath ;;
     await (repos_createOrUpdateFileContents (owner config) (repo config)
              filePath message (Buffer.toBase64 content) branch_or_main
              (sha_field existingSha)))
    (fun error => Throw (Error ("Failed to commit file: " +:+ filePath))).

(** The body of [files.map(async (file) => ...)]. *)
Definition createBlobEntry (file : GitHubFile) : Prog TreeEntry :=
  blob <- await (git_createBlob (owner config) (repo config)
                   (Buffer.toBase64 (content file)) "base64") ;;
  Ret {| path := name file; mode := "100644"; type := "blob";
         Octokit.sha := blob |}.

Definition commitMultipleFiles (files : list GitHubFile) (message : string)
  : Prog unit :=
  try_catch
    (ref <- await (git_getRef (owner config) (repo config)
                     ("heads/" +:+ branch_or_main)) ;;
     commit <- await (git_getCommit (owner config) (repo config) ref) ;;
     blobs <- all (List.map createBlobEntry files) ;;
     tree <- await (git_createTree (owner config) (repo config)
                      (commit_tree_sha commit) blobs) ;;
     newCommit <- await (git_createCommit (owner config) (repo config)
                           message tree [commit_sha commit]) ;;
     await (git_updateRef (owner config) (repo config)
              ("heads/" +:+ branch_or_main) newCommit))
    (fun error => Throw (Error "Failed to commit multiple files")).

Definition is_markdown_file (item : ContentItem) : bool :=
  bool_decide (item_type item = "file") && endsWith ".md" (item_name item).

(** [directory] defaults to the empty string. *)
Definition listMarkdownFiles (directory : option string) : Prog (list string) :=
  try_catch
    (response <- await (repos_getContent (owner config) (repo config)
                          (default "" directory) branch_or_main) ;;
     match response with
     | DirectoryListing items =>
         Ret (List.map item_path (List.filter is_markdown_file items))
     | _ => Ret []
     end)
    (fun error => Ret []).

(** *** The requests of the service, by name *)

Definition read_request (filePath : string) : ApiCall ContentData :=
  repos_getContent (owner config) (repo config) filePath branch_or_main.

Definition write_request (filePath content message : string) (tok : option string)
  : ApiCall unit :=
  repos_createOrUpdateFileContents (owner config) (repo config) filePath message
    (Buffer.toBase64 content) branch_or_main tok.

(** What [commitFile] sends as [sha] after the answer [r] to its read;
    [None] when the read fails otherwise than by a 404. *)
Definition token_after (r : Thrown + ContentData) : option (option string) :=
  match r with
  | inr (FileObject _ sha) | inr (ObjectWithoutContent sha) =>
      Some (sha_field (Some sha))
  | inr (DirectoryListing _) => Some None
  | inl e => if status_is_404 e then Some None else None
  end.

Definition blob_request (file : GitHubFile) : Request :=
  request (git_createBlob (owner config) (repo config)
             (Buffer.toBase64 (content file)) "base64").

Definition branch_ref : string := "heads/" +:+ branch_or_main.

(** What [commitMultipleFiles] throws. *)
Definition failed : Thrown + unit :=
  inl (Error "Failed to commit multiple files").

Definition getRef_request : Request :=
  request (git_getRef (owner config) (repo config) branch_ref).
Definition getCommit_request (h0 : string) : Request :=
  request (git_getCommit (owner config) (repo config) h0).
Definition createTree_request (base : string) (entries : list TreeEntry) : Request :=
  request (git_createTree (owner config) (repo config) base entries).
Definition createCommit_request (message t h0 : string) : Request :=
  request (git_createCommit (owner config) (repo config) message t [h0]).
Definition updateRef_call (c : string) : ApiCall unit :=
  git_updateRef (owner config) (repo config) branch_ref c.

(** The three calls of [commitMultipleFiles] after the blobs. *)
Definition finish (base_tree h0 message : string) (entries : list TreeEntry)
  : Prog unit :=
  tree <- await (git_createTree (owner config) (repo config) base_tree entries) ;;
  newCommit <- await (git_createCommit (owner config) (repo config)
                        message tree [h0]) ;;
  await (updateRef_call newCommit).

End Service.

Definition createGitHubService (config : GitHubConfig) : GitHubConfig := config.

End GitHub.

(* ================================================================== *)
(** ** app/api/github/*/route.ts : the request handlers *)
(* ================================================================== *)

Module Routes.
Import Octokit.

(** A draft as it arrives in a request body; the dates are still the
    strings of the JSON text. *)
Record Draft : Type := {
  id : string;
  title : string;
  body : string;
  createdAt : string;
  updatedAt : string;
}.

(** The argument of [NextResponse.json]. *)
Inductive ResponseBody : Type :=
| Failure (error : string) (details : option string)
| Listed (files : list string) (directory : string) (total : nat)
| Published (published : list string) (total : nat)
    (commitMessage repository branch : string)
| PublishedOne (published title commitMessage repository branch : string)
| Fetched (markdownContent htmlContent filePath : string)
| FetchedMany (successful : list (string * string * string))
    (failed : list (option string * option string)) (total : nat).

Record Response : Type := {
  status : N;
  json : ResponseBody;
}.

Definition respond (b : ResponseBody) (st : N) : Response :=
  {| status := st; json := b |}.

Definition config_invalid : Response :=
  respond (Failure "GitHub configuration is invalid or missing" None) 500.

(** The service of a validated configuration. *)
Definition service_of (config : Config.AppConfig) : GitHub.GitHubConfig :=
  GitHub.createGitHubService
    {| GitHub.token := Config.token (Config.github config);
       GitHub.owner := Config.owner (Config.github config);
       GitHub.repo := Config.repo (Config.github config);
       GitHub.branch := Some (Config.branch (Config.github config)) |}.

Definition repository_of (config : Config.AppConfig) : string :=
  Config.owner (Config.github config) +:+ "/" +:+ Config.repo (Config.github config).

(** [await request.json()] followed by the destructuring of the body:
    the parsed fields, or what was thrown (the text is not JSON, the
    value cannot be destructured). *)
Record PublishBody : Type := {
  drafts : option (list Draft);
    (* [None]: absent, falsy or not an array *)
  publish_directory : option string;
}.

Record UpdateBody : Type := {
  draft : option Draft;
  update_directory : option string;
  filePath : option string;
}.

Section Handlers.
(** [process.env] *)
Variable env : Config.Env.

(** lib/drafts.ts.  Both functions format the dates of the draft and
    throw when a date is invalid; date formatting is not modelled. *)
Variable draftToMarkdown : Draft -> Thrown + string.
Variable generateDraftFilename : Draft -> string -> Thrown + string.

(** lib/markdown.ts: [markdownToHTML], which catches what its two
    stages throw. *)
Variable markdownToHTML : string -> string.

Definition lift {A} (r : Thrown + A) : Prog A :=
  match r with inl e => Throw e | inr a => Ret a end.

(** list/route.ts *)
Definition list_GET (directory_param : option string) : Prog Response :=
  try_catch
    (let directory := or_default directory_param "content" in
     match Config.getValidatedConfig env with
     | inl error => Ret config_invalid
     | inr config =>
         let githubService := service_of config in
         markdownFiles <- GitHub.listMarkdownFiles githubService (Some directory) ;;
         Ret (respond (Listed markdownFiles directory (length markdownFiles)) 200)
     end)
    (fun error =>
       Ret (respond (Failure "Failed to list files from GitHub"
                       (Some (message_or_unknown error))) 500)).

(** The body of [drafts.map((draft) => ...)] in publish/route.ts. *)
Definition toGitHubFile (directory : string) (d : Draft)
  : Thrown + GitHub.GitHubFile :=
  match draftToMarkdown d with
  | inl e => inl e
  | inr markdownContent =>
      match generateDraftFilename d directory with
      | inl e => inl e
      | inr filename =>
          inr {| GitHub.name := filename; GitHub.content := markdownContent;
                 GitHub.sha := None |}
      end
  end.

Definition publishMessage (ds : list Draft) : string :=
  "Publish " +:+ pretty (length ds) +:+ " draft"
  +:+ (if bool_decide (1 < length ds) then "s" else "") +:+ ": "
  +:+ join ", " (List.map title ds).

(** publish/route.ts, POST *)
Definition publish_POST (request_json : Thrown + PublishBody) : Prog Response :=
  try_catch
    (body <- lift request_json ;;
     let directory := default "content" (publish_directory body) in
     match drafts body with
     | None | Some [] =>
         Ret (respond (Failure "Drafts array is required and must not be empty"
                         None) 400)
     | Some ds =>
         match Config.getValidatedConfig env with
         | inl error => Ret config_invalid
         | inr config =>
             let githubService := service_of config in
             githubFiles <- lift (collect (List.map (toGitHubFile directory) ds)) ;;
             let commitMessage := publishMessage ds in
             GitHub.commitMultipleFiles githubService githubFiles commitMessage ;;
             Ret (respond
                    (Published (List.map GitHub.name githubFiles) (length ds)
                       commitMessage (repository_of config)
                       (Config.branch (Config.github config))) 200)
         end
     end)
    (fun error =>
       Ret (respond (Failure "Failed to publish drafts to GitHub"
                       (Some (message_or_unknown error))) 500)).

(** publish/route.ts, PUT *)
Definition publish_PUT (request_json : Thrown + UpdateBody) : Prog Response :=
  try_catch
    (body <- lift request_json ;;
     let directory := default "content" (update_directory body) in
     match draft body with
     | None => Ret (respond (Failure "Draft is required" None) 400)
     | Some d =>
         match Config.getValidatedConfig env with
         | inl error => Ret config_invalid
         | inr config =>
             let githubService := service_of config in
             markdownContent <- lift (draftToMarkdown d) ;;
             filename <- match filePath body with
                         | Some f => if truthy f then Ret f
                                     else lift (generateDraftFilename d directory)
                         | None => lift (generateDraftFilename d directory)
                         end ;;
             let commitMessage := "Update: " +:+ title d in
             GitHub.commitFile githubService filename markdownContent commitMessage ;;
             Ret (respond
                    (PublishedOne filename (title d) commitMessage
                       (repository_of config)
                       (Config.branch (Config.github config))) 200)
         end
     end)
    (fun error =>
       Ret (respond (Failure "Failed to publish draft to GitHub"
                       (Some (message_or_unknown error))) 500)).

(** fetch/route.ts, GET *)
Definition fetch_GET (path_param : option string) : Prog Response :=
  try_catch
    (match path_param with
     | None => Ret (respond (Failure "File path is required" None) 400)
     | Some filePath =>
         if negb (truthy filePath)
         then Ret (respond (Failure "File path is required" None) 400)
         else
           match Config.getValidatedConfig env with
           | inl error => Ret config_invalid
           | inr config =>
               let githubService := service_of config in
               markdownContent <- GitHub.fetchMarkdownFile githubService filePath ;;
               let htmlContent := markdownToHTML markdownContent in
               Ret (respond (Fetched markdownContent htmlContent filePath) 200)
           end
     end)
    (fun error =>
       Ret (respond (Failure "Failed to fetch content from GitHub"
                       (Some (message_or_unknown error))) 500)).

Definition fulfilled {A} (rs : list (Thrown + A)) : list A :=
  omap (fun r => match r with inr a => Some a | inl _ => None end) rs.

Definition rejected {A} (rs : list (Thrown + A)) : list Thrown :=
  omap (fun r => match r with inl e => Some e | inr _ => None end) rs.

(** [result.reason.message] *)
Definition reason_message (e : Thrown) : option string :=
  match e with
  | Error m | RequestError _ m => Some m
  | OtherValue _ => None
  end.

(** fetch/route.ts, POST; [paths] is [None] when it is absent, falsy
    or not an array.  The index given to the callback of the last
    [map] counts the rejected results only. *)
Definition fetch_POST (request_json : Thrown + option (list string))
  : Prog Response :=
  try_catch
    (body <- lift request_json ;;
     match body with
     | None => Ret (respond (Failure "Paths array is required" None) 400)
     | Some paths =>
         match Config.getValidatedConfig env with
         | inl error => Ret config_invalid
         | inr config =>
             let githubService := service_of config in
             results <- allSettled
               (List.map (fun path =>
                  markdownContent <- GitHub.fetchMarkdownFile githubService path ;;
                  Ret (path, markdownContent, markdownToHTML markdownContent))
                  paths) ;;
             let successful := fulfilled results in
             let failed :=
               imap (fun index reason => (paths !! index, reason_message reason))
                 (rejected results) in
             Ret (respond (FetchedMany successful failed (length paths)) 200)
         end
     end)
    (fun error =>
       Ret (respond (Failure "Failed to fetch files from GitHub"
                       (Some (message_or_unknown error))) 500)).

(** What the promise made for [path] in the POST handler of fetch/route.ts
    settles to. *)
Definition fetch_settled (path : string) (r : Thrown + string * string * string)
  : Prop :=
  match r with
  | inr (p, markdownContent, htmlContent) =>
      p = path /\ htmlContent = markdownToHTML markdownContent
  | inl e => e = Error ("Failed to fetch file: " +:+ path)
  end.

End Handlers.

(** The statuses the handlers use. *)
Definition known_status (r : Response) : Prop :=
  (status r = 200 \/ status r = 400 \/ status r = 500)%N.

(** [p] fulfils with a response that satisfies [Q], against every store
    and whatever the rest of the world does. *)
Definition answers (Q : Response -> Prop) (p : Prog Response) : Prop :=
  forall (St : Type) (h : Handler St) (w : World St) (i : nat) (s : St),
    exists r, result (run_env h w i p s) = inr r /\ Q r.

End Routes.

(* ================================================================== *)
(** ** lib/drafts.ts : validation and conversion of drafts *)
(* ================================================================== *)

Module Drafts.
Import Js.

(** [Partial<DraftInput>]; the lengths and [trim] are those of UTF-16
    strings. *)
Record DraftInput : Type := {
  title : option Markdown.ustring;
  body : option Markdown.ustring;
}.

(** A string value is truthy when it is not empty. *)
Definition present (v : option Markdown.ustring) : bool :=
  match v with
  | Some (_ :: _) => true
  | _ => false
  end.

Definition validateDraft (draft : DraftInput) : list string :=
  (if negb (present (title draft))
      || bool_decide (length (Markdown.trim (default [] (title draft))) = 0)
   then ["Title is required"] else [])
  ++ (if present (title draft)
         && (200 <? N.of_nat (length (default [] (title draft))))%N
      then ["Title must be less than 200 characters"] else [])
  ++ (if present (body draft)
         && (100000 <? N.of_nat (length (default [] (body draft))))%N
      then ["Content must be less than 100,000 characters"] else []).

Definition quote : string := String (ascii_of_nat 34) "".

Section Conversion.
(** [new Date(v).toISOString()] and [format(new Date(v), 'yyyy-MM-dd')]
    of date-fns: both throw on an invalid date. *)
Variable toISOString : string -> Thrown + string.
Variable format_yyyy_MM_dd : string -> Thrown + string.
Variable toLowerCase : string -> string.

Definition draftToMarkdown (draft : Routes.Draft) : Thrown + string :=
  match toISOString (Routes.createdAt draft) with
  | inl e => inl e
  | inr created =>
      match toISOString (Routes.updatedAt draft) with
      | inl e => inl e
      | inr updated =>
          inr ("---" +:+ Config.newline
               +:+ "title: " +:+ quote +:+ Routes.title draft +:+ quote +:+ Config.newline
               +:+ "date: " +:+ created +:+ Config.newline
               +:+ "lastModified: " +:+ updated +:+ Config.newline
               +:+ "---" +:+ Config.newline +:+ Config.newline
               +:+ Routes.body draft)
      end
  end.

(** [directory] has been given its default by the caller. *)
Definition generateDraftFilename (draft : Routes.Draft) (directory : string)
  : Thrown + string :=
  let slug := Markdown.createSlug toLowerCase (Routes.title draft) in
  match format_yyyy_MM_dd (Routes.createdAt draft) with
  | inl e => inl e
  | inr dateStr =>
      let filename :=
        dateStr +:+ "-" +:+ (if truthy slug then slug else "untitled") +:+ ".md" in
      inr (if truthy directory then directory +:+ "/" +:+ filename else filename)
  end.

(** The dates of [draft] can be formatted: neither [draftToMarkdown] nor
    [generateDraftFilename] throws on it. *)
Definition dates_ok (draft : Routes.Draft) : bool :=
  match toISOString (Routes.createdAt draft), toISOString (Routes.updatedAt draft),
        format_yyyy_MM_dd (Routes.createdAt draft) with
  | inr _, inr _, inr _ => true
  | _, _, _ => false
  end.

End Conversion.

End Drafts.

(** *** lib/drafts.ts: the drafts kept in [localStorage] *)

Module DraftStore.
Import Js.

(** [xs.findIndex(f)]; [None] stands for -1. *)
Fixpoint findIndex {A} (f : A -> bool) (xs : list A) : option nat :=
  match xs with
  | [] => None
  | x :: rest => if f x then Some 0 else S <$> findIndex f rest
  end.

Section Storage.
(** [Date] objects.  The current time and the fresh identifier
    ([new Date()], [generateId()]) are arguments of the functions that
    read them. *)
Variable Date : Type.

Record Draft : Type := {
  id : string;
  title : string;
  body : string;
  createdAt : Date;
  updatedAt : Date;
}.

Record DraftInput : Type := {
  input_title : string;
  input_body : string;
}.

(** [Partial<DraftInput>]: [None] is a property that is absent. *)
Record DraftUpdates : Type := {
  new_title : option string;
  new_body : option string;
}.

(** [typeof window !== 'undefined'] *)
Variable window : bool.

(** [JSON.stringify(drafts)], and [JSON.parse(stored)] followed by the
    revival of the two dates of each element with [new Date]; the latter
    throws when the text is not JSON or its value has no [map]. *)
Variable stringify : list Draft -> string.
Variable parse : string -> Thrown + list Draft.

(** [localStorage.setItem] throws when the text does not fit the quota. *)
Variable fits : string -> bool.

(** The item stored under 'github-cms-drafts'; [None] when there is none.
    [localStorage.getItem] and [removeItem] are taken not to throw. *)
Definition Stored : Type := option string.

Definition loadDrafts (st : Stored) : list Draft :=
  if negb window then []
  else match st with
       | None => []
       | Some stored =>
           if negb (truthy stored) then []
           else match parse stored with
                | inl _ => []
                | inr drafts => drafts
                end
       end.

Definition saveDrafts (drafts : list Draft) (st : Stored) : Thrown + Stored :=
  if negb window then inr st
  else let text := stringify drafts in
       if fits text then inr (Some text)
       else inl (Error "Failed to save drafts. Storage may be full.").

Definition new_draft (input : DraftInput) (fresh : string) (now : Date) : Draft :=
  {| id := fresh;
     title := if truthy (input_title input) then input_title input
              else "Untitled Draft";
     body := if truthy (input_body input) then input_body input else "";
     createdAt := now;
     updatedAt := now |}.

Definition createDraft (input : DraftInput) (fresh : string) (now : Date)
    (st : Stored) : Thrown + Draft * Stored :=
  let draft := new_draft input fresh now in
  let drafts := draft :: loadDrafts st in
  match saveDrafts drafts st with
  | inl e => inl e
  | inr st' => inr (draft, st')
  end.

Definition has_id (i : string) (d : Draft) : bool := bool_decide (id d = i).

(** [{ ...draft, ...updates, updatedAt: new Date() }] *)
Definition updated (draft : Draft) (updates : DraftUpdates) (now : Date) : Draft :=
  {| id := id draft;
     title := default (title draft) (new_title updates);
     body := default (body draft) (new_body updates);
     createdAt := createdAt draft;
     updatedAt := now |}.

Definition updateDraft (i : string) (updates : DraftUpdates) (now : Date)
    (st : Stored) : Thrown + option Draft * Stored :=
  let drafts := loadDrafts st in
  match findIndex (has_id i) drafts with
  | None => inr (None, st)
  | Some draftIndex =>
      match drafts !! draftIndex with
      | None => inr (None, st)   (* not reached: the index was found *)
      | Some draft =>
          let updatedDraft := updated draft updates now in
          match saveDrafts (<[draftIndex := updatedDraft]> drafts) st with
          | inl e => inl e
          | inr st' => inr (Some updatedDraft, st')
          end
      end
  end.

Definition deleteDraft (i : string) (st : Stored) : Thrown + bool * Stored :=
  let drafts := loadDrafts st in
  let filteredDrafts := List.filter (fun d => negb (has_id i d)) drafts in
  if bool_decide (length filteredDrafts = length drafts) then inr (false, st)
  else match saveDrafts filteredDrafts st with
       | inl e => inl e
       | inr st' => inr (true, st')
       end.

(** [None] stands for [null]. *)
Definition getDraft (i : string) (st : Stored) : option Draft :=
  List.find (has_id i) (loadDrafts st).

Definition clearAllDrafts (st : Stored) : Stored :=
  if window then None else st.

(** The list can be stored and is read back as it is. *)
Definition survives (drafts : list Draft) : Prop :=
  fits (stringify drafts) = true
  /\ truthy (stringify drafts) = true
  /\ parse (stringify drafts) = inr drafts.

End Storage.

Arguments id {Date} d.
Arguments title {Date} d.
Arguments body {Date} d.
Arguments createdAt {Date} d.
Arguments updatedAt {Date} d.

End DraftStore.

(* ================================================================== *)
(** ** An in-memory object store

    The store behind Octokit, as far as the service observes it: blobs,
    trees (a tree maps full paths to entries), commits and branch refs.
    Objects are never removed or changed; a new object gets the next
    unused name.  A ref update that is not forced is accepted only when
    it is a fast forward, and a file write only when it carries the blob
    name the path currently has. *)
(* ================================================================== *)

Module MemStore.
Import Octokit.

Record CommitObject : Type := {
  tree : string;
  parents : list string;
  message : string;
}.

Record Store : Type := {
  blobs : gmap string string;                    (* sha -> base64 content *)
  trees : gmap string (gmap string TreeEntry);   (* sha -> path -> entry *)
  commits : gmap string CommitObject;
  refs : gmap string string;                     (* "heads/<branch>" -> commit *)
  next : nat;                                    (* names used so far *)
}.

(** The name of the object number [n]. *)
Definition name_of (n : nat) : string := pretty n.

Definition rejected {R} (s : Store) (st : N) (m : string) : Store * (Thrown + R) :=
  (s, inl (RequestError st m)).

Definition add_blob (s : Store) (content : string) : Store * string :=
  let b := name_of (next s) in
  ({| blobs := <[b := content]> (blobs s); trees := trees s;
      commits := commits s; refs := refs s; next := S (next s) |}, b).

Definition add_tree (s : Store) (t : gmap string TreeEntry) : Store * string :=
  let n := name_of (next s) in
  ({| blobs := blobs s; trees := <[n := t]> (trees s);
      commits := commits s; refs := refs s; next := S (next s) |}, n).

Definition add_commit (s : Store) (c : CommitObject) : Store * string :=
  let n := name_of (next s) in
  ({| blobs := blobs s; trees := trees s;
      commits := <[n := c]> (commits s); refs := refs s; next := S (next s) |}, n).

Definition set_ref (s : Store) (ref c : string) : Store :=
  {| blobs := blobs s; trees := trees s; commits := commits s;
     refs := <[ref := c]> (refs s); next := next s |}.

(** One entry per path: a later entry for a path replaces an earlier one. *)
Definition overlay (base : gmap string TreeEntry) (entries : list TreeEntry)
  : gmap string TreeEntry :=
  foldl (fun t e => <[path e := e]> t) base entries.

(** [target] is [c] or one of its ancestors. *)
Fixpoint is_ancestor (cs : gmap string CommitObject) (fuel : nat)
    (target c : string) : bool :=
  bool_decide (c = target)
  || match fuel with
     | O => false
     | S fuel' =>
         match cs !! c with
         | Some obj => existsb (is_ancestor cs fuel' target) (parents obj)
         | None => false
         end
     end.

Definition fast_forward (s : Store) (old new : string) : bool :=
  is_ancestor (commits s) (next s) old new.


(** The tree of the head of a branch. *)
Definition head_tree (s : Store) (ref : string) : option (gmap string TreeEntry) :=
  h ← refs s !! ref; c ← commits s !! h; trees s !! tree c.

(** [strip p s]: [s] without its prefix [p]. *)
Fixpoint strip (p s : string) : option string :=
  match p, s with
  | EmptyString, _ => Some s
  | String a p', String b s' => if bool_decide (a = b) then strip p' s' else None
  | String _ _, EmptyString => None
  end.

(** The part of [s] before its first slash, and whether there is one. *)
Fixpoint segment (s : string) : string * bool :=
  match s with
  | EmptyString => (EmptyString, false)
  | String c s' =>
      if bool_decide (c = "/"%char) then (EmptyString, true)
      else let (seg, more) := segment s' in (String c seg, more)
  end.

Definition item_of (dir : string) (pe : string * TreeEntry) : option ContentItem :=
  let prefix := if truthy dir then dir +:+ "/" else "" in
  rest ← strip prefix (fst pe);
  let (seg, more) := segment rest in
  Some (if more
        then {| item_type := "dir"; item_name := seg;
                item_path := prefix +:+ seg; item_sha := "" |}
        else {| item_type := "file"; item_name := seg;
                item_path := fst pe; item_sha := sha (snd pe) |}).

Fixpoint dedup_items (seen : list string) (l : list ContentItem) : list ContentItem :=
  match l with
  | [] => []
  | i :: rest =>
      if bool_decide (item_path i ∈ seen) then dedup_items seen rest
      else i :: dedup_items (item_path i :: seen) rest
  end.

Definition listing (t : gmap string TreeEntry) (dir : string) : list ContentItem :=
  dedup_items [] (omap (item_of dir) (map_to_list t)).

Definition getContent (s : Store) (p ref : string) : Store * (Thrown + ContentData) :=
  match head_tree s ("heads/" +:+ ref) with
  | None => rejected s 404 "Not Found"
  | Some t =>
      match t !! p with
      | Some e =>
          match blobs s !! sha e with
          | Some content => (s, inr (FileObject content (sha e)))
          | None => (s, inr (ObjectWithoutContent (sha e)))
          end
      | None =>
          match listing t p with
          | [] => rejected s 404 "Not Found"
          | items => (s, inr (DirectoryListing items))
          end
      end
  end.

Definition createOrUpdateFileContents (s : Store)
    (p msg content branch : string) (token : option string)
  : Store * (Thrown + unit) :=
  let ref := "heads/" +:+ branch in
  match refs s !! ref, head_tree s ref with
  | Some h, Some t =>
      match sha <$> t !! p, token with
      | Some live, Some tok =>
          if bool_decide (live = tok) then
            let (s1, b) := add_blob s content in
            let e := {| path := p; mode := "100644"; type := "blob"; sha := b |} in
            let (s2, t') := add_tree s1 (<[p := e]> t) in
            let (s3, c) := add_commit s2
              {| tree := t'; parents := [h]; message := msg |} in
            (set_ref s3 ref c, inr tt)
          else rejected s 409 "does not match"
      | Some _, None => rejected s 422 "sha was not supplied"
      | None, Some _ => rejected s 422 "sha given for a new file"
      | None, None =>
          let (s1, b) := add_blob s content in
          let e := {| path := p; mode := "100644"; type := "blob"; sha := b |} in
          let (s2, t') := add_tree s1 (<[p := e]> t) in
          let (s3, c) := add_commit s2
            {| tree := t'; parents := [h]; message := msg |} in
          (set_ref s3 ref c, inr tt)
      end
  | _, _ => rejected s 404 "Branch not found"
  end.

Definition getRef (s : Store) (ref : string) : Store * (Thrown + string) :=
  match refs s !! ref with
  | Some h => (s, inr h)
  | None => rejected s 404 "Not Found"
  end.

Definition getCommit (s : Store) (c : string) : Store * (Thrown + CommitData) :=
  match commits s !! c with
  | Some obj => (s, inr {| commit_sha := c; commit_tree_sha := tree obj |})
  | None => rejected s 404 "Not Found"
  end.

Definition createBlob (s : Store) (content encoding : string)
  : Store * (Thrown + string) :=
  let (s', b) :=
    add_blob s (if bool_decide (encoding = "base64") then content
                else Buffer.toBase64 content) in
  (s', inr b).

Definition createTree (s : Store) (base : string) (entries : list TreeEntry)
  : Store * (Thrown + string) :=
  match trees s !! base with
  | Some t =>
      if forallb (fun e => bool_decide (is_Some (blobs s !! sha e))) entries
      then let (s', n) := add_tree s (overlay t entries) in (s', inr n)
      else rejected s 422 "tree.sha is not a valid blob"
  | None => rejected s 422 "base_tree is not a valid tree"
  end.

Definition createCommit (s : Store) (msg t : string) (ps : list string)
  : Store * (Thrown + string) :=
  if bool_decide (is_Some (trees s !! t))
     && forallb (fun p => bool_decide (is_Some (commits s !! p))) ps
  then let (s', c) := add_commit s {| tree := t; parents := ps; message := msg |} in
       (s', inr c)
  else rejected s 422 "Tree or parent does not exist".

(** No [force] flag is sent, so only a fast forward is accepted. *)
Definition updateRef (s : Store) (ref c : string) : Store * (Thrown + unit) :=
  match refs s !! ref with
  | Some old =>
      if bool_decide (is_Some (commits s !! c)) then
        if fast_forward s old c then (set_ref s ref c, inr tt)
        else rejected s 422 "Update is not a fast forward"
      else rejected s 422 "Object does not exist"
  | None => rejected s 422 "Reference does not exist"
  end.

(** The store as a handler of the calls; there is one repository, so the
    owner and the repository name of a call are not looked at. *)
Definition handler : Handler Store :=
  fun R c s =>
    match c in ApiCall R return Store * (Thrown + R) with
    | repos_getContent _ _ p ref => getContent s p ref
    | repos_createOrUpdateFileContents _ _ p msg content branch token =>
        createOrUpdateFileContents s p msg content branch token
    | git_getRef _ _ ref => getRef s ref
    | git_getCommit _ _ c => getCommit s c
    | git_createBlob _ _ content encoding => createBlob s content encoding
    | git_createTree _ _ base entries => createTree s base entries
    | git_createCommit _ _ msg t ps => createCommit s msg t ps
    | git_updateRef _ _ ref c => updateRef s ref c
    end.

(** A store whose requests all fail with the same status: the token is
    refused (401), the service is down (503), ... *)
Definition unavailable (st : N) : Handler Store :=
  fun R c s => (s, inl (RequestError st "request failed")).

(** A repository with one commit on [main] holding [files]. *)
Definition init (files : list (string * string)) : Store :=
  let s0 := {| blobs := ∅; trees := ∅; commits := ∅; refs := ∅; next := 0 |} in
  let step (acc : Store * list TreeEntry) (f : string * string) :=
    let (s', b) := add_blob (fst acc) (Buffer.toBase64 (snd f)) in
    (s', snd acc ++ [{| path := fst f; mode := "100644"; type := "blob"; sha := b |}])%list in
  let (s1, es) := foldl step (s0, []) files in
  let (s2, t) := add_tree s1 (overlay ∅ es) in
  let (s3, c) := add_commit s2 {| tree := t; parents := []; message := "init" |} in
  set_ref s3 "heads/main" c.

(** What a reader of the branch sees at a path. *)
Definition read_file (s : Store) (branch p : string) : option string :=
  t ← head_tree s ("heads/" +:+ branch);
  e ← t !! p;
  Buffer.fromBase64 <$> blobs s !! sha e.

(** *** Well-formed stores *)

(** Every name in use is below the counter. *)
Definition named_below {V} (n : nat) (m : gmap string V) : Prop :=
  forall k, is_Some (m !! k) -> exists i, i < n /\ k = name_of i.

Definition bounded (s : Store) : Prop :=
  named_below (next s) (blobs s) /\ named_below (next s) (trees s)
  /\ named_below (next s) (commits s).

(** The parents of a commit of the store are commits of the store. *)
Definition closed (cs : gmap string CommitObject) : Prop :=
  forall c obj, cs !! c = Some obj ->
    Forall (fun p => is_Some (cs !! p)) (parents obj).

Definition wf (s : Store) : Prop := bounded s /\ closed (commits s).

(** [s'] has the objects of [s], unchanged, and maybe more. *)
Definition extends (s s' : Store) : Prop :=
  blobs s ⊆ blobs s' /\ trees s ⊆ trees s' /\ commits s ⊆ commits s'
  /\ next s <= next s'.

(** The tree entry the service sends for [file], once its blob is in
    the store [s]. *)
Definition entry_for (s : Store) (file : GitHub.GitHubFile) (e : TreeEntry) : Prop :=
  path e = GitHub.name file /\ mode e = "100644" /\ type e = "blob"
  /\ blobs s !! sha e = Some (Buffer.toBase64 (GitHub.content file)).

(** A test of [wf] that computes. *)
Definition names_below (n : nat) : list string := name_of <$> seq 0 n.

Definition wf_check (s : Store) : bool :=
  bool_decide (map_Forall (fun k _ => k ∈ names_below (next s)) (blobs s))
  && bool_decide (map_Forall (fun k _ => k ∈ names_below (next s)) (trees s))
  && bool_decide (map_Forall (fun k _ => k ∈ names_below (next s)) (commits s))
  && bool_decide (map_Forall
       (fun _ obj => Forall (fun p => is_Some (commits s !! p)) (parents obj))
       (commits s)).

(** The store [s'] holds a new commit [cA] on top of the head [h0] of
    branch [ref] in [s]; its tree overlays the entries of [files] on the
    tree [base] of [h0], and the branch points to it. *)
Definition published (s s' : Store) (ref : string)
    (files : list GitHub.GitHubFile) (msg : string)
    (h0 : string) (obj0 : CommitObject) (base : gmap string TreeEntry)
    (entries : list TreeEntry) (tA cA : string) : Prop :=
  refs s !! ref = Some h0 /\ commits s !! h0 = Some obj0
  /\ trees s !! tree obj0 = Some base
  /\ Forall2 (entry_for s') files entries
  /\ commits s !! cA = None
  /\ commits s' !! cA = Some {| tree := tA; parents := [h0]; message := msg |}
  /\ trees s' !! tA = Some (overlay base entries)
  /\ refs s' = <[ref := cA]> (refs s)
  /\ extends s s' /\ bounded s'.

End MemStore.

(* ================================================================== *)
(** ** Outcomes of a batch commit against the in-memory store *)
(* ================================================================== *)

Module BatchRun.
Import Octokit GitHub MemStore.

Section Outcomes.
Variable config : GitHubConfig.
Variable env : World Store.
(** [P i s]: [s] can be the store when call [i] of the run is made. *)
Variable P : nat -> Store -> Prop.

Definition lost_somewhere : Prop :=
  exists k s e, (env k s).2 = Some e.

(** The last three calls were all made. *)
Definition finished (files : list GitHubFile) (message h0 : string)
    (obj0 : CommitObject) (entries : list TreeEntry) (i : nat)
    (o : Outcome Store unit) : Prop :=
  exists base s4 s5 tA cA,
    P (S i) s4 /\ P (S (S i)) s5
    /\ commits (env (S i) s4).1 !! cA = None
    /\ extends (env (S i) s4).1 s5 /\ refs s5 = refs (env (S i) s4).1
    /\ bounded s5
    /\ commits s5 !! h0 = Some obj0 /\ trees s5 !! tree obj0 = Some base
    /\ Forall2 (entry_for s5) files entries
    /\ trees s5 !! tA = Some (overlay base entries)
    /\ commits s5 !! cA = Some {| tree := tA; parents := [h0]; message := message |}
    /\ trace o = [createTree_request config (tree obj0) entries;
                 createCommit_request config message tA h0;
                 request (updateRef_call config cA)]
    /\ final o = (answer handler env (S (S i)) (updateRef_call config cA) s5).1
    /\ result o = (answer handler env (S (S i)) (updateRef_call config cA) s5).2.

(** The run stopped before the ref update was requested. *)
Definition stopped (files : list GitHubFile) (message : string) (s : Store)
    (o : Outcome Store unit) : Prop :=
  result o = failed /\ P (length (trace o)) (final o)
  /\ (lost_somewhere \/ head_tree (env 0 s).1 (branch_ref config) = None).

(** The run got as far as requesting the ref update: [s5] is the store
    at that moment, holding the new commit [cA] on top of [h0]. *)
Definition reached (files : list GitHubFile) (message : string) (s : Store)
    (o : Outcome Store unit) : Prop :=
  exists h0 obj0 base entries s4 s5 tA cA,
    let n := length files in
    refs (env 0 s).1 !! branch_ref config = Some h0
    /\ P (3 + n) s4 /\ P (4 + n) s5
    /\ commits (env (3 + n) s4).1 !! cA = None
    /\ extends (env (3 + n) s4).1 s5 /\ refs s5 = refs (env (3 + n) s4).1
    /\ bounded s5
    /\ commits s5 !! h0 = Some obj0 /\ trees s5 !! tree obj0 = Some base
    /\ Forall2 (entry_for s5) files entries
    /\ trees s5 !! tA = Some (overlay base entries)
    /\ commits s5 !! cA = Some {| tree := tA; parents := [h0]; message := message |}
    /\ trace o = ([getRef_request config; getCommit_request config h0]
                 ++ List.map (blob_request config) files
                 ++ [createTree_request config (tree obj0) entries;
                     createCommit_request config message tA h0;
                     request (updateRef_call config cA)])%list
    /\ final o = (answer handler env (4 + n) (updateRef_call config cA) s5).1
    /\ result o = match (answer handler env (4 + n) (updateRef_call config cA) s5).2 with
                  | inl _ => failed
                  | inr v => inr v
                  end.

End Outcomes.



(** The store has grown from [s] and its refs have not moved. *)
Definition still (s : Store) (i : nat) (st : Store) : Prop :=
  bounded st /\ extends s st /\ refs st = refs s.

Section Race.
Variable config : GitHubConfig.
Variable s : Store.
Variable good : CommitObject -> Prop.
Variable j : nat.



End Race.

End BatchRun.

(* ================================================================== *)
(** ** A sample repository and sample requests *)
(* ================================================================== *)

Module Sample.
Import Octokit.

Definition config : GitHub.GitHubConfig :=
  {| GitHub.owner := "acme"; GitHub.repo := "site";
     GitHub.token := "ghp_sample"; GitHub.branch := None |}.

(** One commit on [main] with three files. *)
Definition repository : MemStore.Store :=
  MemStore.init [("content/a.md", "A"); ("content/b.md", "B");
                 ("content/notes.txt", "n")].

Definition base : gmap string TreeEntry :=
  default ∅ (MemStore.head_tree repository "heads/main").

Definition file (n c : string) (tok : option string) : GitHub.GitHubFile :=
  {| GitHub.name := n; GitHub.content := c; GitHub.sha := tok |}.

Definition batch : list GitHub.GitHubFile :=
  [file "content/a.md" "A2" None; file "content/c.md" "C" None].

(** The same batch with tokens, one of them stale. *)
Definition batch_with_tokens : list GitHub.GitHubFile :=
  [file "content/a.md" "A2" (Some "stale"); file "content/c.md" "C" (Some "0")].



(** Another editor rewrites [content/a.md]. *)
Definition other_editor (s : MemStore.Store) : MemStore.Store :=
  final (run MemStore.handler
           (GitHub.commitFile config "content/a.md" "theirs" "other") s).



Definition env_of (tok : string) : Config.Env :=
  {| Config.GITHUB_TOKEN := Some tok; Config.GITHUB_OWNER := Some "acme";
     Config.GITHUB_REPO := Some "site"; Config.GITHUB_BRANCH := None;
     Config.NODE_ENV := None |}.

Definition good_env : Config.Env := env_of "ghp_sample".
Definition bad_env : Config.Env := env_of "token-without-prefix".

Definition draft : Routes.Draft :=
  {| Routes.id := "draft-1"; Routes.title := "Hello";
     Routes.body := "text"; Routes.createdAt := "2024-01-02T00:00:00.000Z";
     Routes.updatedAt := "2024-01-03T00:00:00.000Z" |}.

(** Stand-ins for lib/drafts.ts and for the renderer. *)
Definition draftToMarkdown (d : Routes.Draft) : Thrown + string :=
  inr (Routes.body d).
Definition generateDraftFilename (d : Routes.Draft) (dir : string) : Thrown + string :=
  inr (dir +:+ "/" +:+ Routes.title d +:+ ".md").
Definition markdownToHTML (md : string) : string := md.

(** [toLowerCase] on ASCII text. *)
Definition lower_ascii (c : ascii) : ascii :=
  let n := N_of_ascii c in
  if ((65 <=? n) && (n <=? 90))%N then ascii_of_N (n + 32) else c.

Definition toLowerCase (s : string) : string :=
  String.string_of_list_ascii (List.map lower_ascii (String.list_ascii_of_string s)).

(** A stand-in for the JSON text of lists that hold copies of one draft,
    with dates as text. *)
Definition stored_draft : DraftStore.Draft string :=
  {| DraftStore.id := "draft-1"; DraftStore.title := "Hello";
     DraftStore.body := "text"; DraftStore.createdAt := "2024-01-02";
     DraftStore.updatedAt := "2024-01-02" |}.

Definition stringify (ds : list (DraftStore.Draft string)) : string :=
  pretty (length ds).

Definition parse (text : string) : Thrown + list (DraftStore.Draft string) :=
  if bool_decide (text = "0") then inr []
  else if bool_decide (text = "1") then inr [stored_draft]
  else inl (Error "Unexpected token").

End Sample.

(* ================================================================== *)
(** * Properties *)
(* ================================================================== *)

(** ** Title extraction *)

Local Open Scope list_scope.

Section TitleFacts.
Import Markdown.

Lemma heading_loop_find lines :
  heading_loop lines = heading_text <$> List.find is_heading lines.
Proof.
  induction lines as [|l ls IH]; [done|].
  cbn [heading_loop List.find]. unfold is_heading at 1.
  destruct (startsWith (u "# ") (trim l)); [done|exact IH].
Qed.

Lemma first_line_loop_find lines :
  first_line_loop lines
  = (fun l => take 100 (trim l)) <$> List.find is_content_line lines.
Proof.
  induction lines as [|l ls IH]; [done|].
  cbn [first_line_loop List.find]. unfold is_content_line at 1.
  destruct (negb _ && negb _); [done|exact IH].
Qed.

Lemma extractMarkdownTitle_title_spec md :
  extractMarkdownTitle md = title_spec md.
Proof.
  unfold extractMarkdownTitle, title_spec.
  rewrite heading_loop_find, first_line_loop_find.
  destruct (List.find is_heading _); [done|].
  by destruct (List.find is_content_line _).
Qed.

Lemma split_newline_line l rest :
  single_line l ->
  split_newline (l ++ 10%N :: rest) = l :: split_newline rest.
Proof.
  unfold single_line, LF. induction l as [|c l IH]; intros Hl; [done|].
  cbn [app split_newline].
  destruct (N.eqb_spec c 10) as [->|_]; [set_solver|].
  rewrite IH; [done|set_solver].
Qed.

Lemma trimStart_length s : length (trimStart s) <= length s.
Proof.
  induction s as [|c s IH]; [done|]. cbn.
  destruct (isWhiteSpace c); cbn; lia.
Qed.

Lemma trimStart_fixed_app x y :
  x <> [] -> trimStart x = x -> trimStart (x ++ y) = x ++ y.
Proof.
  destruct x as [|c x]; [done|]. intros _. cbn.
  destruct (isWhiteSpace c); [|done].
  intros E. pose proof (trimStart_length x) as Hlen.
  rewrite E in Hlen. cbn in Hlen. lia.
Qed.

Lemma trimEnd_length s : length (trimEnd s) <= length s.
Proof.
  unfold trimEnd. rewrite length_rev.
  etrans; [apply trimStart_length|]. by rewrite length_rev.
Qed.

Lemma trim_fixed t :
  trim t = t -> trimStart t = t /\ trimEnd t = t.
Proof.
  unfold trim. intros E.
  assert (trimStart t = t) as E1.
  { pose proof (trimEnd_length (trimStart t)) as H1.
    pose proof (trimStart_length t) as H2.
    rewrite E in H1.
    assert (length (trimStart t) = length t) as Hlen by lia.
    clear -Hlen. induction t as [|c t IH]; [done|].
    cbn in *. destruct (isWhiteSpace c); [|done].
    pose proof (trimStart_length t). lia. }
  split; [done|]. by rewrite E1 in E.
Qed.

Lemma trimEnd_fixed_app x y :
  y <> [] -> trimEnd y = y -> trimEnd (x ++ y) = x ++ y.
Proof.
  unfold trimEnd. intros Hy E.
  rewrite rev_app_distr, trimStart_fixed_app.
  - by rewrite <- rev_app_distr, rev_involutive.
  - intros Hr. apply Hy. by rewrite <- (rev_involutive y), Hr.
  - by rewrite <- E at 2; rewrite rev_involutive.
Qed.

Lemma heading_line_title t body :
  t <> [] -> single_line t -> no_surrounding_whitespace t ->
  extractMarkdownTitle (u "# " ++ t ++ [LF; LF] ++ body) = t.
Proof.
  intros Hne Hline Hws. destruct (trim_fixed t Hws) as [Hs He].
  unfold extractMarkdownTitle.
  change (u "# ") with [35; 32]%N.
  unfold LF.
  replace ([35; 32]%N ++ t ++ [10; 10]%N ++ body)
    with (([35; 32]%N ++ t) ++ 10%N :: 10%N :: body)
    by (by rewrite <- app_assoc).
  rewrite split_newline_line.
  2:{ unfold single_line, LF in *. rewrite elem_of_app, !elem_of_cons, elem_of_nil.
      intros [[|[|[]]]|]; done. }
  cbn [heading_loop].
  assert (trim ([35; 32]%N ++ t) = [35; 32]%N ++ t) as ->.
  { unfold trim. cbn [app trimStart]. cbn [isWhiteSpace].
    replace (isWhiteSpace 35) with false by done.
    change (35%N :: 32%N :: t) with ([35; 32]%N ++ t).
    by apply trimEnd_fixed_app. }
  cbn. unfold substring_from. cbn. exact Hws.
Qed.

End TitleFacts.

(** ** Running programs *)

Section RunFacts.
Import Octokit.
Context {St : Type} (h : Handler St) (env : World St).

Lemma run_env_bind {A B} (p : Prog A) (f : A -> Prog B) i s :
  run_env h env i (bind p f) s
  = then_run (run_env h env i p s) (fun a j s' => run_env h env j (f a) s') i.
Proof.
  revert i s. induction p as [a|e|R c k IH]; intros i s; unfold then_run; cbn.
  - rewrite Nat.add_0_r. by destruct (run_env h env i (f a) s).
  - done.
  - destruct (answer h env i c s) as [s' r]. rewrite IH. unfold then_run. cbn.
    destruct (result (run_env h env (S i) (k r) s')); [done|].
    by rewrite Nat.add_succ_r.
Qed.

Lemma run_env_try_catch {A} (p : Prog A) (hd : Thrown -> Prog A) i s :
  run_env h env i (try_catch p hd) s
  = catch_run (run_env h env i p s) (fun e j s' => run_env h env j (hd e) s') i.
Proof.
  revert i s. induction p as [a|e|R c k IH]; intros i s; unfold catch_run; cbn.
  - done.
  - rewrite Nat.add_0_r. by destruct (run_env h env i (hd e) s).
  - destruct (answer h env i c s) as [s' r]. rewrite IH. unfold catch_run. cbn.
    destruct (result (run_env h env (S i) (k r) s')); [|done].
    by rewrite Nat.add_succ_r.
Qed.

(** A [catch] clause that only throws [e0]. *)
Lemma run_env_rethrow {A} (p : Prog A) (e0 : Thrown) i s :
  run_env h env i (try_catch p (fun _ => Throw e0)) s
  = let o := run_env h env i p s in
    {| final := final o; trace := trace o;
       result := match result o with inl _ => inl e0 | inr a => inr a end |}.
Proof.
  rewrite run_env_try_catch. unfold catch_run. cbn.
  destruct (result (run_env h env i p s)); [|done].
  by rewrite app_nil_r.
Qed.

Lemma run_env_await {R} (c : ApiCall R) i s :
  run_env h env i (await c) s
  = {| final := (answer h env i c s).1; trace := [request c];
       result := (answer h env i c s).2 |}.
Proof. cbn. destruct (answer h env i c s) as [s' [e|r]]; done. Qed.

End RunFacts.

(** ** Strings *)

Section StringFacts.
Import Js.

Lemma startsWith_prefix p s :
  startsWith p s = true <-> exists rest, s = p +:+ rest.
Proof.
  revert s. induction p as [|a p IH]; intros s; cbn.
  - split; [eauto|done].
  - destruct s as [|b s]; cbn.
    + split; [done|]. by intros [? ?].
    + rewrite andb_true_iff, bool_decide_eq_true, IH. split.
      * intros [-> [rest ->]]. eauto.
      * intros [rest [= -> ->]]. eauto.
Qed.

Lemma endsWith_suffix p s :
  endsWith p s = true <-> exists stem, s = stem +:+ p.
Proof.
  induction s as [|a s IH]; cbn.
  - rewrite orb_false_r, bool_decide_eq_true. split.
    + intros <-. by exists "".
    + intros [[|? ?] E]; cbn in E; [done|discriminate].
  - rewrite orb_true_iff, bool_decide_eq_true, IH. split.
    + intros [<-|[stem ->]]; [by exists ""|by exists (String a stem)].
    + intros [[|b stem] E]; cbn in E; [by left|].
      injection E as -> ->. right. eauto.
Qed.

End StringFacts.

(** ** The service against any store *)

Section ServiceFacts.
Import Octokit GitHub.
Context {St : Type} (h : Handler St) (env : World St).
Variable config : GitHubConfig.

Lemma run_fetchMarkdownFile filePath i s :
  run_env h env i (fetchMarkdownFile config filePath) s
  = let a := answer h env i (read_request config filePath) s in
    {| final := a.1; trace := [request (read_request config filePath)];
       result := match a.2 with
                 | inr (FileObject content _) => inr (Buffer.fromBase64 content)
                 | _ => inl (Error ("Failed to fetch file: " +:+ filePath))
                 end |}.
Proof.
  unfold fetchMarkdownFile, read_request. cbn.
  by destruct (answer h env i _ s) as [s' [e|[items|content sha|sha]]].
Qed.

Lemma run_listMarkdownFiles directory i s :
  run_env h env i (listMarkdownFiles config directory) s
  = let a := answer h env i (read_request config (default "" directory)) s in
    {| final := a.1; trace := [request (read_request config (default "" directory))];
       result := inr match a.2 with
                     | inr (DirectoryListing items) =>
                         List.map item_path (List.filter is_markdown_file items)
                     | _ => []
                     end |}.
Proof.
  unfold listMarkdownFiles, read_request. cbn.
  by destruct (answer h env i _ s) as [s' [e|[items|content sha|sha]]].
Qed.

Lemma run_commitFile filePath content message i s :
  run_env h env i (commitFile config filePath content message) s
  = let a := answer h env i (read_request config filePath) s in
    let failed := inl (Error ("Failed to commit file: " +:+ filePath)) in
    match token_after a.2 with
    | None => {| final := a.1; trace := [request (read_request config filePath)];
                 result := failed |}
    | Some tok =>
        let w := answer h env (S i) (write_request config filePath content message tok) a.1 in
        {| final := w.1;
           trace := [request (read_request config filePath);
                     request (write_request config filePath content message tok)];
           result := match w.2 with inl _ => failed | inr v => inr v end |}
    end.
Proof.
  unfold commitFile, getFileSha, read_request, write_request. cbn.
  destruct (answer h env i _ s) as [s' [e|[items|c sha|sha]]]; cbn.
  - destruct (status_is_404 e); cbn; [|done].
    by destruct (answer h env (S i) _ s') as [s'' [e'|[]]].
  - by destruct (answer h env (S i) _ s') as [s'' [e'|[]]].
  - by destruct (answer h env (S i) _ s') as [s'' [e'|[]]].
  - by destruct (answer h env (S i) _ s') as [s'' [e'|[]]].
Qed.

End ServiceFacts.

(** ** The in-memory store *)

Section StoreFacts.
Import Octokit MemStore.

Lemma name_of_inj i j : name_of i = name_of j -> i = j.
Proof. unfold name_of. apply (inj pretty). Qed.

Lemma named_below_fresh {V} n (m : gmap string V) :
  named_below n m -> m !! name_of n = None.
Proof.
  intros Hb. destruct (m !! name_of n) eqn:E; [|done].
  destruct (Hb (name_of n)) as [i [Hlt Hi]]; [by rewrite E|].
  apply name_of_inj in Hi. lia.
Qed.

Lemma named_below_mono {V} n n' (m : gmap string V) :
  n <= n' -> named_below n m -> named_below n' m.
Proof. intros Hle Hb k Hk. destruct (Hb k Hk) as [i [? ?]]. exists i. split; [lia|done]. Qed.

Lemma named_below_insert {V} n (m : gmap string V) v :
  named_below n m -> named_below (S n) (<[name_of n := v]> m).
Proof.
  intros Hb k Hk. destruct (decide (k = name_of n)) as [->|Hne].
  - exists n. split; [lia|done].
  - rewrite lookup_insert_ne in Hk by done.
    destruct (Hb k Hk) as [i [? ?]]. exists i. split; [lia|done].
Qed.

Lemma extends_refl s : extends s s.
Proof. by repeat split. Qed.

Lemma extends_trans s1 s2 s3 : extends s1 s2 -> extends s2 s3 -> extends s1 s3.
Proof.
  intros (?&?&?&?) (?&?&?&?). repeat split; try (etrans; eassumption).
Qed.

Lemma add_blob_spec s content :
  bounded s ->
  let s' := (add_blob s content).1 in
  let b := (add_blob s content).2 in
  bounded s' /\ extends s s' /\ refs s' = refs s /\ commits s' = commits s
  /\ trees s' = trees s /\ blobs s !! b = None /\ blobs s' !! b = Some content.
Proof.
  intros (Hb & Ht & Hc). cbn.
  pose proof (named_below_fresh _ _ Hb) as Hfresh.
  repeat split; cbn; try done.
  - by apply named_below_insert.
  - by apply (named_below_mono (next s)); [lia|].
  - by apply (named_below_mono (next s)); [lia|].
  - by apply insert_subseteq.
  - lia.
  - by rewrite lookup_insert_eq.
Qed.

Lemma add_tree_spec s t :
  bounded s ->
  let s' := (add_tree s t).1 in
  let n := (add_tree s t).2 in
  bounded s' /\ extends s s' /\ refs s' = refs s /\ commits s' = commits s
  /\ trees s !! n = None /\ trees s' !! n = Some t.
Proof.
  intros (Hb & Ht & Hc). cbn.
  pose proof (named_below_fresh _ _ Ht) as Hfresh.
  repeat split; cbn; try done.
  - by apply (named_below_mono (next s)); [lia|].
  - by apply named_below_insert.
  - by apply (named_below_mono (next s)); [lia|].
  - by apply insert_subseteq.
  - lia.
  - by rewrite lookup_insert_eq.
Qed.

Lemma add_commit_spec s c :
  bounded s ->
  let s' := (add_commit s c).1 in
  let n := (add_commit s c).2 in
  bounded s' /\ extends s s' /\ refs s' = refs s /\ trees s' = trees s
  /\ commits s !! n = None /\ commits s' !! n = Some c.
Proof.
  intros (Hb & Ht & Hc). cbn.
  pose proof (named_below_fresh _ _ Hc) as Hfresh.
  repeat split; cbn; try done.
  - by apply (named_below_mono (next s)); [lia|].
  - by apply (named_below_mono (next s)); [lia|].
  - by apply named_below_insert.
  - by apply insert_subseteq.
  - lia.
  - by rewrite lookup_insert_eq.
Qed.


(** A new commit on top of [h0] is a fast forward from [h0]. *)
Lemma is_ancestor_parent cs fuel h0 c obj :
  cs !! c = Some obj -> parents obj = [h0] ->
  is_ancestor cs (S fuel) h0 c = true.
Proof.
  intros Hc Hp. cbn. rewrite Hc, Hp. cbn.
  rewrite orb_true_iff. right.
  destruct fuel; cbn; by rewrite bool_decide_eq_true_2.
Qed.


(** Paths outside the batch keep their entry. *)
Lemma overlay_other base entries p :
  p ∉ List.map path entries -> overlay base entries !! p = base !! p.
Proof.
  unfold overlay. revert base.
  induction entries as [|e es IH]; intros base Hp; cbn; [done|].
  cbn in Hp. rewrite not_elem_of_cons in Hp. destruct Hp as [Hne Hp].
  rewrite IH by done. by rewrite lookup_insert_ne.
Qed.

(** A path of the batch gets one of the batch's entries for that path. *)
Lemma overlay_batch base entries p :
  p ∈ List.map path entries ->
  exists e, e ∈ entries /\ path e = p /\ overlay base entries !! p = Some e.
Proof.
  unfold overlay. revert base.
  induction entries as [|e es IH]; intros base Hp; cbn in *.
  - by apply elem_of_nil in Hp.
  - destruct (decide (p ∈ List.map path es)) as [Hin|Hnin].
    + destruct (IH (<[path e := e]> base) Hin) as (e' & He' & Hpe & Hl).
      exists e'. split; [by right|done].
    + apply elem_of_cons in Hp as [->|Hp]; [|done].
      exists e. split; [by left|]. split; [done|].
      pose proof (overlay_other (<[path e := e]> base) es (path e) Hnin) as Ho.
      unfold overlay in Ho. rewrite Ho. by rewrite lookup_insert_eq.
Qed.

End StoreFacts.

(** ** A batch commit against the in-memory store *)

Section BatchFacts.
Import Octokit GitHub MemStore BatchRun.
Local Arguments branch_ref : simpl never.
Local Arguments add_blob : simpl never.
Local Arguments add_tree : simpl never.
Local Arguments add_commit : simpl never.
Local Arguments set_ref : simpl never.
Variable config : GitHubConfig.
Variable env : World Store.

(** [P i s]: [s] can be the store when call [i] of the run is made.
    Whatever the world does then keeps the store bounded and only adds
    objects, and the service's own calls before the ref update add
    objects and leave the refs alone. *)
Variable P : nat -> Store -> Prop.
Hypothesis P_env : forall i s, P i s ->
  bounded (env i s).1 /\ extends s (env i s).1.
Hypothesis P_step : forall i s s', P i s ->
  bounded s' -> extends (env i s).1 s' -> refs s' = refs (env i s).1 ->
  P (S i) s'.

Lemma answer_fault {R} i (c : ApiCall R) s e :
  (env i s).2 = Some e -> answer handler env i c s = ((env i s).1, inl e).
Proof. unfold answer. destruct (env i s) as [s' f]. cbn. by intros ->. Qed.

Lemma answer_served {R} i (c : ApiCall R) s :
  (env i s).2 = None -> answer handler env i c s = handler R c (env i s).1.
Proof. unfold answer. destruct (env i s) as [s' f]. cbn. by intros ->. Qed.

Lemma P_keep i s : P i s -> P (S i) (env i s).1.
Proof.
  intros HP. destruct (P_env i s HP) as [Hb He].
  apply (P_step i s); [done|done|apply extends_refl|done].
Qed.

Lemma entry_for_extends s s' file e :
  extends s s' -> entry_for s file e -> entry_for s' file e.
Proof.
  intros (Hsub&_) (?&?&?&Hb). repeat split; try done.
  by apply (lookup_weaken _ _ _ _ Hb).
Qed.

Lemma blobs_settled files i s :
  P i s ->
  let o := run_env handler env i
             (allSettled (List.map (createBlobEntry config) files)) s in
  P (i + length files) (final o) /\ extends s (final o)
  /\ trace o = List.map (blob_request config) files
  /\ exists rs, result o = inr rs
     /\ Forall2 (fun file r =>
          match r with
          | inr e => entry_for (final o) file e
          | inl _ => (lost_somewhere env)
          end) files rs.
Proof.
  revert i s. induction files as [|file files IH]; intros i s HP; cbn.
  - rewrite Nat.add_0_r. split_and!; [done|apply extends_refl|done|].
    exists []. by split.
  - destruct (P_env i s HP) as [Hb Hext].
    destruct ((env i s).2) as [e|] eqn:Ef.
    + rewrite (answer_fault _ _ _ e Ef). cbn.
      rewrite run_env_bind. unfold then_run.
      destruct (IH (S i) (env i s).1 (P_keep i s HP)) as (HP' & Hsub & Htr & rs & Hrs & Hall).
      rewrite Hrs. cbn. rewrite Htr, app_nil_r.
      replace (i + S (length files)) with (S i + length files) by lia.
      split_and!; [done|by eapply extends_trans|done|].
      exists (inl e :: rs). split; [done|].
      constructor; [|done]. by exists i, s, e.
    + rewrite (answer_served _ _ _ Ef). cbn.
      destruct (add_blob_spec (env i s).1 (Buffer.toBase64 (content file)) Hb)
        as (Hb1 & Hext1 & Hrefs1 & _ & _ & _ & Hnew).
      unfold createBlob. rewrite bool_decide_eq_true_2 by done.
      destruct (add_blob (env i s).1 (Buffer.toBase64 (content file))) as [s1 b] eqn:Eadd.
      cbn in *. rewrite run_env_bind. unfold then_run.
      assert (P (S i) s1) as HP1 by (by apply (P_step i s)).
      destruct (IH (S i) s1 HP1) as (HP' & Hsub & Htr & rs & Hrs & Hall).
      rewrite Hrs. cbn. rewrite Htr, app_nil_r.
      replace (i + S (length files)) with (S i + length files) by lia.
      split_and!; [done|by do 2 (eapply extends_trans; [eassumption|])|done|].
      eexists (inr _ :: rs). split; [done|].
      constructor; [|done].
      apply (entry_for_extends s1); [done|]. by repeat split.
Qed.

Lemma collect_inr {A} (rs : list (Thrown + A)) l :
  collect rs = inr l -> rs = inr <$> l.
Proof.
  revert l. induction rs as [|[e|a] rs IH]; intros l; cbn.
  - by intros [= <-].
  - done.
  - destruct (collect rs) as [e|l']; [done|]. intros [= <-]. by rewrite (IH l').
Qed.

Lemma collect_inl {A} (rs : list (Thrown + A)) e :
  collect rs = inl e -> inl e ∈ rs.
Proof.
  induction rs as [|[e'|a] rs IH]; cbn; [done| |].
  - intros [= ->]. by left.
  - destruct (collect rs); [|done]. intros [= ->]. right. by apply IH.
Qed.

Lemma all_blobs files i s :
  P i s ->
  let o := run_env handler env i (all (List.map (createBlobEntry config) files)) s in
  P (i + length files) (final o) /\ extends s (final o)
  /\ trace o = List.map (blob_request config) files
  /\ match result o with
     | inl _ => (lost_somewhere env)
     | inr entries => Forall2 (entry_for (final o)) files entries
     end.
Proof.
  intros HP. unfold all. cbn zeta. rewrite run_env_bind. unfold then_run.
  destruct (blobs_settled files i s HP) as (HP' & Hext & Htr & rs & Hrs & Hall).
  rewrite Hrs. destruct (collect rs) as [e|entries] eqn:Ec; cbn.
  - rewrite app_nil_r. split_and!; [done..|].
    apply collect_inl in Ec. apply list_elem_of_lookup in Ec as [k Hk].
    destruct (Forall2_lookup_r _ _ _ _ _ Hall Hk) as (file & _ & Hf). exact Hf.
  - rewrite app_nil_r. split_and!; [done..|].
    apply collect_inr in Ec. subst rs.
    apply Forall2_fmap_r in Hall. exact Hall.
Qed.

Lemma finish_run files message h0 obj0 entries i s3 :
  P i s3 -> commits s3 !! h0 = Some obj0 ->
  Forall2 (entry_for s3) files entries ->
  let o := run_env handler env i (finish config (tree obj0) h0 message entries) s3 in
  ((exists e, result o = inl e) /\ P (i + length (trace o)) (final o)
   /\ ((lost_somewhere env) \/ trees (env i s3).1 !! tree obj0 = None))
  \/ finished config env P files message h0 obj0 entries i o.
Proof.
  intros HP3 Hh0 Hent. unfold finish. cbn zeta. cbn [run_env bind await].
  destruct (P_env i s3 HP3) as [Hb3 Hext3].
  pose proof (P_keep i s3 HP3) as HP4k.
  (* createTree *)
  destruct ((env i s3).2) as [e|] eqn:Ef3.
  { rewrite (answer_fault _ _ _ e Ef3). cbn. left.
    replace (i + 1) with (S i) by lia.
    split_and!; [by eexists|done|]. left. by exists i, s3, e. }
  rewrite (answer_served _ _ _ Ef3). cbn [handler]. unfold createTree.
  set (s3' := (env i s3).1) in *.
  destruct (trees s3' !! tree obj0) as [base|] eqn:Ebase.
  2:{ cbn. left. replace (i + 1) with (S i) by lia.
      split_and!; [by eexists|done|by right]. }
  assert (forallb (fun e => bool_decide (is_Some (blobs s3' !! Octokit.sha e))) entries = true)
    as ->.
  { apply forallb_forall. intros e He%list_elem_of_In.
    apply list_elem_of_lookup in He as [k Hk].
    destruct (Forall2_lookup_r _ _ _ _ _ Hent Hk) as (file & _ & Hf).
    apply (entry_for_extends _ s3') in Hf; [|done].
    destruct Hf as (_&_&_&Hf). apply bool_decide_eq_true. by rewrite Hf. }
  destruct (add_tree_spec s3' (overlay base entries) Hb3)
    as (Hb4 & Hext4 & Hrefs4 & Hcom4 & _ & Hnew4).
  destruct (add_tree s3' (overlay base entries)) as [s4 tA] eqn:Eadd4.
  cbn [fst snd] in *. cbn [run_env bind].
  assert (P (S i) s4) as HP4 by (by apply (P_step i s3)).
  destruct (P_env (S i) s4 HP4) as [Hb4' Hext4'].
  pose proof (P_keep (S i) s4 HP4) as HP5k.
  (* createCommit *)
  destruct ((env (S i) s4).2) as [e|] eqn:Ef4.
  { rewrite (answer_fault _ _ _ e Ef4). cbn. left.
    replace (i + 2) with (S (S i)) by lia.
    split_and!; [by eexists|done|]. left. by exists (S i), s4, e. }
  rewrite (answer_served _ _ _ Ef4). cbn [handler]. unfold createCommit.
  set (s4' := (env (S i) s4).1) in *.
  assert (extends s3 s4') as Hext34.
  { eapply extends_trans; [exact Hext3|]. by eapply extends_trans. }
  assert (trees s4' !! tA = Some (overlay base entries)) as HtA.
  { destruct Hext4' as (_&Ht&_). by apply (lookup_weaken _ _ _ _ Hnew4). }
  assert (commits s4' !! h0 = Some obj0) as Hh0'.
  { destruct Hext34 as (_&_&Hc&_). by apply (lookup_weaken _ _ _ _ Hh0). }
  cbn [forallb]. rewrite HtA, Hh0'.
  rewrite !bool_decide_eq_true_2 by eauto. cbn [andb].
  set (objA := {| tree := tA; parents := [h0]; message := message |}).
  destruct (add_commit_spec s4' objA Hb4')
    as (Hb5 & Hext5 & Hrefs5 & Htrees5 & Hfresh5 & Hnew5).
  destruct (add_commit s4' objA) as [s5 cA] eqn:Eadd5.
  cbn [fst snd] in *. cbn [run_env bind].
  assert (P (S (S i)) s5) as HP5 by (by apply (P_step (S i) s4)).
  (* updateRef *)
  right. exists base, s4, s5, tA, cA.
  assert (extends s3 s5) as Hext35 by (by eapply extends_trans).
  split_and!; try done.
  - destruct Hext5 as (_&_&Hc&_). by apply (lookup_weaken _ _ _ _ Hh0').
  - rewrite Htrees5.
    assert (extends s3' s4') as (_&Ht&_) by (by eapply extends_trans).
    by apply (lookup_weaken _ _ _ _ Ebase).
  - eapply Forall2_impl; [exact Hent|]. intros file e.
    by apply entry_for_extends.
  - by rewrite Htrees5.
  - by rewrite run_env_await.
  - by rewrite run_env_await.
  - by rewrite run_env_await.
Qed.


(** A batch commit either stops before the ref update is requested or
    requests it for a new commit on top of the head it read. *)
Lemma commit_run files message s :
  P 0 s ->
  let o := run_env handler env 0 (commitMultipleFiles config files message) s in
  stopped config env P files message s o \/ reached config env P files message s o.
Proof.
  intros HP0. unfold commitMultipleFiles. rewrite run_env_rethrow. cbn zeta.
  fold (branch_ref config). cbn [run_env bind await].
  destruct (P_env 0 s HP0) as [Hb0 Hext0].
  pose proof (P_keep 0 s HP0) as HP1.
  (* getRef *)
  destruct ((env 0 s).2) as [e|] eqn:Ef0.
  { rewrite (answer_fault _ _ _ e Ef0). cbn. left.
    split_and!; [done|done|]. left. by exists 0, s, e. }
  rewrite (answer_served _ _ _ Ef0). cbn [handler]. unfold getRef.
  set (s1 := (env 0 s).1) in *.
  destruct (refs s1 !! (branch_ref config)) as [h0|] eqn:Eref.
  2:{ cbn. left. split_and!; [done|done|]. right. unfold head_tree. fold s1.
      by rewrite Eref. }
  cbn [run_env bind].
  (* getCommit *)
  destruct (P_env 1 s1 HP1) as [Hb1 Hext1].
  pose proof (P_keep 1 s1 HP1) as HP2.
  destruct ((env 1 s1).2) as [e|] eqn:Ef1.
  { rewrite (answer_fault _ _ _ e Ef1). cbn. left.
    split_and!; [done|done|]. left. by exists 1, s1, e. }
  rewrite (answer_served _ _ _ Ef1). cbn [handler]. unfold getCommit.
  set (s2 := (env 1 s1).1) in *.
  destruct (commits s2 !! h0) as [obj0|] eqn:Ecom.
  2:{ cbn. left. split_and!; [done|done|]. right. unfold head_tree. fold s1.
      rewrite Eref. cbn.
      destruct (commits s1 !! h0) as [obj|] eqn:E1; [|done].
      destruct Hext1 as (_&_&Hc&_).
      by rewrite (lookup_weaken _ _ _ _ E1 Hc) in Ecom. }
  cbn [run_env bind commit_sha commit_tree_sha].
  (* the blobs *)
  pose proof (all_blobs files 2 s2 HP2) as Hblobs. cbn zeta in Hblobs.
  rewrite run_env_bind. unfold then_run.
  destruct (run_env handler env 2 (all (List.map (createBlobEntry config) files)) s2)
    as [s3 trb resb].
  cbn [final trace result] in *.
  destruct Hblobs as (HP3 & Hext23 & -> & Hres).
  rewrite length_map.
  destruct resb as [e|entries].
  { left. unfold stopped. cbn [final trace result length]. rewrite length_map.
    split_and!; [done|done|by left]. }
  set (n := length files) in *.
  assert (commits s3 !! h0 = Some obj0) as Hh3.
  { destruct Hext23 as (_&_&Hc&_). by apply (lookup_weaken _ _ _ _ Ecom). }
  pose proof (finish_run files message h0 obj0 entries (2 + n) s3 HP3 Hh3 Hres) as Hfin.
  unfold finish in Hfin. cbn zeta in Hfin.
  destruct (run_env handler env (2 + n) _ s3) as [sf trf resf].
  cbn [final trace result] in *.
  destruct Hfin as [([e ->] & HPf & Hwhy)|Hfin].
  - left. unfold stopped. cbn [final trace result length]. split_and!; [done| |].
    + rewrite length_app, length_map. fold n.
      by replace (S (S (n + length trf))) with (2 + n + length trf) by lia.
    + destruct Hwhy as [?|Hnone]; [by left|]. right.
      unfold head_tree. fold s1. rewrite Eref. cbn.
      destruct (commits s1 !! h0) as [obj|] eqn:E1; [|done]. cbn.
      assert (obj = obj0) as ->.
      { destruct Hext1 as (_&_&Hc&_).
        rewrite (lookup_weaken _ _ _ _ E1 Hc) in Ecom. by injection Ecom. }
      destruct (trees s1 !! tree obj0) as [t|] eqn:E2; [|done].
      destruct (P_env (2 + n) s3 HP3) as [_ Hext3].
      assert (extends s1 (env (2 + n) s3).1) as (_&Ht&_).
      { eapply extends_trans; [exact Hext1|]. by eapply extends_trans. }
      by rewrite (lookup_weaken _ _ _ _ E2 Ht) in Hnone.
  - right. destruct Hfin as (base & s4 & s5 & tA & cA & H1 & H2 & H3 & H4 & H5 & H6
                             & H7 & H8 & H9 & H10 & H11 & H12 & H13 & H14).
    cbn [final trace result] in *.
    exists h0, obj0, base, entries, s4, s5, tA, cA. cbn zeta. fold n.
    split_and!; try done.
    + by rewrite H12.
    + by rewrite H14.
Qed.

End BatchFacts.

(** ** A batch commit when requests may be lost *)

Section WfCheck.
Import MemStore.

Lemma names_below_named {V} n (m : gmap string V) :
  map_Forall (fun k _ => k ∈ names_below n) m -> named_below n m.
Proof.
  intros Hall k [v Hk]. specialize (Hall k v Hk). cbn in Hall.
  unfold names_below in Hall. apply list_elem_of_fmap in Hall as [i [-> Hi]].
  apply elem_of_seq in Hi. exists i. split; [lia|done].
Qed.

Lemma wf_check_sound s : wf_check s = true -> wf s.
Proof.
  unfold wf_check. rewrite !andb_true_iff, !bool_decide_eq_true.
  intros [[[Hb Ht] Hc] Hcl].
  split; [split_and!; by apply names_below_named|].
  intros c obj Hc'. exact (Hcl c obj Hc').
Qed.

End WfCheck.

Section LossFacts.
Import Octokit GitHub MemStore BatchRun.
Local Arguments branch_ref : simpl never.
Local Arguments set_ref : simpl never.
Variable config : GitHubConfig.
Variable lost : nat -> option Thrown.
Variable s : Store.
Hypothesis s_bounded : bounded s.

Local Abbreviation ref := (branch_ref config).

Lemma still_env i st :
  (still s) i st -> bounded (faults lost i st).1 /\ extends st (faults lost i st).1.
Proof. intros (?&?&?). split; [done|apply extends_refl]. Qed.

Lemma still_step i st st' :
  (still s) i st -> bounded st' -> extends (faults lost i st).1 st' ->
  refs st' = refs (faults lost i st).1 -> (still s) (S i) st'.
Proof.
  cbn. intros (?&?&?) ? ? ?. split_and!; [done|by eapply extends_trans|congruence].
Qed.

Lemma set_ref_spec st r c :
  bounded st ->
  bounded (set_ref st r c) /\ extends st (set_ref st r c)
  /\ commits (set_ref st r c) = commits st /\ trees (set_ref st r c) = trees st
  /\ blobs (set_ref st r c) = blobs st
  /\ refs (set_ref st r c) = <[r := c]> (refs st).
Proof. intros Hb. split_and!; try done. Qed.

Lemma bounded_next_pos st c obj :
  bounded st -> commits st !! c = Some obj -> exists k, next st = S k.
Proof.
  intros (_&_&Hc) Hl. destruct (Hc c) as [i [Hlt _]]; [by rewrite Hl|].
  destruct (next st); [lia|by eexists].
Qed.

Lemma head_tree_Some st r base :
  head_tree st r = Some base ->
  exists h0 obj0, refs st !! r = Some h0 /\ commits st !! h0 = Some obj0
                  /\ trees st !! tree obj0 = Some base.
Proof.
  unfold head_tree. intros H.
  destruct (refs st !! r) as [h0|] eqn:E1; [|done]. cbn in H.
  destruct (commits st !! h0) as [obj0|] eqn:E2; [|done]. cbn in H.
  exists h0, obj0. by rewrite E2.
Qed.

Lemma batch_all_or_nothing files message base :
  head_tree s ref = Some base ->
  let o := run_env handler (faults lost) 0
             (commitMultipleFiles config files message) s in
  (result o = failed /\ refs (final o) = refs s /\ extends s (final o)
   /\ exists k e, lost k = Some e)
  \/ (result o = inr tt
      /\ exists h0 obj0 entries tA cA,
          published s (final o) ref files message h0 obj0 base entries tA cA
          /\ trace o = [getRef_request config; getCommit_request config h0]
                       ++ List.map (blob_request config) files
                       ++ [createTree_request config (tree obj0) entries;
                           createCommit_request config message tA h0;
                           request (updateRef_call config cA)]).
Proof.
  intros Hhead.
  destruct (head_tree_Some _ _ _ Hhead) as (h0 & obj0 & Hs_ref & Hs_h0 & Hs_base).
  assert ((still s) 0 s) as H0 by (split_and!; [done|apply extends_refl|done]).
  destruct (commit_run config (faults lost) (still s) still_env still_step
              files message s H0) as [Hstop|Hreach].
  - left. destruct Hstop as (Hres & (_&Hext&Hrefs) & Hwhy).
    split_and!; [done..|].
    destruct Hwhy as [(k & st & e & Hk)|Hnone]; [by exists k, e|].
    cbn [faults fst] in Hnone. fold ref in Hnone. congruence.
  - destruct Hreach as (h0' & obj0' & base' & entries & s4 & s5 & tA & cA & Hreach).
    cbn zeta in Hreach.
    destruct Hreach as (Href & (_&Hext4&_) & (Hb5&Hext5&Hrefs5) & Hfresh & _ & _ & _
                        & Hh0 & Hbase & Hent & HtA & HcA & Htr & Hfin & Hres).
    cbn [faults fst] in *. fold ref in Href.
    assert (h0' = h0) as -> by congruence.
    assert (obj0' = obj0) as ->.
    { destruct Hext5 as (_&_&Hc&_).
      rewrite (lookup_weaken _ _ _ _ Hs_h0 Hc) in Hh0. by injection Hh0. }
    assert (base' = base) as ->.
    { destruct Hext5 as (_&Ht&_).
      rewrite (lookup_weaken _ _ _ _ Hs_base Ht) in Hbase. by injection Hbase. }
    unfold answer in Hfin, Hres. cbn [faults] in Hfin, Hres.
    destruct (lost (4 + length files)) as [e|] eqn:El.
    { left. rewrite Hfin, Hres. cbn. split_and!; [done..|]. by eexists _, _. }
    right. cbn [handler updateRef_call] in Hfin, Hres. unfold updateRef in Hfin, Hres.
    fold ref in Hfin, Hres.
    assert (refs s5 !! ref = Some h0) as Hr5 by (by rewrite Hrefs5).
    rewrite Hr5, HcA in Hfin, Hres.
    rewrite bool_decide_eq_true_2 in Hfin, Hres by eauto.
    destruct (bounded_next_pos s5 cA _ Hb5 HcA) as [k Hk].
    unfold fast_forward in Hfin, Hres. rewrite Hk in Hfin, Hres.
    rewrite (is_ancestor_parent _ k h0 cA _ HcA eq_refl) in Hfin, Hres.
    cbn [fst snd] in Hfin, Hres.
    split; [done|].
    exists h0, obj0, entries, tA, cA. split; [|done].
    rewrite Hfin.
    destruct (set_ref_spec s5 ref cA Hb5) as (Hb6 & Hext6 & Hc6 & Ht6 & Hbl6 & Hr6).
    assert (commits s !! cA = None) as HfreshA.
    { destruct (commits s !! cA) eqn:E; [|done].
      destruct Hext4 as (_&_&Hc&_).
      by rewrite (lookup_weaken _ _ _ _ E Hc) in Hfresh. }
    unfold published.
    split_and!; [done|done|done| |done|by rewrite Hc6|by rewrite Ht6
                |by rewrite Hr6, Hrefs5|by eapply extends_trans|done].
    eapply Forall2_impl; [exact Hent|]. intros f e (?&?&?&?).
    by repeat split.
Qed.

End LossFacts.

(** ** A batch commit racing with another writer *)

Section RaceFacts.
Import Octokit GitHub MemStore BatchRun.
Local Arguments branch_ref : simpl never.
Local Arguments set_ref : simpl never.
Variable config : GitHubConfig.
Variable s : Store.
Variable base : gmap string TreeEntry.
Variable other : Store -> Store.
Variable good : CommitObject -> Prop.
Variable j : nat.

Local Abbreviation ref := (branch_ref config).

Hypothesis s_bounded : bounded s.
Hypothesis s_closed : closed (commits s).
Hypothesis s_head : head_tree s ref = Some base.

(** The other writer adds objects and moves the branch to a commit of
    its own, a [good] one, whenever the branch is still where it was
    in [s]. *)
Hypothesis other_advances : forall st,
  bounded st -> extends s st -> refs st = refs s ->
  bounded (other st) /\ extends st (other st)
  /\ exists cB, refs (other st) = <[ref := cB]> (refs st)
                /\ commits st !! cB = None
                /\ exists obj, commits (other st) !! cB = Some obj /\ good obj.








End RaceFacts.

(** ** Consequences for readers of the branch *)

Section BatchCorollaries.
Import Octokit GitHub MemStore BatchRun.



(** Without lost requests and without other writers, a batch commit on
    a branch that has a head goes through. *)
Lemma batch_succeeds config files message s base :
  bounded s -> head_tree s (branch_ref config) = Some base ->
  let o := run handler (commitMultipleFiles config files message) s in
  result o = inr tt
  /\ exists h0 obj0 entries tA cA,
      published s (final o) (branch_ref config) files message
        h0 obj0 base entries tA cA
      /\ trace o = [getRef_request config; getCommit_request config h0]
                   ++ List.map (blob_request config) files
                   ++ [createTree_request config (tree obj0) entries;
                       createCommit_request config message tA h0;
                       request (updateRef_call config cA)].
Proof.
  intros Hb Hhead.
  destruct (batch_all_or_nothing config (fun _ => None) s Hb files message base Hhead)
    as [(_&_&_&k&e&Hk)|Hall]; [done|exact Hall].
Qed.

(** What a reader of the branch finds after a batch commit. *)
Lemma published_paths s s' ref files msg h0 obj0 base entries tA cA :
  published s s' ref files msg h0 obj0 base entries tA cA ->
  head_tree s' ref = Some (overlay base entries)
  /\ (forall p, p ∉ List.map name files ->
        overlay base entries !! p = base !! p)
  /\ (forall p, p ∈ List.map name files ->
        exists file e, file ∈ files /\ name file = p
          /\ overlay base entries !! p = Some e /\ entry_for s' file e).
Proof.
  intros (Href & Hh0 & Hbase & Hent & Hfresh & HcA & HtA & Hrefs & Hext & Hb).
  assert (List.map path entries = List.map name files) as Hnames.
  { clear -Hent. induction Hent as [|f e fs es (Hp&_) _ IH]; [done|].
    cbn. by rewrite Hp, IH. }
  split_and!.
  - unfold head_tree. rewrite Hrefs, lookup_insert_eq. cbn. rewrite HcA. cbn.
    exact HtA.
  - intros p Hp. apply overlay_other. by rewrite Hnames.
  - intros p Hp. rewrite <- Hnames in Hp.
    destruct (overlay_batch base entries p Hp) as (e & He & Hpe & Hl).
    apply list_elem_of_lookup in He as [k Hk].
    destruct (Forall2_lookup_r _ _ _ _ _ Hent Hk) as (file & Hfile & Hfe).
    exists file, e. split_and!; [by eapply list_elem_of_lookup_2| |done|done].
    destruct Hfe as (Hpf & _). congruence.
Qed.


End BatchCorollaries.


(** ** Rendering: what the module itself decides *)

(** Every rendering is the output of the sanitizer, called with the fixed
    options, or the fixed placeholder; the caller has no say in it. *)
Lemma markdownToHTML_sanitized marked sanitize markdownContent :
  (exists htmlContent,
     sanitize Markdown.sanitize_options htmlContent
     = inr (Markdown.markdownToHTML marked sanitize markdownContent))
  \/ Markdown.markdownToHTML marked sanitize markdownContent
     = "<p>Error processing content</p>".
Proof.
  unfold Markdown.markdownToHTML, Markdown.sanitizeHTML.
  destruct (sanitize _ _) eqn:E; [by right|left; eauto].
Qed.

(** The options allow neither the script element nor an attribute whose
    name starts with "on", and they turn data attributes off. *)
Lemma sanitize_options_exclude_script :
  ("script" ∉ Markdown.ALLOWED_TAGS Markdown.sanitize_options)
  /\ Forall (fun a => Js.startsWith "on" a = false)
       (Markdown.ALLOWED_ATTR Markdown.sanitize_options)
  /\ Markdown.ALLOW_DATA_ATTR Markdown.sanitize_options = false.
Proof.
  split_and!; [|by repeat constructor|done].
  intros H. cbn in H. repeat (apply elem_of_cons in H as [H|H]; [discriminate|]).
  by apply elem_of_nil in H.
Qed.

(** ** Examples *)

Example extract_heading :
  Markdown.extractMarkdownTitle
    (Markdown.u "intro" ++ [Markdown.LF] ++ Markdown.u "  # Hello World  "
     ++ [Markdown.LF] ++ Markdown.u "body")
  = Markdown.u "Hello World".
Proof. reflexivity. Qed.

Example extract_first_line :
  Markdown.extractMarkdownTitle
    (Markdown.u "---" ++ [Markdown.LF] ++ Markdown.u "title: x" ++ [Markdown.LF]
     ++ Markdown.u "---" ++ [Markdown.LF] ++ Markdown.u "body")
  = Markdown.u "title: x".
Proof. reflexivity. Qed.

Example extract_untitled :
  Markdown.extractMarkdownTitle
    ([Markdown.LF] ++ Markdown.u "---" ++ [Markdown.LF])
  = Markdown.u "Untitled".
Proof. reflexivity. Qed.

Example base64_of_hello :
  Buffer.toBase64 "Hello, World!" = "SGVsbG8sIFdvcmxkIQ=="
  /\ Buffer.fromBase64 "SGVsbG8sIFdvcmxkIQ==" = "Hello, World!".
Proof. split; vm_compute; reflexivity. Qed.

Example publish_then_fetch :
  let o := Octokit.run MemStore.handler
             (GitHub.commitMultipleFiles Sample.config Sample.batch "publish")
             Sample.repository in
  MemStore.read_file (Octokit.final o) "main" "content/a.md" = Some "A2"
  /\ MemStore.read_file (Octokit.final o) "main" "content/c.md" = Some "C"
  /\ MemStore.read_file (Octokit.final o) "main" "content/b.md" = Some "B".
Proof. cbn zeta. split_and!; vm_compute; reflexivity. Qed.

(* ================================================================== *)
(** * The claims *)
(* ================================================================== *)

(** ** C9: title extraction *)

(** C9, as amended.  [extractMarkdownTitle] returns the text of the first
    top-level heading line when there is one; otherwise the first line
    that is neither blank nor a separator (a line starting with "---"),
    cut to 100 code units; otherwise "Untitled".  In particular, for a
    NON-EMPTY single-line title [t] without surrounding whitespace, the
    text "# t", a blank line and any body gives back exactly [t]. *)
Theorem extractMarkdownTitle_spec (md t body : Markdown.ustring) :
  Markdown.extractMarkdownTitle md = Markdown.title_spec md
  /\ (t <> [] -> Markdown.single_line t -> Markdown.no_surrounding_whitespace t ->
      Markdown.extractMarkdownTitle
        (Markdown.u "# " ++ t ++ [Markdown.LF; Markdown.LF] ++ body) = t).
Proof.
  split; [apply extractMarkdownTitle_title_spec|apply heading_line_title].
Qed.

Lemma extractMarkdownTitle_spec_witness :
  Markdown.extractMarkdownTitle
    (Markdown.u "# " ++ Markdown.u "Release notes" ++ [Markdown.LF; Markdown.LF]
     ++ Markdown.u "body") = Markdown.u "Release notes".
Proof.
  apply (proj2 (extractMarkdownTitle_spec [] (Markdown.u "Release notes")
                  (Markdown.u "body"))).
  - discriminate.
  - unfold Markdown.single_line. vm_compute. intros H.
    repeat (apply elem_of_cons in H as [H|H]; [discriminate|]).
    by apply elem_of_nil in H.
  - reflexivity.
Defined.

(** C9 as stated fails for the empty title: "# " is trimmed to "#", which
    is not a heading line, and is then returned as the first line. *)
Lemma extractMarkdownTitle_empty_title :
  let t : Markdown.ustring := [] in
  Markdown.single_line t /\ Markdown.no_surrounding_whitespace t
  /\ Markdown.extractMarkdownTitle
       (Markdown.u "# " ++ t ++ [Markdown.LF; Markdown.LF] ++ Markdown.u "body")
     = Markdown.u "#"
  /\ Markdown.u "#" <> t.
Proof.
  cbn zeta. split_and!.
  - unfold Markdown.single_line. apply not_elem_of_nil.
  - reflexivity.
  - reflexivity.
  - discriminate.
Qed.

(** ** C10: tokens with a foreign prefix *)

Section TokenFacts.
Import Js Config.

Lemma bad_token_errors env tok own rep :
  GITHUB_TOKEN env = Some tok -> GITHUB_OWNER env = Some own ->
  GITHUB_REPO env = Some rep ->
  truthy tok = true -> truthy own = true -> truthy rep = true ->
  startsWith "ghp_" tok = false -> startsWith "github_pat_" tok = false ->
  validateConfig (getConfig env)
  = ["GITHUB_TOKEN appears to be invalid (should start with ghp_ or github_pat_)"].
Proof.
  intros Ht Ho Hr Htt Hot Hrt Hp1 Hp2.
  unfold validateConfig, getConfig. cbn [github token owner repo].
  rewrite Ht, Ho, Hr. unfold or_default. rewrite Htt, Hot, Hrt.
  rewrite Hp1, Hp2, Htt, Hot, Hrt. reflexivity.
Qed.

Lemma bad_token_throws env tok own rep :
  GITHUB_TOKEN env = Some tok -> GITHUB_OWNER env = Some own ->
  GITHUB_REPO env = Some rep ->
  truthy tok = true -> truthy own = true -> truthy rep = true ->
  startsWith "ghp_" tok = false -> startsWith "github_pat_" tok = false ->
  getValidatedConfig env
  = inl (Error ("Configuration validation failed:" +:+ newline +:+
                "GITHUB_TOKEN appears to be invalid (should start with ghp_ or github_pat_)")).
Proof.
  intros. unfold getValidatedConfig.
  by erewrite bad_token_errors by eassumption.
Qed.

End TokenFacts.

(** C10, as amended.  When the token, the owner and the repository are
    set and non-empty and the token starts neither with "ghp_" nor with
    "github_pat_", [validateConfig] reports the token, [getValidatedConfig]
    throws, and every handler answers without making any store call: with
    the 500 "configuration is invalid" response as soon as the request
    has passed the handler's own check of its body or parameter, which
    comes first in all handlers but the listing one (400 when the
    required field is missing, the handler's generic 500 when the body
    cannot be read). *)
Theorem invalid_token_never_reaches_store
    (env : Config.Env) (tok own rep : string)
    (draftToMarkdown : Routes.Draft -> Js.Thrown + string)
    (generateDraftFilename : Routes.Draft -> string -> Js.Thrown + string)
    (markdownToHTML : string -> string) :
  Config.GITHUB_TOKEN env = Some tok -> Config.GITHUB_OWNER env = Some own ->
  Config.GITHUB_REPO env = Some rep ->
  Js.truthy tok = true -> Js.truthy own = true -> Js.truthy rep = true ->
  Js.startsWith "ghp_" tok = false -> Js.startsWith "github_pat_" tok = false ->
  (exists m, Config.getValidatedConfig env = inl (Js.Error m))
  /\ (forall directory,
        Routes.list_GET env directory = Octokit.Ret Routes.config_invalid)
  /\ (forall path, exists resp,
        Routes.fetch_GET env markdownToHTML path = Octokit.Ret resp
        /\ (forall p, path = Some p -> Js.truthy p = true ->
              resp = Routes.config_invalid))
  /\ (forall rq, exists resp,
        Routes.fetch_POST env markdownToHTML rq = Octokit.Ret resp
        /\ (forall paths, rq = inr (Some paths) -> resp = Routes.config_invalid))
  /\ (forall rq, exists resp,
        Routes.publish_POST env draftToMarkdown generateDraftFilename rq
        = Octokit.Ret resp
        /\ (forall body d ds, rq = inr body ->
              Routes.drafts body = Some (d :: ds) -> resp = Routes.config_invalid))
  /\ (forall rq, exists resp,
        Routes.publish_PUT env draftToMarkdown generateDraftFilename rq
        = Octokit.Ret resp
        /\ (forall body d, rq = inr body -> Routes.draft body = Some d ->
              resp = Routes.config_invalid)).
Proof.
  intros Ht Ho Hr Htt Hot Hrt Hp1 Hp2.
  pose proof (bad_token_throws env tok own rep Ht Ho Hr Htt Hot Hrt Hp1 Hp2) as Hcfg.
  split_and!.
  - by eexists.
  - intros directory. unfold Routes.list_GET. by rewrite Hcfg.
  - intros path. unfold Routes.fetch_GET. rewrite Hcfg.
    destruct path as [p|]; cbn.
    + destruct (Js.truthy p) eqn:Ep; cbn; eexists; (split; [done|]).
      * done.
      * intros p' [= <-]. congruence.
    + eexists. split; [done|]. by intros p' [=].
  - intros rq. unfold Routes.fetch_POST. rewrite Hcfg.
    destruct rq as [e|[paths|]]; cbn; eexists; (split; [done|]); by intros ? [=].
  - intros rq. unfold Routes.publish_POST. rewrite Hcfg.
    destruct rq as [e|body]; cbn.
    + eexists. split; [done|]. by intros ? ? ? [=].
    + destruct (Routes.drafts body) as [[|d ds]|] eqn:Ed; cbn;
        eexists; (split; [done|]); intros ? ? ? [= <-]; congruence.
  - intros rq. unfold Routes.publish_PUT. rewrite Hcfg.
    destruct rq as [e|body]; cbn.
    + eexists. split; [done|]. by intros ? ? [=].
    + destruct (Routes.draft body) as [d|] eqn:Ed; cbn;
        eexists; (split; [done|]); intros ? ? [= <-]; congruence.
Qed.

Lemma invalid_token_never_reaches_store_witness :
  Routes.list_GET Sample.bad_env (Some "content")
  = Octokit.Ret Routes.config_invalid.
Proof.
  apply (invalid_token_never_reaches_store Sample.bad_env
           "token-without-prefix" "acme" "site"
           Sample.draftToMarkdown Sample.generateDraftFilename Sample.markdownToHTML);
    reflexivity.
Defined.

(** C10 as stated fails: with such a token, a publish request whose
    drafts array is empty is answered 400, not with the 500
    "configuration is invalid" response. *)
Lemma invalid_token_empty_publish_answered_400 :
  Octokit.result
    (Octokit.run MemStore.handler
       (Routes.publish_POST Sample.bad_env Sample.draftToMarkdown
          Sample.generateDraftFilename
          (inr {| Routes.drafts := Some []; Routes.publish_directory := None |}))
       Sample.repository)
  = inr (Routes.respond
           (Routes.Failure "Drafts array is required and must not be empty" None) 400)
  /\ Routes.respond
       (Routes.Failure "Drafts array is required and must not be empty" None) 400
     <> Routes.config_invalid.
Proof. split; [reflexivity|discriminate]. Qed.

(** ** C8: per-file tokens in a batch *)

(** C8.  [commitMultipleFiles] reads the name and the content of a file
    only: batches that differ in the [sha] fields alone are the same
    program, so that against any store and whatever else happens the
    same requests are made, with the same result and the same store at
    the end.  A (stale) token of a file is never sent nor compared. *)
Theorem commitMultipleFiles_ignores_file_tokens
    (config : GitHub.GitHubConfig) (files1 files2 : list GitHub.GitHubFile)
    (message : string) :
  Forall2 (fun f g => GitHub.name f = GitHub.name g
                      /\ GitHub.content f = GitHub.content g) files1 files2 ->
  GitHub.commitMultipleFiles config files1 message
  = GitHub.commitMultipleFiles config files2 message
  /\ forall St (h : Octokit.Handler St) (env : Octokit.World St) i s,
       Octokit.run_env h env i (GitHub.commitMultipleFiles config files1 message) s
       = Octokit.run_env h env i (GitHub.commitMultipleFiles config files2 message) s.
Proof.
  intros Hsame.
  assert (List.map (GitHub.createBlobEntry config) files1
          = List.map (GitHub.createBlobEntry config) files2) as Hblobs.
  { induction Hsame as [|f g fs gs [Hn Hc] _ IH]; [done|].
    cbn [List.map]. rewrite IH. f_equal.
    unfold GitHub.createBlobEntry. by rewrite Hn, Hc. }
  assert (GitHub.commitMultipleFiles config files1 message
          = GitHub.commitMultipleFiles config files2 message) as Heq.
  { unfold GitHub.commitMultipleFiles. by rewrite Hblobs. }
  split; [done|]. intros. by rewrite Heq.
Qed.

Lemma commitMultipleFiles_ignores_file_tokens_witness :
  Octokit.run MemStore.handler
    (GitHub.commitMultipleFiles Sample.config Sample.batch "publish")
    Sample.repository
  = Octokit.run MemStore.handler
      (GitHub.commitMultipleFiles Sample.config Sample.batch_with_tokens "publish")
      Sample.repository.
Proof.
  apply (commitMultipleFiles_ignores_file_tokens Sample.config
           Sample.batch Sample.batch_with_tokens "publish").
  repeat constructor.
Defined.

(** ** C5: failures of a fetch *)

(** C5, as amended.  [fetchMarkdownFile] makes one read.  It returns the
    decoded content when the answer is a file, and in EVERY other case
    -- the path does not exist (404), the path is a directory or has no
    content, the token is refused, the store cannot be reached -- it
    throws the same [Error("Failed to fetch file: <path>")]: a caller
    cannot tell a missing file from an unavailable store.  The fetch
    handler answers 500 for all of them, with that message as details. *)
Theorem fetchMarkdownFile_failures_alike
    {St} (h : Octokit.Handler St) (env : Octokit.World St)
    (config : GitHub.GitHubConfig) (filePath : string) (i : nat) (s : St) :
  (let a := Octokit.answer h env i (GitHub.read_request config filePath) s in
   let o := Octokit.run_env h env i (GitHub.fetchMarkdownFile config filePath) s in
   Octokit.trace o = [Octokit.request (GitHub.read_request config filePath)]
   /\ Octokit.final o = a.1
   /\ Octokit.result o
      = match a.2 with
        | inr (Octokit.FileObject content _) => inr (Buffer.fromBase64 content)
        | _ => inl (Js.Error ("Failed to fetch file: " +:+ filePath))
        end)
  /\ (forall penv appconfig markdownToHTML,
        Config.getValidatedConfig penv = inr appconfig ->
        Js.truthy filePath = true ->
        let svc := Routes.service_of appconfig in
        let a := Octokit.answer h env i (GitHub.read_request svc filePath) s in
        let o := Octokit.run_env h env i
                   (Routes.fetch_GET penv markdownToHTML (Some filePath)) s in
        Octokit.result o
        = inr match a.2 with
              | inr (Octokit.FileObject content _) =>
                  Routes.respond
                    (Routes.Fetched (Buffer.fromBase64 content)
                       (markdownToHTML (Buffer.fromBase64 content)) filePath) 200
              | _ =>
                  Routes.respond
                    (Routes.Failure "Failed to fetch content from GitHub"
                       (Some ("Failed to fetch file: " +:+ filePath))) 500
              end).
Proof.
  split.
  - cbn zeta. by rewrite run_fetchMarkdownFile.
  - intros penv appconfig markdownToHTML Hcfg Hpath. cbn zeta.
    unfold Routes.fetch_GET. rewrite Hcfg, Hpath. cbn [negb].
    rewrite run_env_try_catch, run_env_bind, run_fetchMarkdownFile.
    unfold Octokit.catch_run, Octokit.then_run. cbn.
    by destruct (Octokit.answer h env i _ s) as [s' [e|[items|content sha|sha]]].
Qed.

Lemma fetchMarkdownFile_failures_alike_witness :
  Octokit.result
    (Octokit.run MemStore.handler
       (Routes.fetch_GET Sample.good_env Sample.markdownToHTML (Some "content/a.md"))
       Sample.repository)
  = inr (Routes.respond (Routes.Fetched "A" "A" "content/a.md") 200).
Proof.
  unfold Octokit.run.
  rewrite (proj2 (fetchMarkdownFile_failures_alike MemStore.handler Octokit.quiet
                    Sample.config "content/a.md" 0 Sample.repository)
             Sample.good_env (Config.getConfig Sample.good_env) Sample.markdownToHTML);
    reflexivity.
Defined.

(** C5 as stated fails: a path that does not exist, a directory and a
    store that refuses the token give the same kind of failure, and the
    handler answers 500, not 404, for the missing file. *)
Lemma fetchMarkdownFile_not_found_is_generic :
  let fetch p := GitHub.fetchMarkdownFile Sample.config p in
  Octokit.result (Octokit.run MemStore.handler (fetch "content/missing.md")
                    Sample.repository)
  = inl (Js.Error "Failed to fetch file: content/missing.md")
  /\ Octokit.result (Octokit.run (MemStore.unavailable 401) (fetch "content/missing.md")
                       Sample.repository)
     = inl (Js.Error "Failed to fetch file: content/missing.md")
  /\ Octokit.result (Octokit.run MemStore.handler (fetch "content") Sample.repository)
     = inl (Js.Error "Failed to fetch file: content")
  /\ Octokit.result
       (Octokit.run MemStore.handler
          (Routes.fetch_GET Sample.good_env Sample.markdownToHTML
             (Some "content/missing.md"))
          Sample.repository)
     = inr (Routes.respond
              (Routes.Failure "Failed to fetch content from GitHub"
                 (Some "Failed to fetch file: content/missing.md")) 500).
Proof. cbn zeta. split_and!; vm_compute; reflexivity. Qed.

(** ** C7: listing markdown files *)

(** C7, as amended.  [listMarkdownFiles] makes one read and never
    throws.  When the answer is a directory listing it returns, in the
    order of the listing, the paths of the entries that are files and
    whose name ends in ".md"; in EVERY other case -- the directory does
    not exist, the path is a file, the token is refused, the store cannot
    be reached -- it returns the empty list. *)
Theorem listMarkdownFiles_never_fails
    {St} (h : Octokit.Handler St) (env : Octokit.World St)
    (config : GitHub.GitHubConfig) (directory : option string) (i : nat) (s : St) :
  let call := GitHub.read_request config (default "" directory) in
  let a := Octokit.answer h env i call s in
  let o := Octokit.run_env h env i (GitHub.listMarkdownFiles config directory) s in
  Octokit.trace o = [Octokit.request call]
  /\ Octokit.final o = a.1
  /\ Octokit.result o
     = inr match a.2 with
           | inr (Octokit.DirectoryListing items) =>
               List.map Octokit.item_path (List.filter GitHub.is_markdown_file items)
           | _ => []
           end
  /\ forall item,
       GitHub.is_markdown_file item = true
       <-> Octokit.item_type item = "file"
           /\ exists stem, Octokit.item_name item = stem +:+ ".md".
Proof.
  cbn zeta. rewrite run_listMarkdownFiles. split_and!; try done.
  intros item. unfold GitHub.is_markdown_file.
  by rewrite andb_true_iff, bool_decide_eq_true, endsWith_suffix.
Qed.

(** C7 as stated fails: when the store refuses the token the listing is
    empty and nothing is thrown. *)
Lemma listMarkdownFiles_hides_unavailable_store :
  Octokit.result
    (Octokit.run (MemStore.unavailable 401)
       (GitHub.listMarkdownFiles Sample.config (Some "content")) Sample.repository)
  = inr []
  /\ Octokit.result
       (Octokit.run MemStore.handler
          (GitHub.listMarkdownFiles Sample.config (Some "content")) Sample.repository)
     = inr ["content/a.md"; "content/b.md"].
Proof. split; vm_compute; reflexivity. Qed.

(** ** C4: writing one file *)

(** C4, as amended.  [commitFile] first reads the path on the branch.  A
    404 answer, like a directory, means "create": the write is then sent
    without [sha]; a file answer makes the write carry the [sha] read.
    A read that fails otherwise ends the call.  The write is the second
    and last request: nothing is retried.  Whenever the store rejects the
    write -- a token that no longer matches (409) like anything else --
    and whenever the read fails, the call throws the same
    [Error("Failed to commit file: <path>")]. *)
Theorem commitFile_reads_then_writes_once
    {St} (h : Octokit.Handler St) (env : Octokit.World St)
    (config : GitHub.GitHubConfig) (filePath content message : string)
    (i : nat) (s : St) :
  let read := GitHub.read_request config filePath in
  let write := GitHub.write_request config filePath content message in
  let failure := inl (Js.Error ("Failed to commit file: " +:+ filePath)) in
  let a := Octokit.answer h env i read s in
  let o := Octokit.run_env h env i
             (GitHub.commitFile config filePath content message) s in
  o = match GitHub.token_after a.2 with
      | None =>
          {| Octokit.final := a.1; Octokit.trace := [Octokit.request read];
             Octokit.result := failure |}
      | Some tok =>
          let w := Octokit.answer h env (S i) (write tok) a.1 in
          {| Octokit.final := w.1;
             Octokit.trace := [Octokit.request read; Octokit.request (write tok)];
             Octokit.result := match w.2 with inl _ => failure | inr v => inr v end |}
      end
  /\ (forall e, Js.status_is_404 e = true -> GitHub.token_after (inl e) = Some None)
  /\ (forall items, GitHub.token_after (inr (Octokit.DirectoryListing items)) = Some None)
  /\ (forall c sha, Js.truthy sha = true ->
        GitHub.token_after (inr (Octokit.FileObject c sha)) = Some (Some sha))
  /\ (forall e, Js.status_is_404 e = false -> GitHub.token_after (inl e) = None)
  /\ length (Octokit.trace o) <= 2
  /\ (Octokit.result o = inr tt \/ Octokit.result o = failure).
Proof.
  cbn zeta. rewrite run_commitFile. cbn zeta. split_and!.
  - done.
  - intros e He. cbn. by rewrite He.
  - done.
  - intros c sha Hsha. cbn. by rewrite Hsha.
  - intros e He. cbn. by rewrite He.
  - destruct (GitHub.token_after _); cbn; lia.
  - destruct (GitHub.token_after _) as [tok|]; cbn; [|by right].
    destruct (Octokit.answer h env (S i) _ _) as [s' [e|[]]]; cbn; [by right|by left].
Qed.

(** C4 as stated fails: when another editor has rewritten the file
    between the read and the write, the store rejects the write with a
    409, and the caller gets the very error it gets when the store is
    down. *)
Lemma commitFile_conflict_is_generic :
  let upsert := GitHub.commitFile Sample.config "content/a.md" "mine" "edit" in
  let raced := Octokit.run_env MemStore.handler
                 (Octokit.once 1 Sample.other_editor) 0 upsert Sample.repository in
  Octokit.result raced = inl (Js.Error "Failed to commit file: content/a.md")
  /\ Octokit.result (Octokit.run (MemStore.unavailable 503) upsert Sample.repository)
     = Octokit.result raced
  /\ MemStore.read_file (Octokit.final raced) "main" "content/a.md" = Some "theirs"
  /\ (Octokit.answer MemStore.handler (Octokit.once 1 Sample.other_editor) 1
        (GitHub.write_request Sample.config "content/a.md" "mine" "edit" (Some "0"))
        Sample.repository).2
     = inl (Js.RequestError 409 "does not match").
Proof. cbn zeta. split_and!; vm_compute; reflexivity. Qed.

Lemma commitFile_reads_then_writes_once_witness :
  GitHub.token_after (inl (Js.RequestError 404 "Not Found")) = Some None.
Proof.
  apply (commitFile_reads_then_writes_once MemStore.handler Octokit.quiet
           Sample.config "content/new.md" "text" "add" 0 Sample.repository).
  reflexivity.
Defined.

(** ** C2: an empty batch *)

(** C2, as amended.  An empty batch is refused by the publish handler,
    not by [commitMultipleFiles]: when the drafts array of the request is
    missing or empty the handler answers 400 at once, whatever the
    configuration, without any request to the store. *)
Theorem publish_rejects_empty_drafts
    {St} (h : Octokit.Handler St) (world : Octokit.World St)
    (env : Config.Env)
    (draftToMarkdown : Routes.Draft -> Js.Thrown + string)
    (generateDraftFilename : Routes.Draft -> string -> Js.Thrown + string)
    (body : Routes.PublishBody) (i : nat) (s : St) :
  Routes.drafts body = None \/ Routes.drafts body = Some [] ->
  let o := Octokit.run_env h world i
             (Routes.publish_POST env draftToMarkdown generateDraftFilename (inr body)) s in
  Octokit.result o
  = inr (Routes.respond
           (Routes.Failure "Drafts array is required and must not be empty" None) 400)
  /\ Octokit.trace o = [] /\ Octokit.final o = s.
Proof.
  intros Hd. cbn zeta. unfold Routes.publish_POST. cbn.
  by destruct Hd as [-> | ->].
Qed.

Lemma publish_rejects_empty_drafts_witness :
  Octokit.trace
    (Octokit.run MemStore.handler
       (Routes.publish_POST Sample.good_env Sample.draftToMarkdown
          Sample.generateDraftFilename
          (inr {| Routes.drafts := Some []; Routes.publish_directory := None |}))
       Sample.repository) = [].
Proof.
  apply (publish_rejects_empty_drafts MemStore.handler Octokit.quiet Sample.good_env
           Sample.draftToMarkdown Sample.generateDraftFilename
           {| Routes.drafts := Some []; Routes.publish_directory := None |}
           0 Sample.repository).
  by right.
Defined.

(** C2 as stated fails: [commitMultipleFiles] has no test for an empty
    list.  It reads the head and asks for a tree without entries, for a
    commit and for the ref update; on a store that accepts them it
    succeeds and the branch has moved. *)
Lemma commitMultipleFiles_empty_batch_writes :
  let o := Octokit.run MemStore.handler
             (GitHub.commitMultipleFiles Sample.config [] "empty") Sample.repository in
  Octokit.result o = inr tt
  /\ Octokit.trace o
     = [GitHub.getRef_request Sample.config; GitHub.getCommit_request Sample.config "4";
        GitHub.createTree_request Sample.config "3" [];
        GitHub.createCommit_request Sample.config "empty" "5" "4";
        Octokit.request (GitHub.updateRef_call Sample.config "6")]
  /\ MemStore.refs Sample.repository !! "heads/main" = Some "4"
  /\ MemStore.refs (Octokit.final o) !! "heads/main" = Some "6".
Proof. cbn zeta. split_and!; vm_compute; reflexivity. Qed.

(** ** C6: the object graph of a batch commit *)

(** C6.  On a store whose branch has a head, and without lost requests,
    [commitMultipleFiles] reads the head [h0] and its tree, creates one
    blob per file, in the order of the batch, creates a tree from the
    tree of [h0] with one entry [{path, "100644", "blob", blob}] per
    file, creates a commit of that tree whose only parent is [h0], and
    only then updates the ref.  The branch then points to the new
    commit; in its tree a path outside the batch has the entry it had
    and a path of the batch has the entry of a file of the batch.  When
    requests are lost on the way the commit is all or nothing: either
    the call fails and the refs are those of before, or it succeeds and
    the whole batch is published. *)
Theorem commitMultipleFiles_object_graph
    (config : GitHub.GitHubConfig) (files : list GitHub.GitHubFile)
    (message : string) (s : MemStore.Store)
    (base : gmap string Octokit.TreeEntry) (lost : nat -> option Js.Thrown) :
  MemStore.bounded s ->
  MemStore.head_tree s (GitHub.branch_ref config) = Some base ->
  (let o := Octokit.run MemStore.handler
              (GitHub.commitMultipleFiles config files message) s in
   Octokit.result o = inr tt
   /\ exists h0 obj0 entries tA cA,
       MemStore.published s (Octokit.final o) (GitHub.branch_ref config) files message
         h0 obj0 base entries tA cA
       /\ Octokit.trace o
          = [GitHub.getRef_request config; GitHub.getCommit_request config h0]
            ++ List.map (GitHub.blob_request config) files
            ++ [GitHub.createTree_request config (MemStore.tree obj0) entries;
                GitHub.createCommit_request config message tA h0;
                Octokit.request (GitHub.updateRef_call config cA)]
       /\ MemStore.head_tree (Octokit.final o) (GitHub.branch_ref config)
          = Some (MemStore.overlay base entries)
       /\ (forall p, p ∉ List.map GitHub.name files ->
             MemStore.overlay base entries !! p = base !! p)
       /\ (forall p, p ∈ List.map GitHub.name files ->
             exists file e, file ∈ files /\ GitHub.name file = p
               /\ MemStore.overlay base entries !! p = Some e
               /\ MemStore.entry_for (Octokit.final o) file e))
  /\ (let o := Octokit.run_env MemStore.handler (Octokit.faults lost) 0
                 (GitHub.commitMultipleFiles config files message) s in
      (Octokit.result o = GitHub.failed /\ MemStore.refs (Octokit.final o) = MemStore.refs s)
      \/ (Octokit.result o = inr tt
          /\ exists h0 obj0 entries tA cA,
              MemStore.published s (Octokit.final o) (GitHub.branch_ref config) files message
                h0 obj0 base entries tA cA)).
Proof.
  intros Hb Hhead. split.
  - cbn zeta.
    destruct (batch_succeeds config files message s base Hb Hhead)
      as (Hres & h0 & obj0 & entries & tA & cA & Hpub & Htr).
    split; [done|]. exists h0, obj0, entries, tA, cA.
    destruct (published_paths _ _ _ _ _ _ _ _ _ _ _ Hpub) as (H1 & H2 & H3).
    by split_and!.
  - cbn zeta.
    destruct (batch_all_or_nothing config lost s Hb files message base Hhead)
      as [(Hres & Hrefs & _)|(Hres & h0 & obj0 & entries & tA & cA & Hpub & _)].
    + by left.
    + right. split; [done|]. by exists h0, obj0, entries, tA, cA.
Qed.

Lemma commitMultipleFiles_object_graph_witness :
  Octokit.result
    (Octokit.run MemStore.handler
       (GitHub.commitMultipleFiles Sample.config Sample.batch "publish")
       Sample.repository) = inr tt.
Proof.
  apply (commitMultipleFiles_object_graph Sample.config Sample.batch "publish"
           Sample.repository Sample.base (fun _ => None)).
  - apply wf_check_sound. vm_compute. reflexivity.
  - vm_compute. reflexivity.
Defined.

(** ** C1: a batch commit racing with another writer *)

Section UpdateCondition.
Import Octokit GitHub MemStore BatchRun.
Local Arguments branch_ref : simpl never.
Local Arguments set_ref : simpl never.
Variable config : GitHubConfig.

Local Abbreviation ref := (branch_ref config).






End UpdateCondition.




(* ================================================================== *)
(** * Further properties of the code *)
(* ================================================================== *)

(** ** lib/config.ts *)

Lemma truthy_nonempty s : Js.truthy s = true <-> s <> "".
Proof. destruct s; cbn; split; congruence. Qed.

Lemma app_nil_iff {A} (l1 l2 : list A) : l1 ++ l2 = [] <-> l1 = [] /\ l2 = [].
Proof. split; [apply app_eq_nil|by intros [-> ->]]. Qed.

Lemma validateConfig_nil_fields (config : Config.AppConfig) :
  Config.validateConfig config = [] ->
  Config.token (Config.github config) <> ""
  /\ Config.owner (Config.github config) <> ""
  /\ Config.repo (Config.github config) <> "".
Proof.
  unfold Config.validateConfig. rewrite <- !truthy_nonempty.
  destruct (Js.truthy (Config.token _)), (Js.truthy (Config.owner _)),
    (Js.truthy (Config.repo _)); cbn; try done.
Qed.

(** X1.  [validateConfig] reports nothing exactly when the token, the
    owner and the repository are not empty and the token starts with
    "ghp_" or with "github_pat_". *)
Theorem validateConfig_accepts_iff (config : Config.AppConfig) :
  let g := Config.github config in
  Config.validateConfig config = []
  <-> Config.token g <> "" /\ Config.owner g <> "" /\ Config.repo g <> ""
      /\ ((exists rest, Config.token g = "ghp_" +:+ rest)
          \/ (exists rest, Config.token g = "github_pat_" +:+ rest)).
Proof.
  cbn zeta. unfold Config.validateConfig.
  rewrite <- !startsWith_prefix, <- !truthy_nonempty.
  destruct (Js.truthy (Config.token _)), (Js.truthy (Config.owner _)),
    (Js.truthy (Config.repo _)), (Js.startsWith "ghp_" _),
    (Js.startsWith "github_pat_" _); cbn; split; try done;
    intros; try (intuition congruence).
Qed.

(** X2.  When [getValidatedConfig] returns, it returns the configuration
    read by [getConfig], [isGitHubConfigured] is true, no field of the
    repository settings is empty, and the service built from it works on
    the branch named by GITHUB_BRANCH, or on "main" when that variable is
    unset or empty. *)
Theorem validated_config_is_complete (env : Config.Env) (config : Config.AppConfig) :
  Config.getValidatedConfig env = inr config ->
  config = Config.getConfig env
  /\ Config.isGitHubConfigured env = true
  /\ Config.token (Config.github config) <> ""
  /\ Config.owner (Config.github config) <> ""
  /\ Config.repo (Config.github config) <> ""
  /\ Config.branch (Config.github config) <> ""
  /\ GitHub.branch_or_main (Routes.service_of config)
     = Js.or_default (Config.GITHUB_BRANCH env) "main".
Proof.
  unfold Config.getValidatedConfig, Config.isGitHubConfigured.
  case_bool_decide as Hlen; [done|]. intros [= <-].
  assert (Config.validateConfig (Config.getConfig env) = []) as Hnil.
  { destruct (Config.validateConfig _); [done|cbn in Hlen; lia]. }
  rewrite Hnil. pose proof (validateConfig_nil_fields _ Hnil) as (Ht&Ho&Hr).
  assert (Js.or_default (Config.GITHUB_BRANCH env) "main" <> "") as Hb.
  { unfold Js.or_default. destruct (Config.GITHUB_BRANCH env) as [[|c b]|]; done. }
  split_and!; try done.
  unfold GitHub.branch_or_main, Routes.service_of, GitHub.createGitHubService. cbn.
  destruct (Js.or_default (Config.GITHUB_BRANCH env) "main"); done.
Qed.

Lemma validated_config_is_complete_witness :
  GitHub.branch_or_main (Routes.service_of (Config.getConfig Sample.good_env)) = "main".
Proof.
  apply (validated_config_is_complete Sample.good_env (Config.getConfig Sample.good_env)).
  reflexivity.
Defined.

(** X3.  [sanitizeConfigForLogging] never shows the token: the token of
    its result is one of two fixed words, and two configurations that
    differ only in their (non-empty) tokens give the same result. *)
Theorem sanitizeConfigForLogging_hides_token
    (g : Config.GithubSettings) (a : Config.AppSettings) (token1 token2 : string) :
  let with_token t :=
    {| Config.github :=
         {| Config.token := t; Config.owner := Config.owner g;
            Config.repo := Config.repo g; Config.branch := Config.branch g |};
       Config.app := a |} in
  (Config.token (Config.github (Config.sanitizeConfigForLogging (with_token token1)))
   = if Js.truthy token1 then "[REDACTED]" else "[MISSING]")
  /\ (token1 <> "" -> token2 <> "" ->
      Config.sanitizeConfigForLogging (with_token token1)
      = Config.sanitizeConfigForLogging (with_token token2)).
Proof.
  cbn zeta. split; [done|].
  rewrite <- !truthy_nonempty. intros H1 H2.
  unfold Config.sanitizeConfigForLogging. cbn. by rewrite H1, H2.
Qed.

Lemma sanitizeConfigForLogging_hides_token_witness :
  Config.sanitizeConfigForLogging (Config.getConfig (Sample.env_of "ghp_one"))
  = Config.sanitizeConfigForLogging (Config.getConfig (Sample.env_of "ghp_two")).
Proof.
  apply (proj2 (sanitizeConfigForLogging_hides_token
                  (Config.github (Config.getConfig Sample.good_env))
                  (Config.app (Config.getConfig Sample.good_env))
                  "ghp_one" "ghp_two")); discriminate.
Defined.

(** ** lib/drafts.ts *)

(** X4.  [validateDraft] reports nothing exactly when there is a title
    with a character that is not whitespace and with at most 200 code
    units (200 itself is accepted), and the body, when there is one, has
    at most 100000 code units. *)
Theorem validateDraft_accepts_iff (draft : Drafts.DraftInput) :
  Drafts.validateDraft draft = []
  <-> (exists t, Drafts.title draft = Some t /\ Markdown.trim t <> []
                 /\ (N.of_nat (length t) <= 200)%N)
      /\ (forall b, Drafts.body draft = Some b -> (N.of_nat (length b) <= 100000)%N).
Proof.
  unfold Drafts.validateDraft. rewrite !app_nil_iff.
  destruct draft as [[t|] b];
    cbn [Drafts.title Drafts.body Drafts.present from_option id].
  2:{ cbn. split; [by intros [? _]|by intros [(t&?&_) _]]. }
  assert (Markdown.trim t <> [] -> t <> []) as Hne.
  { intros H ->. by apply H. }
  split.
  - intros (H1 & H2 & H3). split.
    + exists t. destruct t as [|c t]; [done|]. cbn [Drafts.present negb orb] in *.
      case_bool_decide as Hlen; [done|].
      split; [done|]. split.
      * intros E. apply Hlen. by rewrite E.
      * cbn [andb] in H2. destruct (N.ltb_spec 200 (N.of_nat (length (c :: t)))); [done|].
        done.
    + intros b' Hb. subst b. destruct b' as [|c b']; [cbn; lia|].
      cbn [Drafts.present andb from_option id] in H3.
      destruct (N.ltb_spec 100000 (N.of_nat (length (c :: b')))); done.
  - intros [(t' & [= <-] & Htrim & Hlen) Hbody].
    specialize (Hne Htrim). destruct t as [|c t]; [done|].
    cbn [Drafts.present negb orb andb].
    rewrite bool_decide_eq_false_2.
    2:{ intros E. apply Htrim. by apply nil_length_inv. }
    split_and!; [done| |].
    + destruct (N.ltb_spec 200 (N.of_nat (length (c :: t)))); [lia|done].
    + destruct b as [[|c' b]|]; cbn [Drafts.present andb from_option id]; [done| |done].
      specialize (Hbody _ eq_refl).
      destruct (N.ltb_spec 100000 (N.of_nat (length (c' :: b)))); [lia|done].
Qed.

(** ** lib/markdown.ts *)

Section TrimFacts.
Import Markdown.

Lemma trimStart_suffix s : exists pre, s = pre ++ trimStart s.
Proof.
  induction s as [|c s [pre IH]]; [by exists []|]. cbn.
  destruct (isWhiteSpace c); [|by exists []].
  exists (c :: pre). cbn. by rewrite <- IH.
Qed.

Lemma trimStart_head s c r : trimStart s = c :: r -> isWhiteSpace c = false.
Proof.
  induction s as [|a s IH]; [done|]. cbn.
  destruct (isWhiteSpace a) eqn:E; [done|]. by intros [= <- _].
Qed.

Lemma trimStart_fixed_head c r : isWhiteSpace c = false -> trimStart (c :: r) = c :: r.
Proof. cbn. by intros ->. Qed.

Lemma trimEnd_prefix s : exists post, s = trimEnd s ++ post.
Proof.
  unfold trimEnd. destruct (trimStart_suffix (List.rev s)) as [pre E].
  exists (List.rev pre). by rewrite <- rev_app_distr, <- E, rev_involutive.
Qed.

Lemma trimEnd_last s init c : trimEnd s = init ++ [c] -> isWhiteSpace c = false.
Proof.
  unfold trimEnd. intros E.
  apply (f_equal (@List.rev N)) in E. rewrite rev_involutive, rev_app_distr in E.
  cbn in E. by apply trimStart_head in E.
Qed.

(** What is left by [trim] neither starts nor ends with whitespace. *)
Lemma trim_trimStart s : trimStart (trim s) = trim s.
Proof.
  unfold trim. destruct (trimEnd_prefix (trimStart s)) as [post E].
  destruct (trimEnd (trimStart s)) as [|c r] eqn:Et; [done|].
  apply trimStart_fixed_head. cbn in E. by apply trimStart_head in E.
Qed.

Lemma trim_sublist s x : x ∈ trim s -> x ∈ s.
Proof.
  unfold trim. intros Hx.
  destruct (trimEnd_prefix (trimStart s)) as [post E].
  destruct (trimStart_suffix s) as [pre E'].
  rewrite E', E, !elem_of_app. auto.
Qed.

Lemma trim_nil_whitespace s : trim s = [] -> Forall (fun c => isWhiteSpace c = true) s.
Proof.
  unfold trim, trimEnd. intros E.
  apply (f_equal (@List.rev N)) in E. rewrite rev_involutive in E. cbn in E.
  assert (forall l, trimStart l = [] -> Forall (fun c => isWhiteSpace c = true) l) as Hall.
  { induction l as [|c l IH]; [done|]. cbn.
    destruct (isWhiteSpace c) eqn:Ec; [|done]. intros H. constructor; auto. }
  pose proof (Hall _ E) as H1.
  apply Forall_rev in H1. rewrite rev_involutive in H1.
  destruct (trimStart_suffix s) as [pre Es].
  rewrite Es. apply Forall_app. split; [|done].
  clear -Es. revert pre Es. induction s as [|c s IH]; intros pre Es.
  - destruct pre; [done|discriminate].
  - cbn in Es. destruct (isWhiteSpace c) eqn:Ec.
    + destruct pre as [|a pre].
      * cbn in Es. pose proof (trimStart_length s) as Hl.
        rewrite <- Es in Hl. cbn in Hl. lia.
      * injection Es as <- Es. constructor; [done|]. by apply IH.
    + destruct pre as [|a pre]; [done|].
      injection Es as <- Es.
      apply (f_equal (@length N)) in Es. rewrite length_app in Es. cbn in Es. lia.
Qed.

Lemma split_newline_lines s : Forall single_line (split_newline s).
Proof.
  unfold single_line, LF. induction s as [|c s IH]; cbn.
  - constructor; [apply not_elem_of_nil|done].
  - destruct (N.eqb_spec c 10) as [->|Hc].
    + constructor; [apply not_elem_of_nil|done].
    + destruct (split_newline s) as [|l ls].
      { constructor; [|done]. rewrite not_elem_of_cons.
        split; [congruence|apply not_elem_of_nil]. }
      inversion IH as [|? ? Hl Hls]; subst. constructor; [|done].
      rewrite not_elem_of_cons. split; [congruence|done].
Qed.

Lemma heading_text_wellformed l :
  is_heading l = true ->
  heading_text l <> [] /\ trimStart (heading_text l) = heading_text l.
Proof.
  unfold is_heading, heading_text. intros Hh. split; [|apply trim_trimStart].
  destruct (trim l) as [|a [|b r]] eqn:Et; cbn in Hh;
    [done|by rewrite andb_false_r in Hh|].
  apply andb_true_iff in Hh as [_ Hh]. apply andb_true_iff in Hh as [Hb _].
  apply N.eqb_eq in Hb. subst b. cbn [drop].
  intros Hnil. apply trim_nil_whitespace in Hnil.
  unfold trim in Et.
  induction r as [|c init _] using rev_ind.
  - by apply (trimEnd_last _ [a] 32%N) in Et.
  - apply (trimEnd_last _ (a :: 32%N :: init) c) in Et.
    apply Forall_app in Hnil as [_ Hc]. inversion Hc; congruence.
Qed.

End TrimFacts.

(** X5.  The title [extractMarkdownTitle] returns is never empty, does
    not start with whitespace and contains no line feed; when no line is
    a heading it has at most 100 code units. *)
Theorem extractMarkdownTitle_wellformed (md : Markdown.ustring) :
  let t := Markdown.extractMarkdownTitle md in
  t <> [] /\ Markdown.trimStart t = t /\ Markdown.single_line t
  /\ (List.find Markdown.is_heading (Markdown.split_newline md) = None ->
      length t <= 100).
Proof.
  cbn zeta. rewrite extractMarkdownTitle_title_spec. unfold Markdown.title_spec.
  pose proof (split_newline_lines md) as Hlines. rewrite Forall_forall in Hlines.
  destruct (List.find Markdown.is_heading _) as [l|] eqn:Eh.
  - apply find_some in Eh as [Hin Hh].
    destruct (heading_text_wellformed l Hh) as [Hne Hts].
    split_and!; [done|done| |done].
    unfold Markdown.single_line, Markdown.heading_text.
    intros Hx. apply trim_sublist in Hx. apply (subseteq_drop 2) in Hx.
    apply trim_sublist in Hx. by apply (Hlines l); [apply list_elem_of_In|].
  - destruct (List.find Markdown.is_content_line _) as [l|] eqn:Ec.
    + apply find_some in Ec as [Hin Hc].
      unfold Markdown.is_content_line in Hc.
      apply andb_true_iff in Hc as [Hne _]. apply negb_true_iff in Hne.
      apply bool_decide_eq_false in Hne.
      pose proof (trim_trimStart l) as Hts.
      destruct (Markdown.trim l) as [|c r] eqn:Et; [done|].
      split_and!.
      * done.
      * cbn [take]. apply trimStart_fixed_head. by apply trimStart_head in Hts.
      * unfold Markdown.single_line. intros Hx. apply elem_of_take in Hx as (i&Hx&_).
        apply list_elem_of_lookup_2 in Hx. rewrite <- Et in Hx.
        apply trim_sublist in Hx. by apply (Hlines l); [apply list_elem_of_In|].
      * intros _. rewrite length_take. lia.
    + split_and!; [done|done| |cbn; lia].
      unfold Markdown.single_line, Markdown.LF. vm_compute. intros Hx.
      repeat (apply elem_of_cons in Hx as [Hx|Hx]; [discriminate|]).
      by apply elem_of_nil in Hx.
Qed.

Section SlugFacts.
Import Markdown.

Lemma replace_runs_alphabet b s : Forall slug_alphabet (replace_runs b s).
Proof.
  revert b. induction s as [|c s IH]; intros b; cbn; [done|].
  destruct (is_slug_char c) eqn:Ec; [constructor; [by left|done]|].
  destruct b; [done|]. constructor; [by right|done].
Qed.

Lemma replace_runs_head s c r :
  replace_runs true s = c :: r -> c <> hyphen.
Proof.
  induction s as [|a s IH]; cbn; [done|].
  destruct (is_slug_char a) eqn:Ea; [|done].
  intros [= <- _] ->. done.
Qed.

Lemma replace_runs_spaced b s : spaced (replace_runs b s).
Proof.
  revert b. induction s as [|c s IH]; intros b; [done|]. cbn [replace_runs].
  destruct (is_slug_char c) eqn:Ec.
  - specialize (IH false). destruct (replace_runs false s) as [|x t] eqn:E; [done|].
    split; [|done]. intros [-> _]. done.
  - destruct b; [apply IH|].
    pose proof (IH true) as IH'.
    destruct (replace_runs true s) as [|x t] eqn:E; [done|].
    split; [|done]. intros [_ ->]. by apply replace_runs_head in E.
Qed.

Lemma spaced_no_double l : spaced l -> no_double_hyphen l.
Proof.
  intros Hs l1. revert l Hs. induction l1 as [|a l1 IH]; intros l Hs l2 ->.
  - cbn in Hs. by destruct Hs as [[] _].
  - cbn in Hs. destruct (l1 ++ hyphen :: hyphen :: l2) as [|x t] eqn:E.
    + by destruct l1.
    + destruct Hs as [_ Hs]. by apply (IH _ Hs l2).
Qed.

Lemma no_double_suffix pre l : no_double_hyphen (pre ++ l) -> no_double_hyphen l.
Proof. intros H l1 l2 ->. apply (H (pre ++ l1) l2). by rewrite <- app_assoc. Qed.

Lemma no_double_prefix l post : no_double_hyphen (l ++ post) -> no_double_hyphen l.
Proof.
  intros H l1 l2 ->. apply (H l1 (l2 ++ post)).
  by rewrite <- app_assoc.
Qed.

Lemma no_double_rev l : no_double_hyphen l -> no_double_hyphen (List.rev l).
Proof.
  intros H l1 l2 E. apply (H (List.rev l2) (List.rev l1)).
  apply (f_equal (@List.rev ascii)) in E. rewrite rev_involutive in E.
  rewrite E, rev_app_distr. cbn. by rewrite <- !app_assoc.
Qed.

Lemma drop_hyphens_suffix s : exists pre, s = pre ++ drop_hyphens s.
Proof.
  induction s as [|c s [pre IH]]; [by exists []|]. cbn.
  case_bool_decide; [|by exists []]. exists (c :: pre). cbn. by rewrite <- IH.
Qed.

Lemma drop_hyphens_head s c r : drop_hyphens s = c :: r -> c <> hyphen.
Proof.
  induction s as [|a s IH]; [done|]. cbn.
  case_bool_decide as Ha; [done|]. by intros [= <- _].
Qed.

(** The slug before truncation is a piece of the text after the first
    replacement: it starts and ends with a character that is not a
    hyphen. *)
Lemma strip_hyphens_piece s :
  exists pre post, drop_hyphens s = strip_hyphens s ++ post
                   /\ s = pre ++ drop_hyphens s.
Proof.
  unfold strip_hyphens.
  destruct (drop_hyphens_suffix s) as [pre E].
  destruct (drop_hyphens_suffix (List.rev (drop_hyphens s))) as [pre' E'].
  exists pre, (List.rev pre'). split; [|done].
  by rewrite <- rev_app_distr, <- E', rev_involutive.
Qed.

Lemma strip_hyphens_head s c r : strip_hyphens s = c :: r -> c <> hyphen.
Proof.
  intros E. destruct (strip_hyphens_piece s) as (pre & post & E1 & _).
  rewrite E in E1. cbn in E1. by apply drop_hyphens_head in E1.
Qed.

Lemma strip_hyphens_last s init c : strip_hyphens s = init ++ [c] -> c <> hyphen.
Proof.
  unfold strip_hyphens. intros E.
  apply (f_equal (@List.rev ascii)) in E. rewrite rev_involutive, rev_app_distr in E.
  cbn in E. by apply drop_hyphens_head in E.
Qed.

Lemma strip_hyphens_within s :
  exists pre post, s = pre ++ strip_hyphens s ++ post.
Proof.
  destruct (strip_hyphens_piece s) as (pre & post & E1 & E2).
  exists pre, post. by rewrite <- E1.
Qed.

Lemma createSlug_chars toLowerCase title :
  String.list_ascii_of_string (createSlug toLowerCase title)
  = take 50 (slug_chars toLowerCase title).
Proof. unfold createSlug. apply String.list_ascii_of_string_of_list_ascii. Qed.

Lemma slug_chars_shape toLowerCase title :
  let chars := slug_chars toLowerCase title in
  Forall slug_alphabet chars
  /\ no_double_hyphen chars
  /\ (forall c r, chars = c :: r -> c <> hyphen)
  /\ (forall init c, chars = init ++ [c] -> c <> hyphen).
Proof.
  cbn zeta. unfold slug_chars.
  set (text := replace_runs false _).
  destruct (strip_hyphens_within text) as (pre & post & E).
  pose proof (replace_runs_alphabet false
    (String.list_ascii_of_string (toLowerCase title))) as Ha.
  pose proof (spaced_no_double _ (replace_runs_spaced false
    (String.list_ascii_of_string (toLowerCase title)))) as Hd.
  fold text in Ha, Hd. rewrite E in Ha, Hd.
  apply Forall_app in Ha as [_ Ha]. apply Forall_app in Ha as [Ha _].
  apply no_double_suffix, no_double_prefix in Hd.
  split_and!; [done|done|apply strip_hyphens_head|apply strip_hyphens_last].
Qed.

End SlugFacts.

(** X6.  Whatever [toLowerCase] does, a slug is made of lower-case ASCII
    letters, digits and hyphens only, has at most 50 characters, never
    starts with a hyphen and never has two hyphens in a row; it does not
    end with a hyphen either unless [substring(0, 50)] cut it. *)
Theorem createSlug_shape (toLowerCase : string -> string) (title : string) :
  let slug := String.list_ascii_of_string (Markdown.createSlug toLowerCase title) in
  Forall Markdown.slug_alphabet slug
  /\ length slug <= 50
  /\ Markdown.no_double_hyphen slug
  /\ (forall c r, slug = c :: r -> c <> Markdown.hyphen)
  /\ (length (Markdown.slug_chars toLowerCase title) <= 50 ->
      forall init c, slug = init ++ [c] -> c <> Markdown.hyphen).
Proof.
  cbn zeta. rewrite createSlug_chars.
  destruct (slug_chars_shape toLowerCase title) as (Ha & Hd & Hh & Hl).
  split_and!.
  - by apply Forall_take.
  - rewrite length_take. lia.
  - apply (no_double_prefix _ (drop 50 (Markdown.slug_chars toLowerCase title))).
    by rewrite take_drop.
  - intros c r Hc.
    destruct (Markdown.slug_chars toLowerCase title) as [|c' r'] eqn:Es; [done|].
    cbn in Hc. injection Hc as -> _. by apply (Hh c r').
  - intros Hlen init c Hc. rewrite take_ge in Hc by done. by apply (Hl init).
Qed.

Section FilenameFacts.
Import Js.

Lemma append_assoc (a b c : string) : (a +:+ b) +:+ c = a +:+ b +:+ c.
Proof.
  induction a as [|x a IH]; [done|].
  change (String x ((a +:+ b) +:+ c) = String x (a +:+ b +:+ c)). by f_equal.
Qed.

End FilenameFacts.

(** X7.  [generateDraftFilename] throws only what formatting the creation
    date throws.  Otherwise the name is the directory and a slash (nothing
    for an empty directory), the date, a hyphen, a slug and ".md", where
    the slug is never empty, has at most 50 characters and holds only
    lower-case ASCII letters, digits and hyphens: the name passes the
    [endsWith('.md')] test of [listMarkdownFiles]. *)
Theorem generateDraftFilename_shape
    (format_yyyy_MM_dd : string -> Js.Thrown + string)
    (toLowerCase : string -> string) (draft : Routes.Draft) (directory : string) :
  match Drafts.generateDraftFilename format_yyyy_MM_dd toLowerCase draft directory with
  | inl e => format_yyyy_MM_dd (Routes.createdAt draft) = inl e
  | inr name =>
      Js.endsWith ".md" name = true
      /\ exists dateStr slug,
           format_yyyy_MM_dd (Routes.createdAt draft) = inr dateStr
           /\ slug <> ""
           /\ length (String.list_ascii_of_string slug) <= 50
           /\ Forall Markdown.slug_alphabet (String.list_ascii_of_string slug)
           /\ name = (if Js.truthy directory then directory +:+ "/" else "")
                     +:+ dateStr +:+ "-" +:+ slug +:+ ".md"
  end.
Proof.
  unfold Drafts.generateDraftFilename. cbn zeta.
  destruct (format_yyyy_MM_dd (Routes.createdAt draft)) as [e|dateStr]; [done|].
  set (slug := if Js.truthy (Markdown.createSlug toLowerCase (Routes.title draft))
               then Markdown.createSlug toLowerCase (Routes.title draft)
               else "untitled").
  split.
  - apply endsWith_suffix.
    destruct (Js.truthy directory).
    + exists (directory +:+ "/" +:+ dateStr +:+ "-" +:+ slug).
      by rewrite !append_assoc.
    + exists (dateStr +:+ "-" +:+ slug). by rewrite !append_assoc.
  - exists dateStr, slug. split; [done|].
    assert (slug <> "" /\ length (String.list_ascii_of_string slug) <= 50
            /\ Forall Markdown.slug_alphabet (String.list_ascii_of_string slug))
      as (?&?&?).
    { subst slug.
      destruct (Js.truthy (Markdown.createSlug _ _)) eqn:Et.
      - apply truthy_nonempty in Et. split; [done|].
        rewrite createSlug_chars. split; [rewrite length_take; lia|].
        apply Forall_take, slug_chars_shape.
      - split; [done|]. split; [cbn; lia|].
        repeat constructor; by left. }
    split_and!; try done.
    destruct (Js.truthy directory); [|done]. by rewrite !append_assoc.
Qed.


(** ** The route handlers *)

Section ProgFacts.
Import Octokit.

Lemma returns_only_mono {A} (Q Q' : A -> Prop) (p : Prog A) :
  (forall a, Q a -> Q' a) -> returns_only Q p -> returns_only Q' p.
Proof. intros HQ. induction p as [a|e|R c k IH]; cbn; [apply HQ|done|]. eauto. Qed.

Lemma returns_only_bind {A B} (Q : B -> Prop) (p : Prog A) (f : A -> Prog B) :
  returns_only (fun a => returns_only Q (f a)) p -> returns_only Q (bind p f).
Proof. induction p as [a|e|R c k IH]; cbn; [done|done|]. eauto. Qed.

Lemma returns_only_try_catch {A} (Q : A -> Prop) (p : Prog A) (hd : Thrown -> Prog A) :
  returns_only Q p -> (forall e, returns_only Q (hd e)) ->
  returns_only Q (try_catch p hd).
Proof. intros Hp Hh. induction p as [a|e|R c k IH]; cbn in *; [done|apply Hh|]. eauto. Qed.

Lemma never_throws_try_catch {A} (p : Prog A) (hd : Thrown -> Prog A) :
  (forall e, never_throws (hd e)) -> never_throws (try_catch p hd).
Proof. intros Hh. induction p as [a|e|R c k IH]; cbn; [done|apply Hh|]. eauto. Qed.

Lemma never_throws_bind {A B} (p : Prog A) (f : A -> Prog B) :
  never_throws p -> (forall a, never_throws (f a)) -> never_throws (bind p f).
Proof. intros Hp Hf. induction p as [a|e|R c k IH]; cbn in *; [done|done|]. eauto. Qed.

(** The [catch] clause of a body that throws nothing is never entered. *)
Lemma returns_only_try_safe {A} (Q : A -> Prop) (p : Prog A) (hd : Thrown -> Prog A) :
  never_throws p -> returns_only Q p -> returns_only Q (try_catch p hd).
Proof.
  intros Hn Hp. induction p as [a|e|R c k IH]; cbn in *; [done|done|]. eauto.
Qed.

Lemma returns_only_await {R} (Q : R -> Prop) (c : ApiCall R) :
  (forall x, Q x) -> returns_only Q (await c).
Proof. intros HQ [e|x]; cbn; done. Qed.

(** What the two predicates say of a run. *)
Lemma run_env_returns {St A} (h : Handler St) (env : World St) (Q : A -> Prop)
    (p : Prog A) i s :
  never_throws p -> returns_only Q p ->
  exists a, result (run_env h env i p s) = inr a /\ Q a.
Proof.
  revert i s. induction p as [a|e|R c k IH]; intros i s Hn Hr; cbn in *.
  - eauto.
  - done.
  - destruct (answer h env i c s) as [s' r]. cbn. eauto.
Qed.

Lemma returns_only_any {A} (p : Prog A) : returns_only (fun _ => True) p.
Proof. induction p as [a|e|R c k IH]; cbn; eauto. Qed.

Lemma returns_only_seq {A B} (Q : B -> Prop) (p : Prog A) (f : A -> Prog B) :
  (forall a, returns_only Q (f a)) -> returns_only Q (bind p f).
Proof.
  intros Hf. apply returns_only_bind.
  apply (returns_only_mono (fun _ => True)); [auto|apply returns_only_any].
Qed.

End ProgFacts.

Section RouteFacts.
Import Octokit Routes.
Variable env : Config.Env.
Variable draftToMarkdown : Draft -> Thrown + string.
Variable generateDraftFilename : Draft -> string -> Thrown + string.
Variable markdownToHTML : string -> string.

Lemma answers_intro (Q : Response -> Prop) (p : Prog Response) (hd : Thrown -> Response) :
  returns_only Q p -> (forall e, Q (hd e)) ->
  answers Q (try_catch p (fun e => Ret (hd e))).
Proof.
  intros Hp Hh St h w i s. apply run_env_returns.
  - by apply never_throws_try_catch.
  - by apply returns_only_try_catch.
Qed.

Ltac status := unfold known_status, config_invalid, respond; cbn; auto.

Ltac body :=
  cbv beta zeta;
  repeat first
    [ apply returns_only_seq; intros
    | match goal with
      | |- returns_only _ (Ret _) => cbn [returns_only]; status
      | |- returns_only _ (match ?x with _ => _ end) => destruct x
      end
    | progress cbv beta zeta ].

Lemma list_GET_answers d : answers known_status (list_GET env d).
Proof. unfold list_GET. apply answers_intro; [body|intros; status]. Qed.

Lemma publish_POST_answers b :
  answers known_status (publish_POST env draftToMarkdown generateDraftFilename b).
Proof. unfold publish_POST. apply answers_intro; [body|intros; status]. Qed.

Lemma publish_PUT_answers b :
  answers known_status (publish_PUT env draftToMarkdown generateDraftFilename b).
Proof. unfold publish_PUT. apply answers_intro; [body|intros; status]. Qed.

Lemma fetch_GET_answers path : answers known_status (fetch_GET env markdownToHTML path).
Proof. unfold fetch_GET. apply answers_intro; [body|intros; status]. Qed.

Lemma fetch_POST_answers b : answers known_status (fetch_POST env markdownToHTML b).
Proof. unfold fetch_POST. apply answers_intro; [body|intros; status]. Qed.

End RouteFacts.

(** X8.  Every route handler answers, whatever the request, the
    configuration, the store and the rest of the world do and whatever
    the draft conversions throw: it never rejects, and the status of its
    response is 200, 400 or 500. *)
Theorem handlers_always_answer
    (env : Config.Env)
    (draftToMarkdown : Routes.Draft -> Js.Thrown + string)
    (generateDraftFilename : Routes.Draft -> string -> Js.Thrown + string)
    (markdownToHTML : string -> string) :
  (forall directory,
     Routes.answers Routes.known_status (Routes.list_GET env directory))
  /\ (forall body,
       Routes.answers Routes.known_status
         (Routes.publish_POST env draftToMarkdown generateDraftFilename body))
  /\ (forall body,
       Routes.answers Routes.known_status
         (Routes.publish_PUT env draftToMarkdown generateDraftFilename body))
  /\ (forall path,
       Routes.answers Routes.known_status (Routes.fetch_GET env markdownToHTML path))
  /\ (forall body,
       Routes.answers Routes.known_status (Routes.fetch_POST env markdownToHTML body)).
Proof.
  split_and!; intros x.
  - apply list_GET_answers.
  - apply publish_POST_answers.
  - apply publish_PUT_answers.
  - apply fetch_GET_answers.
  - apply fetch_POST_answers.
Qed.

Section FetchManyFacts.
Import Octokit Routes.
Variable env : Config.Env.
Variable markdownToHTML : string -> string.
Variable service : GitHub.GitHubConfig.

Local Abbreviation fetch_one :=
  (fun path =>
     markdownContent <- GitHub.fetchMarkdownFile service path ;;
     Ret (path, markdownContent, markdownToHTML markdownContent)).

Lemma fetch_one_settles path :
  never_throws (settle (fetch_one path))
  /\ returns_only (fetch_settled markdownToHTML path) (settle (fetch_one path)).
Proof.
  unfold settle, GitHub.fetchMarkdownFile. cbn.
  split; intros [e|[items|content sha|sha]]; cbn; done.
Qed.

Lemma fetch_all_settle paths :
  never_throws (allSettled (List.map fetch_one paths))
  /\ returns_only (Forall2 (fetch_settled markdownToHTML) paths)
       (allSettled (List.map fetch_one paths)).
Proof.
  induction paths as [|path paths [IHn IHr]]; [by cbn|].
  destruct (fetch_one_settles path) as [Hn Hr].
  cbn [List.map allSettled]. split.
  - apply never_throws_bind; [done|]. intros r.
    by apply never_throws_bind.
  - apply returns_only_bind. eapply returns_only_mono; [|exact Hr].
    intros r Hrr. cbn beta. apply returns_only_bind.
    eapply returns_only_mono; [|exact IHr].
    intros rs Hrs. cbn. by constructor.
Qed.

Lemma settled_counts paths rs :
  Forall2 (fetch_settled markdownToHTML) paths rs ->
  length (fulfilled rs) + length (rejected rs) = length paths.
Proof.
  unfold fulfilled, rejected.
  induction 1 as [|path r paths rs Hr _ IH]; [done|].
  destruct r as [e|a]; cbn; lia.
Qed.

Lemma settled_fulfilled paths rs :
  Forall2 (fetch_settled markdownToHTML) paths rs ->
  (fulfilled rs).*1.*1 `sublist_of` paths
  /\ Forall (fun a => a.2 = markdownToHTML a.1.2) (fulfilled rs).
Proof.
  unfold fulfilled.
  induction 1 as [|path r paths rs Hr _ [IH1 IH2]]; [by split; constructor|].
  destruct r as [e|[[p md] html]]; cbn in *.
  - split; [by apply sublist_cons|done].
  - destruct Hr as [-> ->]. split; [by apply sublist_skip|by constructor].
Qed.

Lemma settled_rejected paths rs :
  Forall2 (fetch_settled markdownToHTML) paths rs ->
  exists failing,
    failing `sublist_of` paths
    /\ rejected rs = (fun q => Error ("Failed to fetch file: " +:+ q)) <$> failing.
Proof.
  unfold rejected.
  induction 1 as [|path r paths rs Hr _ (failing & IH1 & IH2)];
    [by exists []|].
  destruct r as [e|a]; cbn in *.
  - subst e. exists (path :: failing). split; [by apply sublist_skip|].
    cbn. by rewrite IH2.
  - exists failing. split; [by apply sublist_cons|done].
Qed.

Lemma labels_by_rank {A B} (g : A -> B) (es : list A) (paths : list string) :
  length es <= length paths ->
  (imap (fun index reason => (paths !! index, g reason)) es).*1
  = Some <$> take (length es) paths.
Proof.
  revert paths. induction es as [|e es IH]; intros paths Hlen; [done|].
  destruct paths as [|path paths]; cbn in Hlen; [lia|].
  rewrite imap_cons. cbn. f_equal. apply IH. lia.
Qed.

Lemma labels_reasons {A B C} (f : nat -> A -> B) (g : A -> C) (es : list A) :
  (imap (fun index reason => (f index reason, g reason)) es).*2 = g <$> es.
Proof.
  revert f. induction es as [|e es IH]; intros f; [done|].
  rewrite imap_cons. cbn. f_equal. apply (IH (fun i => f (S i))).
Qed.

Lemma getValidatedConfig_cases :
  if Config.isGitHubConfigured env
  then Config.getValidatedConfig env = inr (Config.getConfig env)
  else exists m, Config.getValidatedConfig env = inl (Error m).
Proof.
  unfold Config.isGitHubConfigured, Config.getValidatedConfig. cbn zeta.
  destruct (Config.validateConfig (Config.getConfig env)) as [|m ms]; [done|].
  rewrite bool_decide_eq_false_2 by done.
  rewrite bool_decide_eq_true_2 by (cbn; lia). eauto.
Qed.

End FetchManyFacts.

(** X9.  The POST handler of fetch/route.ts, given a list of paths and a
    valid configuration, always answers 200, whatever the store answers:
    [total] is the number of paths, every path is either in [successful]
    or counted in [failed], a successful entry carries the rendering of
    its own content, and the error of a failure names the path that
    failed.  The [path] of the k-th failure, however, is the k-th path of
    the request, not the path that failed. *)
Theorem fetch_POST_accounts
    (env : Config.Env) (markdownToHTML : string -> string)
    (paths : list string) (config : Config.AppConfig) :
  Config.getValidatedConfig env = inr config ->
  Routes.answers
    (fun response =>
       exists successful failed failing,
         response
         = Routes.respond (Routes.FetchedMany successful failed (length paths)) 200
         /\ length successful + length failed = length paths
         /\ successful.*1.*1 `sublist_of` paths
         /\ Forall (fun a => a.2 = markdownToHTML a.1.2) successful
         /\ failing `sublist_of` paths
         /\ failed.*2 = (fun q => Some ("Failed to fetch file: " +:+ q)) <$> failing
         /\ failed.*1 = Some <$> take (length failing) paths)
    (Routes.fetch_POST env markdownToHTML (inr (Some paths))).
Proof.
  intros Hcfg. unfold Routes.fetch_POST. rewrite Hcfg. cbn [Routes.lift Octokit.bind].
  cbv zeta.
  destruct (fetch_all_settle markdownToHTML (Routes.service_of config) paths)
    as [Hn Hr].
  intros St h w i s. apply run_env_returns.
  - apply never_throws_try_catch. intros e. exact I.
  - apply returns_only_try_safe.
    { apply never_throws_bind; [done|]. intros rs. exact I. }
    apply returns_only_bind. eapply returns_only_mono; [|exact Hr].
    intros rs Hrs. cbn [Octokit.returns_only].
    destruct (settled_rejected _ _ _ Hrs) as (failing & Hsub & Hrej).
    destruct (settled_fulfilled _ _ _ Hrs) as [Hs1 Hs2].
    pose proof (settled_counts _ _ _ Hrs) as Hcount.
    eexists _, _, failing. split; [reflexivity|].
    rewrite length_imap.
    split_and!; [done|done|done|done| |].
    + rewrite labels_reasons, Hrej, <- list_fmap_compose. done.
    + rewrite labels_by_rank by lia.
      by rewrite Hrej, length_fmap.
Qed.

Lemma fetch_POST_accounts_witness :
  Config.getValidatedConfig Sample.good_env = inr (Config.getConfig Sample.good_env)
  /\ exists r,
       Octokit.result
         (Octokit.run MemStore.handler
            (Routes.fetch_POST Sample.good_env Sample.markdownToHTML
               (inr (Some ["content/a.md"; "content/missing.md"])))
            Sample.repository) = inr r.
Proof.
  split; [reflexivity|].
  destruct (fetch_POST_accounts Sample.good_env Sample.markdownToHTML
              ["content/a.md"; "content/missing.md"]
              (Config.getConfig Sample.good_env) eq_refl
              MemStore.Store MemStore.handler Octokit.quiet 0 Sample.repository)
    as (r & Hr & _).
  by exists r.
Defined.

(** X10.  The status of the listing handler depends on the configuration
    only.  With a valid configuration it makes one request, a read of the
    directory (of "content" when the parameter is absent or empty), and
    answers 200 with [total] the number of files listed, whatever the
    store answers; with an invalid one it answers 500 without any
    request. *)
Theorem list_GET_outcome
    (env : Config.Env) (directory_param : option string)
    (St : Type) (h : Octokit.Handler St) (w : Octokit.World St) (i : nat) (s : St) :
  let directory := Js.or_default directory_param "content" in
  let o := Octokit.run_env h w i (Routes.list_GET env directory_param) s in
  if Config.isGitHubConfigured env
  then (exists files,
          Octokit.result o
          = inr (Routes.respond (Routes.Listed files directory (length files)) 200))
       /\ Octokit.trace o
          = [Octokit.request
               (GitHub.read_request (Routes.service_of (Config.getConfig env))
                  directory)]
  else Octokit.result o = inr Routes.config_invalid
       /\ Octokit.trace o = [] /\ Octokit.final o = s.
Proof.
  cbv zeta. unfold Routes.list_GET.
  pose proof (getValidatedConfig_cases env) as Hcfg.
  destruct (Config.isGitHubConfigured env).
  - rewrite Hcfg. cbv zeta.
    rewrite run_env_try_catch, run_env_bind, run_listMarkdownFiles.
    unfold Octokit.catch_run, Octokit.then_run. cbn.
    split; [eauto|done].
  - destruct Hcfg as [m ->]. done.
Qed.

(** ** Content through the store *)

Section Base64Facts.
Import Buffer.

Local Abbreviation char_of := (fun d => if (d =? 64)%N then "="%char else digit d).

Ltac euclid := intros; zify; Z.to_euclidean_division_equations; lia.

Lemma value_digit (d : N) :
  (d < 64)%N -> value (digit d) = Some d /\ digit d <> "="%char.
Proof.
  intros Hd. rewrite <- (N2Nat.id d).
  assert (N.to_nat d < 64) as Hn by lia.
  revert Hn. generalize (N.to_nat d). intros n Hn.
  do 64 (destruct n as [|n]; [by vm_compute|]). lia.
Qed.

Lemma digits_digit (d : N) (cs : list ascii) :
  (d < 64)%N -> digits (char_of d :: cs) = d :: digits cs.
Proof.
  intros Hd. destruct (value_digit d Hd) as [Hv Hne].
  cbn [digits]. destruct (N.eqb_spec d 64); [lia|].
  by rewrite bool_decide_eq_false_2, Hv.
Qed.

Lemma digits_padding (cs : list ascii) : digits (char_of 64%N :: cs) = [].
Proof. done. Qed.

Lemma list_ind3 {A} (P : list A -> Prop) :
  P [] -> (forall a, P [a]) -> (forall a b, P [a; b]) ->
  (forall a b c l, P l -> P (a :: b :: c :: l)) ->
  forall l, P l.
Proof.
  intros H0 H1 H2 H3 l.
  enough (P l /\ (forall a, P (a :: l)) /\ (forall a b, P (a :: b :: l))) by tauto.
  induction l as [|x l (IH0 & IH1 & IH2)]; [done|].
  split_and!; [apply IH1|intros a; apply IH2|]. intros a b. by apply H3.
Qed.

Lemma decode_encode (bytes : list N) :
  Forall (fun b => (b < 256)%N) bytes ->
  decode (digits (List.map char_of (encode bytes))) = bytes.
Proof.
  induction bytes as [|a|a b|a b c rest IH] using list_ind3; intros Hb.
  - done.
  - apply Forall_cons in Hb as [Ha _]. cbn [encode List.map].
    rewrite !digits_digit, digits_padding by euclid.
    cbn [decode]. f_equal. revert Ha. euclid.
  - apply Forall_cons in Hb as [Ha Hb]. apply Forall_cons in Hb as [Hb _].
    cbn [encode List.map].
    rewrite !digits_digit, digits_padding by (revert Ha Hb; euclid).
    cbn [decode]. f_equal; [|f_equal]; revert Ha Hb; euclid.
  - apply Forall_cons in Hb as [Ha Hb]. apply Forall_cons in Hb as [Hb Hc].
    apply Forall_cons in Hc as [Hc Hrest].
    cbn [encode List.map].
    rewrite !digits_digit by (revert Ha Hb Hc; euclid).
    cbn [decode]. rewrite (IH Hrest).
    f_equal; [|f_equal; [|f_equal]]; revert Ha Hb Hc; euclid.
Qed.

(** What is written as base64 is read back as it was. *)
Lemma fromBase64_toBase64 (s : string) : fromBase64 (toBase64 s) = s.
Proof.
  unfold fromBase64, toBase64.
  rewrite String.list_ascii_of_string_of_list_ascii, decode_encode.
  - rewrite <- (String.string_of_list_ascii_of_string s) at 2. f_equal.
    induction (String.list_ascii_of_string s) as [|c cs IH]; [done|].
    cbn. by rewrite ascii_N_embedding, IH.
  - apply Forall_fmap, Forall_forall. intros c _. apply N_ascii_bounded.
Qed.

End Base64Facts.

Section RoundTripFacts.
Import Octokit GitHub MemStore.
Local Arguments add_blob : simpl never.
Local Arguments add_tree : simpl never.
Local Arguments add_commit : simpl never.
Local Arguments set_ref : simpl never.
Local Arguments branch_or_main : simpl never.
Variable config : GitHubConfig.

Local Abbreviation branch := (branch_or_main config).

(** A write with the token of the live file, or without a token for a
    new file, is accepted. *)
Lemma write_accepted s p msg content64 t :
  bounded s -> head_tree s ("heads/" +:+ branch) = Some t ->
  exists s' e',
    createOrUpdateFileContents s p msg content64 branch (Octokit.sha <$> t !! p)
    = (s', inr tt)
    /\ head_tree s' ("heads/" +:+ branch) = Some (<[p := e']> t)
    /\ blobs s' !! Octokit.sha e' = Some content64
    /\ bounded s' /\ extends s s'
    /\ blobs s !! Octokit.sha e' = None.
Proof.
  intros Hb Hhead.
  destruct (head_tree_Some _ _ _ Hhead) as (h0 & obj0 & Href & _ & _).
  pose proof (add_blob_spec s content64 Hb) as Hblob.
  destruct (add_blob s content64) as [s1 b] eqn:E1. cbn in Hblob.
  destruct Hblob as (Hb1 & Hx1 & Hr1 & Hc1 & Ht1 & Hfresh & Hnew).
  set (e' := {| path := p; mode := "100644"; type := "blob"; Octokit.sha := b |}).
  pose proof (add_tree_spec s1 (<[p := e']> t) Hb1) as Htree.
  destruct (add_tree s1 (<[p := e']> t)) as [s2 t'] eqn:E2. cbn in Htree.
  destruct Htree as (Hb2 & Hx2 & Hr2 & Hc2 & _ & Htnew).
  pose proof (add_commit_spec s2 {| tree := t'; parents := [h0]; message := msg |} Hb2)
    as Hcommit.
  destruct (add_commit s2 _) as [s3 c] eqn:E3. cbn in Hcommit.
  destruct Hcommit as (Hb3 & Hx3 & Hr3 & Ht3 & _ & Hcnew).
  destruct (set_ref_spec s3 ("heads/" +:+ branch) c Hb3)
    as (Hb4 & Hx4 & Hc4 & Ht4 & Hbl4 & Hr4).
  exists (set_ref s3 ("heads/" +:+ branch) c), e'.
  assert (createOrUpdateFileContents s p msg content64 branch (Octokit.sha <$> t !! p)
          = (set_ref s3 ("heads/" +:+ branch) c, inr tt)) as Hrun.
  { unfold createOrUpdateFileContents. cbv zeta. rewrite Href, Hhead.
    destruct (t !! p) as [e|]; cbn [fmap option_fmap option_map].
    - rewrite bool_decide_eq_true_2 by done. rewrite E1. fold e'. by rewrite E2, E3.
    - rewrite E1. fold e'. by rewrite E2, E3. }
  split_and!; [done| | |done| |done].
  - unfold head_tree. rewrite Hr4, lookup_insert_eq. cbn.
    rewrite Hc4, Hcnew. cbn. rewrite Ht4, Ht3. exact Htnew.
  - rewrite Hbl4. destruct Hx3 as (Hs3&_), Hx2 as (Hs2&_).
    apply (lookup_weaken _ _ _ _ Hnew). by etrans.
  - eapply extends_trans; [exact Hx1|]. eapply extends_trans; [exact Hx2|].
    eapply extends_trans; [exact Hx3|exact Hx4].
Qed.

(** The token [commitFile] sends after reading a store that is not
    disturbed: the [sha] of the live entry. *)
Lemma token_of_read s p t :
  head_tree s ("heads/" +:+ branch) = Some t ->
  (forall e, t !! p = Some e -> Octokit.sha e <> "") ->
  (getContent s p branch).1 = s
  /\ token_after (getContent s p branch).2 = Some (Octokit.sha <$> t !! p).
Proof.
  intros Hhead Hsha. unfold getContent. rewrite Hhead.
  destruct (t !! p) as [e|] eqn:Ee.
  - specialize (Hsha e eq_refl). apply truthy_nonempty in Hsha.
    destruct (blobs s !! Octokit.sha e); cbn; by rewrite Hsha.
  - by destruct (listing t p).
Qed.

Lemma fetch_reads s p t e content64 i :
  head_tree s ("heads/" +:+ branch) = Some t -> t !! p = Some e ->
  blobs s !! Octokit.sha e = Some content64 ->
  result (run_env handler quiet i (fetchMarkdownFile config p) s)
  = inr (Buffer.fromBase64 content64).
Proof.
  intros Hhead He Hblob. rewrite run_fetchMarkdownFile. cbn.
  unfold getContent. by rewrite Hhead, He, Hblob.
Qed.

Lemma fetch_read_inv s p content i :
  result (run_env handler quiet i (fetchMarkdownFile config p) s) = inr content ->
  exists t e content64,
    head_tree s ("heads/" +:+ branch) = Some t /\ t !! p = Some e
    /\ blobs s !! Octokit.sha e = Some content64
    /\ content = Buffer.fromBase64 content64.
Proof.
  rewrite run_fetchMarkdownFile. cbn. unfold getContent.
  destruct (head_tree s _) as [t|] eqn:Et; [|done].
  destruct (t !! p) as [e|] eqn:Ee; [|by destruct (listing t p)].
  destruct (blobs s !! Octokit.sha e) as [c|] eqn:Ec; [|done].
  cbn. intros [= <-]. by exists t, e, c.
Qed.

End RoundTripFacts.

Lemma single_round_trip
    (config : GitHub.GitHubConfig) (s : MemStore.Store)
    (filePath content message : string) (t : gmap string Octokit.TreeEntry) :
  MemStore.bounded s ->
  MemStore.head_tree s (GitHub.branch_ref config) = Some t ->
  (forall e, t !! filePath = Some e -> Octokit.sha e <> "") ->
  let o := Octokit.run MemStore.handler
             (GitHub.commitFile config filePath content message) s in
  let fetch q st :=
    Octokit.result (Octokit.run MemStore.handler (GitHub.fetchMarkdownFile config q) st) in
  Octokit.result o = inr tt
  /\ fetch filePath (Octokit.final o) = inr content
  /\ (forall q c, q <> filePath -> fetch q s = inr c ->
        fetch q (Octokit.final o) = inr c).
Proof.
  intros Hb Hhead Hsha. cbv zeta. unfold Octokit.run.
  rewrite run_commitFile. cbn [Octokit.answer Octokit.quiet]. cbv zeta.
  change (MemStore.handler _ (GitHub.read_request config filePath) s)
    with (MemStore.getContent s filePath (GitHub.branch_or_main config)).
  destruct (token_of_read config s filePath t Hhead Hsha) as [Hs Htok].
  rewrite Htok, Hs.
  change (MemStore.handler _ (GitHub.write_request config filePath content message ?tok) s)
    with (MemStore.createOrUpdateFileContents s filePath message
            (Buffer.toBase64 content) (GitHub.branch_or_main config) tok).
  destruct (write_accepted config s filePath message (Buffer.toBase64 content) t Hb Hhead)
    as (s' & e' & Hrun & Hhead' & Hblob & Hb' & Hext & _).
  rewrite Hrun. cbn [fst snd Octokit.result Octokit.final].
  split_and!; [done| |].
  - rewrite (fetch_reads config s' filePath _ e' _ 0 Hhead'
               (lookup_insert_eq _ _ _) Hblob).
    by rewrite fromBase64_toBase64.
  - intros q c Hq Hfetch.
    destruct (fetch_read_inv config s q c 0 Hfetch) as (t0 & e & c64 & Ht0 & He & Hc64 & ->).
    change ("heads/" +:+ GitHub.branch_or_main config) with (GitHub.branch_ref config) in Ht0.
    rewrite Hhead in Ht0. injection Ht0 as <-.
    apply (fetch_reads config s' q _ e _ 0 Hhead').
    + by rewrite lookup_insert_ne.
    + destruct Hext as (Hbl & _). by apply (lookup_weaken _ _ _ _ Hc64).
Qed.

(** X11.  On a store nobody else writes to, [commitFile] on a branch that
    has a head succeeds, [fetchMarkdownFile] on the same path then
    returns the content that was committed, and every other file that
    could be fetched before is fetched with the same content after. *)
Theorem commitFile_then_fetch
    (config : GitHub.GitHubConfig) (s : MemStore.Store)
    (filePath content message : string) (t : gmap string Octokit.TreeEntry) :
  MemStore.bounded s ->
  MemStore.head_tree s (GitHub.branch_ref config) = Some t ->
  (forall e, t !! filePath = Some e -> Octokit.sha e <> "") ->
  let o := Octokit.run MemStore.handler
             (GitHub.commitFile config filePath content message) s in
  let fetch q st :=
    Octokit.result (Octokit.run MemStore.handler (GitHub.fetchMarkdownFile config q) st) in
  Octokit.result o = inr tt
  /\ fetch filePath (Octokit.final o) = inr content
  /\ (forall q c, q <> filePath -> fetch q s = inr c ->
        fetch q (Octokit.final o) = inr c).
Proof. apply single_round_trip. Qed.

Lemma commitFile_then_fetch_witness :
  Octokit.result
    (Octokit.run MemStore.handler
       (GitHub.fetchMarkdownFile Sample.config "content/a.md")
       (Octokit.final
          (Octokit.run MemStore.handler
             (GitHub.commitFile Sample.config "content/a.md" "new text" "edit")
             Sample.repository)))
  = inr "new text".
Proof.
  assert (MemStore.bounded Sample.repository) as Hb.
  { apply wf_check_sound. vm_compute. reflexivity. }
  assert (MemStore.head_tree Sample.repository (GitHub.branch_ref Sample.config)
          = Some Sample.base) as Hhead.
  { vm_compute. reflexivity. }
  assert (forall e, Sample.base !! "content/a.md" = Some e -> Octokit.sha e <> "")
    as Hsha.
  { intros e. vm_compute. intros [= <-]. discriminate. }
  exact (proj1 (proj2 (commitFile_then_fetch Sample.config Sample.repository
                         "content/a.md" "new text" "edit" Sample.base Hb Hhead Hsha))).
Defined.

Section BatchRoundTrip.
Import Octokit GitHub MemStore.

Lemma entry_names s files entries :
  Forall2 (entry_for s) files entries ->
  List.map path entries = List.map name files.
Proof.
  induction 1 as [|f e fs es (Hp&_) _ IH]; [done|]. cbn. by rewrite Hp, IH.
Qed.

(** The last entry of a path is the one the tree keeps. *)
Lemma overlay_last base pre e post :
  path e ∉ List.map path post ->
  overlay base (pre ++ e :: post) !! path e = Some e.
Proof.
  intros Hlast. unfold overlay. rewrite foldl_app. cbn [foldl].
  pose proof (overlay_other (<[path e := e]> (foldl (fun t e0 => <[path e0 := e0]> t) base pre))
                post (path e) Hlast) as Ho.
  unfold overlay in Ho. rewrite Ho. apply lookup_insert_eq.
Qed.

Lemma batch_round_trip
    (config : GitHub.GitHubConfig) (s : MemStore.Store)
    (files : list GitHub.GitHubFile) (message : string)
    (base : gmap string Octokit.TreeEntry) :
  MemStore.bounded s ->
  MemStore.head_tree s (GitHub.branch_ref config) = Some base ->
  let o := Octokit.run MemStore.handler
             (GitHub.commitMultipleFiles config files message) s in
  let fetch q st :=
    Octokit.result (Octokit.run MemStore.handler (GitHub.fetchMarkdownFile config q) st) in
  Octokit.result o = inr tt
  /\ (forall pre file post,
        files = pre ++ file :: post ->
        GitHub.name file ∉ List.map GitHub.name post ->
        fetch (GitHub.name file) (Octokit.final o) = inr (GitHub.content file))
  /\ (forall q c, q ∉ List.map GitHub.name files -> fetch q s = inr c ->
        fetch q (Octokit.final o) = inr c).
Proof.
  intros Hb Hhead. cbv zeta.
  destruct (batch_succeeds config files message s base Hb Hhead)
    as (Hres & h0 & obj0 & entries & tA & cA & Hpub & _).
  destruct (published_paths _ _ _ _ _ _ _ _ _ _ _ Hpub) as (Hhead' & Hother & _).
  destruct Hpub as (_ & _ & _ & Hent & _ & _ & _ & _ & Hext & _).
  split_and!; [done| |].
  - intros pre file post -> Hlast.
    apply Forall2_app_inv_l in Hent as (epre & erest & Hpre & Hrest & ->).
    apply Forall2_cons_inv_l in Hrest as (e & epost & (Hp & _ & _ & Hblob) & Hpost & ->).
    rewrite <- (fromBase64_toBase64 (GitHub.content file)).
    apply (fetch_reads config _ (GitHub.name file) _ e _ 0 Hhead'); [|exact Hblob].
    rewrite <- Hp. apply overlay_last.
    rewrite (entry_names _ _ _ Hpost). by rewrite Hp.
  - intros q c Hq Hfetch.
    destruct (fetch_read_inv config s q c 0 Hfetch)
      as (t0 & e & c64 & Ht0 & He & Hc64 & ->).
    change ("heads/" +:+ GitHub.branch_or_main config)
      with (GitHub.branch_ref config) in Ht0.
    rewrite Hhead in Ht0. injection Ht0 as <-.
    apply (fetch_reads config _ q _ e _ 0 Hhead').
    + by rewrite Hother.
    + destruct Hext as (Hbl & _). by apply (lookup_weaken _ _ _ _ Hc64).
Qed.

End BatchRoundTrip.

(** X12.  On a store nobody else writes to, [commitMultipleFiles] on a
    branch that has a head succeeds; then [fetchMarkdownFile] returns,
    for every name of the batch, the content of the last file of the
    batch with that name, and every file outside the batch that could be
    fetched before is fetched with the same content after. *)
Theorem commitMultipleFiles_then_fetch
    (config : GitHub.GitHubConfig) (s : MemStore.Store)
    (files : list GitHub.GitHubFile) (message : string)
    (base : gmap string Octokit.TreeEntry) :
  MemStore.bounded s ->
  MemStore.head_tree s (GitHub.branch_ref config) = Some base ->
  let o := Octokit.run MemStore.handler
             (GitHub.commitMultipleFiles config files message) s in
  let fetch q st :=
    Octokit.result (Octokit.run MemStore.handler (GitHub.fetchMarkdownFile config q) st) in
  Octokit.result o = inr tt
  /\ (forall pre file post,
        files = pre ++ file :: post ->
        GitHub.name file ∉ List.map GitHub.name post ->
        fetch (GitHub.name file) (Octokit.final o) = inr (GitHub.content file))
  /\ (forall q c, q ∉ List.map GitHub.name files -> fetch q s = inr c ->
        fetch q (Octokit.final o) = inr c).
Proof. apply batch_round_trip. Qed.

Lemma commitMultipleFiles_then_fetch_witness :
  Octokit.result
    (Octokit.run MemStore.handler
       (GitHub.fetchMarkdownFile Sample.config "content/b.md")
       (Octokit.final
          (Octokit.run MemStore.handler
             (GitHub.commitMultipleFiles Sample.config Sample.batch "publish")
             Sample.repository)))
  = inr "B".
Proof.
  assert (MemStore.bounded Sample.repository) as Hb.
  { apply wf_check_sound. vm_compute. reflexivity. }
  assert (MemStore.head_tree Sample.repository (GitHub.branch_ref Sample.config)
          = Some Sample.base) as Hhead.
  { vm_compute. reflexivity. }
  apply (proj2 (proj2 (commitMultipleFiles_then_fetch Sample.config Sample.repository
                         Sample.batch "publish" Sample.base Hb Hhead))).
  - cbn. rewrite !not_elem_of_cons. split_and!; [done|done|apply not_elem_of_nil].
  - vm_compute. reflexivity.
Defined.

(** ** Publishing drafts *)

Section PublishFacts.
Import Octokit Routes.
Variable env : Config.Env.
Variable toISOString format_yyyy_MM_dd : string -> Thrown + string.
Variable toLowerCase : string -> string.

Local Abbreviation draftToMarkdown := (Drafts.draftToMarkdown toISOString).
Local Abbreviation generateDraftFilename :=
  (Drafts.generateDraftFilename format_yyyy_MM_dd toLowerCase).
Local Abbreviation dates_ok := (Drafts.dates_ok toISOString format_yyyy_MM_dd).
Local Abbreviation convert := (toGitHubFile draftToMarkdown generateDraftFilename).

Lemma convert_ok directory d :
  dates_ok d = true ->
  exists markdown filename,
    draftToMarkdown d = inr markdown
    /\ convert directory d
       = inr {| GitHub.name := filename; GitHub.content := markdown;
                GitHub.sha := None |}.
Proof.
  unfold Drafts.dates_ok, toGitHubFile, Drafts.draftToMarkdown,
    Drafts.generateDraftFilename.
  destruct (toISOString (createdAt d)) as [?|created]; [done|].
  destruct (toISOString (updatedAt d)) as [?|updated]; [done|].
  destruct (format_yyyy_MM_dd (createdAt d)) as [?|dateStr]; [done|].
  intros _. eauto.
Qed.

Lemma convert_fails directory d :
  dates_ok d = false -> exists e, convert directory d = inl e.
Proof.
  unfold Drafts.dates_ok, toGitHubFile, Drafts.draftToMarkdown,
    Drafts.generateDraftFilename.
  destruct (toISOString (createdAt d)) as [?|created]; [eauto|].
  destruct (toISOString (updatedAt d)) as [?|updated]; [eauto|].
  destruct (format_yyyy_MM_dd (createdAt d)) as [?|dateStr]; [eauto|done].
Qed.

Lemma collect_map_inl {A B} (f : A -> Thrown + B) (l : list A) (x : A) :
  x ∈ l -> (exists e, f x = inl e) -> exists e, collect (List.map f l) = inl e.
Proof.
  intros Hx [e He]. induction l as [|y l IH]; [by apply elem_of_nil in Hx|].
  cbn. destruct (f y) as [e'|b] eqn:Ey; [eauto|].
  apply elem_of_cons in Hx as [->|Hx]; [congruence|].
  destruct (IH Hx) as [e' ->]. eauto.
Qed.

Lemma collect_map_inr {A B} (f : A -> Thrown + B) (l : list A) :
  (forall x, x ∈ l -> exists y, f x = inr y) ->
  exists ys, collect (List.map f l) = inr ys /\ Forall2 (fun x y => f x = inr y) l ys.
Proof.
  induction l as [|x l IH]; intros Hall; [by exists []|].
  destruct (Hall x) as [y Hy]; [by left|].
  destruct IH as (ys & Hc & Hf); [intros; apply Hall; by right|].
  exists (y :: ys). cbn. rewrite Hy, Hc. split; [done|by constructor].
Qed.

Lemma publish_blocked body ds d config :
  Config.getValidatedConfig env = inr config ->
  drafts body = Some ds -> d ∈ ds -> dates_ok d = false ->
  exists e,
    publish_POST env draftToMarkdown generateDraftFilename (inr body)
    = Ret (respond (Failure "Failed to publish drafts to GitHub"
                      (Some (message_or_unknown e))) 500).
Proof.
  intros Hcfg Hds Hd Hbad. unfold publish_POST. cbn [lift bind]. cbv zeta.
  rewrite Hds, Hcfg.
  destruct ds as [|d0 ds]; [by apply elem_of_nil in Hd|].
  destruct (collect_map_inl (convert (default "content" (publish_directory body)))
              (d0 :: ds) d Hd (convert_fails _ d Hbad)) as [e ->].
  by exists e.
Qed.

Lemma publish_round_trip body ds config s base :
  Config.getValidatedConfig env = inr config ->
  drafts body = Some ds -> ds <> [] ->
  (forall d, d ∈ ds -> dates_ok d = true) ->
  MemStore.bounded s ->
  MemStore.head_tree s (GitHub.branch_ref (service_of config)) = Some base ->
  let o := run MemStore.handler
             (publish_POST env draftToMarkdown generateDraftFilename (inr body)) s in
  let fetch q st :=
    result (run MemStore.handler (GitHub.fetchMarkdownFile (service_of config) q) st) in
  exists names,
    result o
    = inr (respond (Published names (length ds) (publishMessage ds)
                      (repository_of config) (Config.branch (Config.github config)))
             200)
    /\ Forall2 (fun d filename =>
                  generateDraftFilename d (default "content" (publish_directory body))
                  = inr filename) ds names
    /\ (forall k d filename,
          ds !! k = Some d -> names !! k = Some filename ->
          filename ∉ drop (S k) names ->
          exists markdown,
            draftToMarkdown d = inr markdown
            /\ fetch filename (final o) = inr markdown).
Proof.
  intros Hcfg Hds Hne Hok Hb Hhead. cbv zeta.
  unfold publish_POST. cbn [lift bind]. cbv zeta. rewrite Hds, Hcfg.
  destruct ds as [|d0 ds']; [done|]. set (ds := d0 :: ds') in *.
  set (directory := default "content" (publish_directory body)).
  destruct (collect_map_inr (convert directory) ds) as (files & Hc & Hfiles).
  { intros d Hd. destruct (convert_ok directory d (Hok d Hd)) as (md & fn & _ & ->).
    eauto. }
  rewrite Hc. cbn [lift bind].
  destruct (batch_round_trip (service_of config) s files (publishMessage ds) base Hb Hhead)
    as (Hres & Hlast & _).
  unfold run in *.
  rewrite run_env_try_catch, run_env_bind. unfold catch_run, then_run.
  rewrite Hres. cbn [result final trace run_env].
  exists (List.map GitHub.name files). split_and!.
  - done.
  - clear -Hfiles. induction Hfiles as [|d f ds0 fs Hd _ IH]; [constructor|].
    cbn. constructor; [|done].
    unfold toGitHubFile in Hd.
    destruct (draftToMarkdown d); [done|].
    destruct (generateDraftFilename d directory); [done|].
    by injection Hd as <-.
  - intros k d filename Hk Hn Hlastk.
    rewrite list_lookup_fmap in Hn.
    destruct (files !! k) as [file|] eqn:Hfile; [|done]. injection Hn as <-.
    pose proof (Forall2_lookup_lr _ _ _ _ _ _ Hfiles Hk Hfile) as Hconv.
    destruct (convert_ok directory d) as (md & fn & Hmd & Hconv');
      [apply Hok; by eapply list_elem_of_lookup_2|].
    cbv beta in Hconv. rewrite Hconv' in Hconv. injection Hconv as <-.
    exists md. split; [done|].
    apply (Hlast (take k files)
             {| GitHub.name := fn; GitHub.content := md; GitHub.sha := None |}
             (drop (S k) files)).
    + by rewrite take_drop_middle.
    + by rewrite <- fmap_drop in Hlastk.
Qed.

End PublishFacts.

(** X13.  The POST handler of publish/route.ts converts every draft
    before it sends anything: when one draft of the request has a date
    that cannot be formatted, the handler answers 500 without any call to
    the store, so none of the other drafts is published either. *)
Theorem publish_POST_invalid_date
    (env : Config.Env) (toISOString format_yyyy_MM_dd : string -> Js.Thrown + string)
    (toLowerCase : string -> string)
    (body : Routes.PublishBody) (ds : list Routes.Draft) (d : Routes.Draft)
    (config : Config.AppConfig) :
  Config.getValidatedConfig env = inr config ->
  Routes.drafts body = Some ds -> d ∈ ds ->
  Drafts.dates_ok toISOString format_yyyy_MM_dd d = false ->
  exists e,
    Routes.publish_POST env (Drafts.draftToMarkdown toISOString)
      (Drafts.generateDraftFilename format_yyyy_MM_dd toLowerCase) (inr body)
    = Octokit.Ret
        (Routes.respond
           (Routes.Failure "Failed to publish drafts to GitHub"
              (Some (Js.message_or_unknown e))) 500).
Proof. apply publish_blocked. Qed.

Lemma publish_POST_invalid_date_witness :
  exists e,
    Routes.publish_POST Sample.good_env
      (Drafts.draftToMarkdown (fun v => inl (Js.Error "Invalid time value")))
      (Drafts.generateDraftFilename inr Sample.toLowerCase)
      (inr {| Routes.drafts := Some [Sample.draft];
              Routes.publish_directory := None |})
    = Octokit.Ret
        (Routes.respond
           (Routes.Failure "Failed to publish drafts to GitHub"
              (Some (Js.message_or_unknown e))) 500).
Proof.
  apply (publish_POST_invalid_date Sample.good_env
           (fun v => inl (Js.Error "Invalid time value")) inr Sample.toLowerCase
           {| Routes.drafts := Some [Sample.draft]; Routes.publish_directory := None |}
           [Sample.draft] Sample.draft (Config.getConfig Sample.good_env)).
  - reflexivity.
  - reflexivity.
  - by left.
  - reflexivity.
Defined.

(** X14.  Publishing end to end: when the configuration is valid, the
    dates of all drafts can be formatted and nobody else writes to the
    store, the POST handler of publish/route.ts answers 200 with one
    generated file name per draft, in order, and [fetchMarkdownFile]
    then returns, for each file name, the markdown of the last draft that
    was given that name. *)
Theorem publish_POST_then_fetch
    (env : Config.Env) (toISOString format_yyyy_MM_dd : string -> Js.Thrown + string)
    (toLowerCase : string -> string)
    (body : Routes.PublishBody) (ds : list Routes.Draft)
    (config : Config.AppConfig) (s : MemStore.Store)
    (base : gmap string Octokit.TreeEntry) :
  Config.getValidatedConfig env = inr config ->
  Routes.drafts body = Some ds -> ds <> [] ->
  (forall d, d ∈ ds -> Drafts.dates_ok toISOString format_yyyy_MM_dd d = true) ->
  MemStore.bounded s ->
  MemStore.head_tree s (GitHub.branch_ref (Routes.service_of config)) = Some base ->
  let draftToMarkdown := Drafts.draftToMarkdown toISOString in
  let generateDraftFilename :=
    Drafts.generateDraftFilename format_yyyy_MM_dd toLowerCase in
  let o := Octokit.run MemStore.handler
             (Routes.publish_POST env draftToMarkdown generateDraftFilename (inr body))
             s in
  let fetch q st :=
    Octokit.result
      (Octokit.run MemStore.handler
         (GitHub.fetchMarkdownFile (Routes.service_of config) q) st) in
  exists names,
    Octokit.result o
    = inr (Routes.respond
             (Routes.Published names (length ds) (Routes.publishMessage ds)
                (Routes.repository_of config)
                (Config.branch (Config.github config))) 200)
    /\ Forall2 (fun d filename =>
                  generateDraftFilename d
                    (default "content" (Routes.publish_directory body))
                  = inr filename) ds names
    /\ (forall k d filename,
          ds !! k = Some d -> names !! k = Some filename ->
          filename ∉ drop (S k) names ->
          exists markdown,
            draftToMarkdown d = inr markdown
            /\ fetch filename (Octokit.final o) = inr markdown).
Proof. apply publish_round_trip. Qed.

Lemma publish_POST_then_fetch_witness :
  exists names,
    Octokit.result
      (Octokit.run MemStore.handler
         (Routes.publish_POST Sample.good_env (Drafts.draftToMarkdown inr)
            (Drafts.generateDraftFilename inr Sample.toLowerCase)
            (inr {| Routes.drafts := Some [Sample.draft];
                    Routes.publish_directory := None |}))
         Sample.repository)
    = inr (Routes.respond
             (Routes.Published names 1 (Routes.publishMessage [Sample.draft])
                "acme/site" "main") 200).
Proof.
  destruct (publish_POST_then_fetch Sample.good_env inr inr Sample.toLowerCase
              {| Routes.drafts := Some [Sample.draft]; Routes.publish_directory := None |}
              [Sample.draft] (Config.getConfig Sample.good_env)
              Sample.repository Sample.base) as (names & Hres & _).
  - reflexivity.
  - reflexivity.
  - discriminate.
  - intros d Hd. apply list_elem_of_singleton in Hd. subst d. reflexivity.
  - apply wf_check_sound. vm_compute. reflexivity.
  - vm_compute. reflexivity.
  - exists names. exact Hres.
Defined.

Section UpdateFacts.
Import Octokit Routes.
Variable env : Config.Env.
Variable toISOString format_yyyy_MM_dd : string -> Thrown + string.
Variable toLowerCase : string -> string.
Variable markdownToHTML : string -> string.

Local Abbreviation draftToMarkdown := (Drafts.draftToMarkdown toISOString).
Local Abbreviation generateDraftFilename :=
  (Drafts.generateDraftFilename format_yyyy_MM_dd toLowerCase).

Lemma append_nonempty (a b : string) : b <> "" -> a +:+ b <> "".
Proof. destruct a; [done|]. intros _. discriminate. Qed.

Lemma generated_name_nonempty d directory filename :
  generateDraftFilename d directory = inr filename -> filename <> "".
Proof.
  unfold Drafts.generateDraftFilename. cbv zeta.
  destruct (format_yyyy_MM_dd (createdAt d)) as [?|dateStr]; [done|].
  intros [= <-]. destruct (truthy directory).
  - apply append_nonempty. discriminate.
  - apply append_nonempty. discriminate.
Qed.

Lemma update_round_trip body d config s t markdown filename :
  Config.getValidatedConfig env = inr config ->
  draft body = Some d ->
  draftToMarkdown d = inr markdown ->
  match filePath body with
  | Some f => if truthy f then inr f
              else generateDraftFilename d (default "content" (update_directory body))
  | None => generateDraftFilename d (default "content" (update_directory body))
  end = inr filename ->
  MemStore.bounded s ->
  MemStore.head_tree s (GitHub.branch_ref (service_of config)) = Some t ->
  (forall e, t !! filename = Some e -> Octokit.sha e <> "") ->
  let o := run MemStore.handler
             (publish_PUT env draftToMarkdown generateDraftFilename (inr body)) s in
  result o
  = inr (respond (PublishedOne filename (title d) ("Update: " +:+ title d)
                    (repository_of config) (Config.branch (Config.github config)))
           200)
  /\ result (run MemStore.handler (fetch_GET env markdownToHTML (Some filename))
               (final o))
     = inr (respond (Fetched markdown (markdownToHTML markdown) filename) 200).
Proof.
  intros Hcfg Hd Hmd Hname Hb Hhead Hsha. cbv zeta.
  assert (truthy filename = true) as Htruthy.
  { apply truthy_nonempty.
    destruct (filePath body) as [f|].
    - destruct (truthy f) eqn:Ef.
      + injection Hname as <-. by apply truthy_nonempty.
      + by eapply generated_name_nonempty.
    - by eapply generated_name_nonempty. }
  destruct (single_round_trip (service_of config) s filename markdown
              ("Update: " +:+ title d) t Hb Hhead Hsha) as (Hres & Hfetch & _).
  unfold publish_PUT, fetch_GET. cbn [lift bind]. cbv zeta.
  rewrite Hd, Hcfg, Hmd, Htruthy. cbn [lift bind negb].
  assert (match filePath body with
          | Some f => if truthy f then Ret f
                      else lift (generateDraftFilename d
                                   (default "content" (update_directory body)))
          | None => lift (generateDraftFilename d
                            (default "content" (update_directory body)))
          end = Ret filename) as ->.
  { destruct (filePath body) as [f|]; [destruct (truthy f)|];
      (try by injection Hname as ->); by rewrite Hname. }
  cbn [bind]. unfold run in *.
  rewrite !run_env_try_catch, !run_env_bind. unfold catch_run, then_run.
  rewrite Hres. cbn [result final trace run_env].
  split; [done|].
  rewrite Hfetch. done.
Qed.

End UpdateFacts.

(** X15.  Updating end to end: when the configuration is valid and
    nobody else writes to the store, the PUT handler of publish/route.ts
    writes the markdown of the draft at [filePath] when one is given and
    is not empty, at the generated file name otherwise, and answers 200;
    the GET handler of fetch/route.ts, asked for that path, then answers
    200 with this markdown and its rendering. *)
Theorem publish_PUT_then_fetch_GET
    (env : Config.Env) (toISOString format_yyyy_MM_dd : string -> Js.Thrown + string)
    (toLowerCase : string -> string) (markdownToHTML : string -> string)
    (body : Routes.UpdateBody) (d : Routes.Draft) (config : Config.AppConfig)
    (s : MemStore.Store) (t : gmap string Octokit.TreeEntry)
    (markdown filename : string) :
  let draftToMarkdown := Drafts.draftToMarkdown toISOString in
  let generateDraftFilename :=
    Drafts.generateDraftFilename format_yyyy_MM_dd toLowerCase in
  Config.getValidatedConfig env = inr config ->
  Routes.draft body = Some d ->
  draftToMarkdown d = inr markdown ->
  match Routes.filePath body with
  | Some f =>
      if Js.truthy f then inr f
      else generateDraftFilename d (default "content" (Routes.update_directory body))
  | None => generateDraftFilename d (default "content" (Routes.update_directory body))
  end = inr filename ->
  MemStore.bounded s ->
  MemStore.head_tree s (GitHub.branch_ref (Routes.service_of config)) = Some t ->
  (forall e, t !! filename = Some e -> Octokit.sha e <> "") ->
  let o := Octokit.run MemStore.handler
             (Routes.publish_PUT env draftToMarkdown generateDraftFilename (inr body))
             s in
  Octokit.result o
  = inr (Routes.respond
           (Routes.PublishedOne filename (Routes.title d)
              ("Update: " +:+ Routes.title d) (Routes.repository_of config)
              (Config.branch (Config.github config))) 200)
  /\ Octokit.result
       (Octokit.run MemStore.handler
          (Routes.fetch_GET env markdownToHTML (Some filename)) (Octokit.final o))
     = inr (Routes.respond
              (Routes.Fetched markdown (markdownToHTML markdown) filename) 200).
Proof. cbv zeta. apply update_round_trip. Qed.

Lemma publish_PUT_then_fetch_GET_witness :
  exists markdown,
    Octokit.result
      (Octokit.run MemStore.handler
         (Routes.fetch_GET Sample.good_env Sample.markdownToHTML (Some "content/a.md"))
         (Octokit.final
            (Octokit.run MemStore.handler
               (Routes.publish_PUT Sample.good_env (Drafts.draftToMarkdown inr)
                  (Drafts.generateDraftFilename inr Sample.toLowerCase)
                  (inr {| Routes.draft := Some Sample.draft;
                          Routes.update_directory := None;
                          Routes.filePath := Some "content/a.md" |}))
               Sample.repository)))
    = inr (Routes.respond
             (Routes.Fetched markdown (Sample.markdownToHTML markdown) "content/a.md")
             200).
Proof.
  assert (MemStore.bounded Sample.repository) as Hb.
  { apply wf_check_sound. vm_compute. reflexivity. }
  assert (MemStore.head_tree Sample.repository
            (GitHub.branch_ref (Routes.service_of (Config.getConfig Sample.good_env)))
          = Some Sample.base) as Hhead.
  { vm_compute. reflexivity. }
  assert (forall e, Sample.base !! "content/a.md" = Some e -> Octokit.sha e <> "")
    as Hsha.
  { intros e. vm_compute. intros [= <-]. discriminate. }
  eexists.
  exact (proj2 (publish_PUT_then_fetch_GET Sample.good_env inr inr Sample.toLowerCase
                  Sample.markdownToHTML
                  {| Routes.draft := Some Sample.draft; Routes.update_directory := None;
                     Routes.filePath := Some "content/a.md" |}
                  Sample.draft (Config.getConfig Sample.good_env)
                  Sample.repository Sample.base _ "content/a.md"
                  eq_refl eq_refl eq_refl eq_refl Hb Hhead Hsha)).
Defined.

(** ** lib/drafts.ts: the drafts kept in [localStorage] *)

Section DraftStoreFacts.
Import DraftStore.
Context {Date : Type}.
Variable window : bool.
Variable stringify : list (Draft Date) -> string.
Variable parse : string -> Js.Thrown + list (Draft Date).
Variable fits : string -> bool.

Local Abbreviation loadDrafts := (loadDrafts Date window parse).
Local Abbreviation saveDrafts := (saveDrafts Date window stringify fits).
Local Abbreviation getDraft := (getDraft Date window parse).
Local Abbreviation survives := (survives Date stringify parse fits).

Lemma save_then_load drafts st :
  window = true -> survives drafts ->
  exists st', saveDrafts drafts st = inr st' /\ loadDrafts st' = drafts.
Proof.
  intros Hw (Hfits & Htext & Hparse). exists (Some (stringify drafts)).
  unfold DraftStore.saveDrafts, DraftStore.loadDrafts.
  by rewrite Hw, Hfits, Htext, Hparse.
Qed.

Lemma findIndex_lookup {A} (f : A -> bool) (l : list A) k :
  findIndex f l = Some k ->
  exists x, l !! k = Some x /\ f x = true /\ List.find f l = Some x.
Proof.
  revert k. induction l as [|y l IH]; intros k; cbn; [done|].
  destruct (f y) eqn:Ey.
  - intros [= <-]. by exists y.
  - destruct (findIndex f l) as [k'|]; [|done]. intros [= <-].
    destruct (IH k' eq_refl) as (x & ? & ? & ?). by exists x.
Qed.

Lemma findIndex_None {A} (f : A -> bool) (l : list A) :
  findIndex f l = None <-> List.find f l = None.
Proof.
  induction l as [|y l IH]; cbn; [done|].
  destruct (f y); [done|]. rewrite <- IH.
  destruct (findIndex f l); cbn; split; congruence.
Qed.

Lemma find_insert_same {A} (f : A -> bool) (l : list A) k y :
  findIndex f l = Some k -> f y = true -> List.find f (<[k := y]> l) = Some y.
Proof.
  revert k. induction l as [|x l IH]; intros k; cbn; [done|].
  destruct (f x) eqn:Ex.
  - intros [= <-] Hy. cbn. by rewrite Hy.
  - destruct (findIndex f l) as [k'|] eqn:Ek; [|done]. intros [= <-] Hy.
    cbn. rewrite Ex. by apply IH.
Qed.

Lemma find_insert_other {A} (g : A -> bool) (l : list A) k x y :
  l !! k = Some x -> g x = false -> g y = false ->
  List.find g (<[k := y]> l) = List.find g l.
Proof.
  revert k. induction l as [|z l IH]; intros k; [done|].
  destruct k as [|k]; cbn.
  - intros [= ->] Hx Hy. by rewrite Hx, Hy.
  - intros Hk Hx Hy. destruct (g z); [done|]. by apply IH.
Qed.

Lemma find_filter_same {A} (f : A -> bool) (l : list A) :
  List.find f (List.filter (fun x => negb (f x)) l) = None.
Proof.
  induction l as [|x l IH]; cbn; [done|].
  destruct (f x) eqn:Ex; cbn; [done|]. by rewrite Ex.
Qed.

Lemma find_filter_other {A} (f g : A -> bool) (l : list A) :
  (forall x, g x = true -> f x = false) ->
  List.find g (List.filter (fun x => negb (f x)) l) = List.find g l.
Proof.
  intros Hfg. induction l as [|x l IH]; cbn; [done|].
  destruct (f x) eqn:Ex; cbn.
  - destruct (g x) eqn:Eg; [|done]. apply Hfg in Eg. congruence.
  - by rewrite IH.
Qed.

Lemma filter_length_find {A} (f : A -> bool) (l : list A) :
  length (List.filter (fun x => negb (f x)) l) = length l <-> List.find f l = None.
Proof.
  induction l as [|x l IH]; cbn; [done|].
  pose proof (List.filter_length_le (fun x => negb (f x)) l) as Hle.
  destruct (f x); cbn; [split; [lia|done]|].
  rewrite <- IH. split; lia.
Qed.

Lemma has_id_other i j (d : Draft Date) :
  j <> i -> has_id Date j d = true -> has_id Date i d = false.
Proof.
  unfold has_id. intros Hne Hj. apply bool_decide_eq_true in Hj.
  apply bool_decide_eq_false. congruence.
Qed.

Lemma create_round_trip input fresh now st :
  window = true ->
  let draft := new_draft Date input fresh now in
  survives (draft :: loadDrafts st) ->
  exists st',
    createDraft Date window stringify parse fits input fresh now st = inr (draft, st')
    /\ loadDrafts st' = draft :: loadDrafts st
    /\ getDraft fresh st' = Some draft
    /\ (forall i, i <> fresh -> getDraft i st' = getDraft i st).
Proof.
  intros Hw draft Hs.
  destruct (save_then_load _ st Hw Hs) as (st' & Hsave & Hload).
  exists st'. unfold createDraft. cbv zeta. fold draft. rewrite Hsave.
  unfold DraftStore.getDraft. rewrite Hload. cbn [List.find].
  split_and!; [done|done| |].
  - unfold has_id at 1. cbn. by rewrite bool_decide_eq_true_2.
  - intros i Hi. unfold has_id at 1. cbn. by rewrite bool_decide_eq_false_2.
Qed.

Lemma delete_round_trip i st :
  window = true ->
  let kept := List.filter (fun d => negb (has_id Date i d)) (loadDrafts st) in
  (getDraft i st = None ->
   deleteDraft Date window stringify parse fits i st = inr (false, st))
  /\ (getDraft i st <> None -> survives kept ->
      exists st',
        deleteDraft Date window stringify parse fits i st = inr (true, st')
        /\ loadDrafts st' = kept
        /\ getDraft i st' = None
        /\ (forall j, j <> i -> getDraft j st' = getDraft j st)).
Proof.
  intros Hw kept. unfold deleteDraft, DraftStore.getDraft. cbv zeta. fold kept.
  split.
  - intros Hnone. apply filter_length_find in Hnone.
    by rewrite bool_decide_eq_true_2.
  - intros Hsome Hs.
    rewrite bool_decide_eq_false_2
      by (unfold kept; by rewrite filter_length_find).
    destruct (save_then_load _ st Hw Hs) as (st' & Hsave & Hload).
    exists st'. rewrite Hsave, Hload. split_and!; [done|done| |].
    + apply find_filter_same.
    + intros j Hj. apply find_filter_other. intros d. by apply has_id_other.
Qed.

Lemma update_round_trip_drafts i updates now st :
  window = true ->
  (getDraft i st = None ->
   updateDraft Date window stringify parse fits i updates now st = inr (None, st))
  /\ (forall k draft,
        findIndex (has_id Date i) (loadDrafts st) = Some k ->
        getDraft i st = Some draft ->
        survives (<[k := updated Date draft updates now]> (loadDrafts st)) ->
        exists st',
          updateDraft Date window stringify parse fits i updates now st
          = inr (Some (updated Date draft updates now), st')
          /\ loadDrafts st' = <[k := updated Date draft updates now]> (loadDrafts st)
          /\ getDraft i st' = Some (updated Date draft updates now)
          /\ (forall j, j <> i -> getDraft j st' = getDraft j st)).
Proof.
  intros Hw. unfold updateDraft, DraftStore.getDraft. cbv zeta. split.
  - intros Hnone. apply findIndex_None in Hnone. by rewrite Hnone.
  - intros k draft Hk Hget Hs.
    destruct (findIndex_lookup _ _ _ Hk) as (x & Hx & Hid & Hfind).
    rewrite Hfind in Hget. injection Hget as ->.
    rewrite Hk, Hx.
    destruct (save_then_load _ st Hw Hs) as (st' & Hsave & Hload).
    exists st'. rewrite Hsave, Hload. split_and!; [done|done| |].
    + apply find_insert_same; [done|]. exact Hid.
    + intros j Hj. apply (find_insert_other _ _ _ draft); [done| |].
      * unfold has_id in *. apply bool_decide_eq_true in Hid.
        apply bool_decide_eq_false. congruence.
      * unfold has_id in *. apply bool_decide_eq_true in Hid.
        apply bool_decide_eq_false. cbn. congruence.
Qed.

Lemma no_window_no_drafts input fresh now i updates st :
  window = false ->
  loadDrafts st = []
  /\ createDraft Date window stringify parse fits input fresh now st
     = inr (new_draft Date input fresh now, st)
  /\ getDraft i st = None
  /\ updateDraft Date window stringify parse fits i updates now st = inr (None, st)
  /\ deleteDraft Date window stringify parse fits i st = inr (false, st)
  /\ clearAllDrafts window st = st.
Proof.
  intros Hw.
  unfold createDraft, updateDraft, deleteDraft, DraftStore.getDraft,
    DraftStore.saveDrafts, DraftStore.loadDrafts, clearAllDrafts.
  by rewrite Hw.
Qed.

End DraftStoreFacts.

(** X16.  In a browser, when the new list can be stored and read back,
    [createDraft] puts the new draft in front of the drafts that
    [loadDrafts] finds (none, if the stored text cannot be parsed),
    [getDraft] then finds it under its identifier, and the drafts under
    other identifiers are found as before. *)
Theorem createDraft_then_getDraft
    (Date : Type) (window : bool)
    (stringify : list (DraftStore.Draft Date) -> string)
    (parse : string -> Js.Thrown + list (DraftStore.Draft Date))
    (fits : string -> bool)
    (input : DraftStore.DraftInput) (fresh : string) (now : Date)
    (st : DraftStore.Stored) :
  window = true ->
  let draft := DraftStore.new_draft Date input fresh now in
  DraftStore.survives Date stringify parse fits
    (draft :: DraftStore.loadDrafts Date window parse st) ->
  exists st',
    DraftStore.createDraft Date window stringify parse fits input fresh now st
    = inr (draft, st')
    /\ DraftStore.loadDrafts Date window parse st'
       = draft :: DraftStore.loadDrafts Date window parse st
    /\ DraftStore.getDraft Date window parse fresh st' = Some draft
    /\ (forall i, i <> fresh ->
          DraftStore.getDraft Date window parse i st'
          = DraftStore.getDraft Date window parse i st).
Proof. apply create_round_trip. Qed.

Lemma createDraft_then_getDraft_witness :
  exists st',
    DraftStore.createDraft string true Sample.stringify Sample.parse (fun _ => true)
      {| DraftStore.input_title := "Hello"; DraftStore.input_body := "text" |}
      "draft-1" "2024-01-02" None
    = inr (Sample.stored_draft, st')
    /\ DraftStore.getDraft string true Sample.parse "draft-1" st'
       = Some Sample.stored_draft.
Proof.
  destruct (createDraft_then_getDraft string true Sample.stringify Sample.parse
              (fun _ => true)
              {| DraftStore.input_title := "Hello"; DraftStore.input_body := "text" |}
              "draft-1" "2024-01-02" None) as (st' & Hc & _ & Hg & _).
  - reflexivity.
  - split_and!; reflexivity.
  - exists st'. split; [exact Hc|exact Hg].
Defined.

(** X17.  In a browser, [deleteDraft] on an identifier that [getDraft]
    does not find returns false and leaves the stored text alone;
    otherwise, when the remaining list can be stored and read back, it
    returns true, removes every draft with that identifier, [getDraft]
    does not find it any more, and the other drafts are found as
    before. *)
Theorem deleteDraft_removes
    (Date : Type) (window : bool)
    (stringify : list (DraftStore.Draft Date) -> string)
    (parse : string -> Js.Thrown + list (DraftStore.Draft Date))
    (fits : string -> bool) (i : string) (st : DraftStore.Stored) :
  window = true ->
  let kept := List.filter (fun d => negb (DraftStore.has_id Date i d))
                (DraftStore.loadDrafts Date window parse st) in
  (DraftStore.getDraft Date window parse i st = None ->
   DraftStore.deleteDraft Date window stringify parse fits i st = inr (false, st))
  /\ (DraftStore.getDraft Date window parse i st <> None ->
      DraftStore.survives Date stringify parse fits kept ->
      exists st',
        DraftStore.deleteDraft Date window stringify parse fits i st = inr (true, st')
        /\ DraftStore.loadDrafts Date window parse st' = kept
        /\ DraftStore.getDraft Date window parse i st' = None
        /\ (forall j, j <> i ->
              DraftStore.getDraft Date window parse j st'
              = DraftStore.getDraft Date window parse j st)).
Proof. apply delete_round_trip. Qed.

Lemma deleteDraft_removes_witness :
  exists st',
    DraftStore.deleteDraft string true Sample.stringify Sample.parse (fun _ => true)
      "draft-1" (Some "1") = inr (true, st')
    /\ DraftStore.getDraft string true Sample.parse "draft-1" st' = None.
Proof.
  destruct (proj2 (deleteDraft_removes string true Sample.stringify Sample.parse
                     (fun _ => true) "draft-1" (Some "1") eq_refl))
    as (st' & Hd & _ & Hg & _).
  - discriminate.
  - split_and!; reflexivity.
  - exists st'. split; [exact Hd|exact Hg].
Defined.

(** X18.  In a browser, [updateDraft] on an identifier that [getDraft]
    does not find returns null and leaves the stored text alone;
    otherwise, when the new list can be stored and read back, it replaces
    the first draft with that identifier, in place, by a draft with the
    same identifier and creation date, the new time of update and the
    given title and body (the old ones where none is given), which
    [getDraft] then finds; the other drafts are found as before. *)
Theorem updateDraft_replaces
    (Date : Type) (window : bool)
    (stringify : list (DraftStore.Draft Date) -> string)
    (parse : string -> Js.Thrown + list (DraftStore.Draft Date))
    (fits : string -> bool) (i : string) (updates : DraftStore.DraftUpdates)
    (now : Date) (st : DraftStore.Stored) :
  window = true ->
  (DraftStore.getDraft Date window parse i st = None ->
   DraftStore.updateDraft Date window stringify parse fits i updates now st
   = inr (None, st))
  /\ (forall k draft,
        DraftStore.findIndex (DraftStore.has_id Date i)
          (DraftStore.loadDrafts Date window parse st) = Some k ->
        DraftStore.getDraft Date window parse i st = Some draft ->
        let updatedDraft :=
          {| DraftStore.id := DraftStore.id draft;
             DraftStore.title :=
               default (DraftStore.title draft) (DraftStore.new_title updates);
             DraftStore.body :=
               default (DraftStore.body draft) (DraftStore.new_body updates);
             DraftStore.createdAt := DraftStore.createdAt draft;
             DraftStore.updatedAt := now |} in
        DraftStore.survives Date stringify parse fits
          (<[k := updatedDraft]> (DraftStore.loadDrafts Date window parse st)) ->
        exists st',
          DraftStore.updateDraft Date window stringify parse fits i updates now st
          = inr (Some updatedDraft, st')
          /\ DraftStore.loadDrafts Date window parse st'
             = <[k := updatedDraft]> (DraftStore.loadDrafts Date window parse st)
          /\ DraftStore.getDraft Date window parse i st' = Some updatedDraft
          /\ (forall j, j <> i ->
                DraftStore.getDraft Date window parse j st'
                = DraftStore.getDraft Date window parse j st)).
Proof.
  intros Hw.
  destruct (update_round_trip_drafts window stringify parse fits i updates now st Hw)
    as [Hnone Hsome].
  split; [exact Hnone|]. intros k draft Hk Hget. cbv zeta. apply Hsome; done.
Qed.

Lemma updateDraft_replaces_witness :
  exists st',
    DraftStore.updateDraft string true Sample.stringify Sample.parse (fun _ => true)
      "draft-1"
      {| DraftStore.new_title := Some "Hello"; DraftStore.new_body := None |}
      "2024-01-02" (Some "1")
    = inr (Some Sample.stored_draft, st')
    /\ DraftStore.getDraft string true Sample.parse "draft-1" st'
       = Some Sample.stored_draft.
Proof.
  destruct (proj2 (updateDraft_replaces string true Sample.stringify Sample.parse
                     (fun _ => true) "draft-1"
                     {| DraftStore.new_title := Some "Hello";
                        DraftStore.new_body := None |}
                     "2024-01-02" (Some "1") eq_refl)
              0 Sample.stored_draft)
    as (st' & Hu & _ & Hg & _).
  - reflexivity.
  - reflexivity.
  - split_and!; reflexivity.
  - exists st'. split; [exact Hu|exact Hg].
Defined.

(** X19.  Without a [window] (on the server) nothing is stored and
    nothing is found: [createDraft] returns its draft and writes nothing,
    so that [getDraft] does not find the draft it has just returned;
    [updateDraft] returns null, [deleteDraft] false, and none of them
    throws. *)
Theorem drafts_need_a_window
    (Date : Type) (window : bool)
    (stringify : list (DraftStore.Draft Date) -> string)
    (parse : string -> Js.Thrown + list (DraftStore.Draft Date))
    (fits : string -> bool)
    (input : DraftStore.DraftInput) (fresh : string) (now : Date)
    (i : string) (updates : DraftStore.DraftUpdates) (st : DraftStore.Stored) :
  window = false ->
  DraftStore.loadDrafts Date window parse st = []
  /\ DraftStore.createDraft Date window stringify parse fits input fresh now st
     = inr (DraftStore.new_draft Date input fresh now, st)
  /\ DraftStore.getDraft Date window parse i st = None
  /\ DraftStore.updateDraft Date window stringify parse fits i updates now st
     = inr (None, st)
  /\ DraftStore.deleteDraft Date window stringify parse fits i st = inr (false, st)
  /\ DraftStore.clearAllDrafts window st = st.
Proof. apply no_window_no_drafts. Qed.

Lemma drafts_need_a_window_witness :
  DraftStore.getDraft string false Sample.parse "draft-1" (Some "1") = None.
Proof.
  apply (drafts_need_a_window string false Sample.stringify Sample.parse
           (fun _ => true)
           {| DraftStore.input_title := "Hello"; DraftStore.input_body := "text" |}
           "draft-1" "2024-01-02" "draft-1"
           {| DraftStore.new_title := None; DraftStore.new_body := None |}
           (Some "1")).
  reflexivity.
Defined.

(** ** Two editors of one file *)

Section EditRace.
Import Octokit GitHub MemStore.
Local Arguments add_blob : simpl never.
Local Arguments add_tree : simpl never.
Local Arguments add_commit : simpl never.
Local Arguments set_ref : simpl never.
Local Arguments branch_or_main : simpl never.
Variable config : GitHubConfig.

Local Abbreviation branch := (branch_or_main config).

(** A write whose token is not the [sha] of the live file is refused and
    changes nothing. *)
Lemma write_rejected s p msg content64 t e tok :
  head_tree s ("heads/" +:+ branch) = Some t -> t !! p = Some e ->
  tok <> Some (Octokit.sha e) ->
  exists refusal,
    createOrUpdateFileContents s p msg content64 branch tok = (s, inl refusal).
Proof.
  intros Hhead He Htok.
  destruct (head_tree_Some _ _ _ Hhead) as (h0 & obj0 & Href & _ & _).
  unfold createOrUpdateFileContents. cbv zeta. rewrite Href, Hhead, He.
  cbn [fmap option_fmap option_map].
  destruct tok as [tok|]; [|by eexists].
  rewrite bool_decide_eq_false_2 by congruence. by eexists.
Qed.

Lemma answer_once_before {St R} (h : Handler St) (other : St -> St) j i
    (c : ApiCall R) st :
  i <> j -> answer h (once j other) i c st = h R c st.
Proof. intros Hne. unfold answer, once. by rewrite bool_decide_eq_false_2. Qed.

Lemma answer_once_at {St R} (h : Handler St) (other : St -> St) j
    (c : ApiCall R) st :
  answer h (once j other) j c st = h R c (other st).
Proof. unfold answer, once. by rewrite bool_decide_eq_true_2. Qed.

Lemma stale_write_rejected s p ours theirs msg msg' t :
  bounded s -> head_tree s (branch_ref config) = Some t ->
  (forall e, t !! p = Some e ->
     Octokit.sha e <> "" /\ is_Some (blobs s !! Octokit.sha e)) ->
  let other := fun st =>
    final (run handler (commitFile config p theirs msg') st) in
  let o := run_env handler (once 1 other) 0 (commitFile config p ours msg) s in
  result o = inl (Error ("Failed to commit file: " +:+ p))
  /\ final o = other s
  /\ result (run handler (fetchMarkdownFile config p) (final o)) = inr theirs.
Proof.
  intros Hb Hhead Hsha. cbv zeta.
  assert (forall e, t !! p = Some e -> Octokit.sha e <> "") as Hsha'.
  { intros e He. by destruct (Hsha e He). }
  destruct (token_of_read config s p t Hhead Hsha') as [Hs Htok].
  destruct (write_accepted config s p msg' (Buffer.toBase64 theirs) t Hb Hhead)
    as (s' & e' & Hrun & Hhead' & Hblob & Hb' & Hext & Hfresh).
  assert (final (run handler (commitFile config p theirs msg') s) = s') as Hother.
  { unfold run. rewrite run_commitFile. cbn [answer quiet]. cbv zeta.
    change (handler _ (read_request config p) s) with (getContent s p branch).
    rewrite Htok, Hs.
    change (handler _ (write_request config p theirs msg' ?tok) s)
      with (createOrUpdateFileContents s p msg' (Buffer.toBase64 theirs) branch tok).
    by rewrite Hrun. }
  rewrite run_commitFile. cbv zeta.
  rewrite answer_once_before by lia.
  change (handler _ (read_request config p) s) with (getContent s p branch).
  rewrite Htok, Hs. rewrite answer_once_at, Hother.
  change (handler _ (write_request config p ours msg ?tok) s')
    with (createOrUpdateFileContents s' p msg (Buffer.toBase64 ours) branch tok).
  destruct (write_rejected s' p msg (Buffer.toBase64 ours) _ e'
              (Octokit.sha <$> t !! p) Hhead' (lookup_insert_eq _ _ _))
    as (refusal & Hrefused).
  { destruct (t !! p) as [e|] eqn:Ee; [|done].
    destruct (Hsha e eq_refl) as [_ [c Hc]]. cbn. intros [= Heq].
    rewrite Heq in Hc. congruence. }
  rewrite Hrefused. cbn [fst snd result final].
  split_and!; [done|done|].
  rewrite <- (fromBase64_toBase64 theirs).
  apply (fetch_reads config s' p _ e' _ 0 Hhead' (lookup_insert_eq _ _ _) Hblob).
Qed.

End EditRace.

(** X20.  No lost update through [commitFile]: when another editor
    commits other content to the same path after [commitFile] has read it
    and before it writes, the write is refused, [commitFile] throws its
    one error, nothing of its own is stored (the store is as the other
    editor left it) and a fetch of the path returns the other editor's
    content.  The token of a file is the name of its blob; the other
    editor's content is taken to differ from what the file held, since a
    store that names blobs by their content (unlike [MemStore], which
    names every blob afresh) gives an unchanged file an unchanged
    token. *)
Theorem commitFile_stale_write_rejected
    (config : GitHub.GitHubConfig) (s : MemStore.Store)
    (filePath ours theirs message message' : string)
    (t : gmap string Octokit.TreeEntry) :
  let fetch st :=
    Octokit.result
      (Octokit.run MemStore.handler (GitHub.fetchMarkdownFile config filePath) st) in
  MemStore.bounded s ->
  MemStore.head_tree s (GitHub.branch_ref config) = Some t ->
  (forall e, t !! filePath = Some e ->
     Octokit.sha e <> "" /\ is_Some (MemStore.blobs s !! Octokit.sha e)) ->
  fetch s <> inr theirs ->
  let other := fun st =>
    Octokit.final
      (Octokit.run MemStore.handler
         (GitHub.commitFile config filePath theirs message') st) in
  let o := Octokit.run_env MemStore.handler (Octokit.once 1 other) 0
             (GitHub.commitFile config filePath ours message) s in
  Octokit.result o = inl (Js.Error ("Failed to commit file: " +:+ filePath))
  /\ Octokit.final o = other s
  /\ fetch (Octokit.final o) = inr theirs.
Proof.
  cbv zeta. intros Hb Hhead Hsha _.
  exact (stale_write_rejected config s filePath ours theirs message message' t
           Hb Hhead Hsha).
Qed.

Lemma commitFile_stale_write_rejected_witness :
  Octokit.result
    (Octokit.run MemStore.handler
       (GitHub.fetchMarkdownFile Sample.config "content/a.md")
       (Octokit.final
          (Octokit.run_env MemStore.handler (Octokit.once 1 Sample.other_editor) 0
             (GitHub.commitFile Sample.config "content/a.md" "ours" "edit")
             Sample.repository)))
  = inr "theirs".
Proof.
  assert (MemStore.bounded Sample.repository) as Hb.
  { apply wf_check_sound. vm_compute. reflexivity. }
  assert (MemStore.head_tree Sample.repository (GitHub.branch_ref Sample.config)
          = Some Sample.base) as Hhead.
  { vm_compute. reflexivity. }
  assert (forall e, Sample.base !! "content/a.md" = Some e ->
            Octokit.sha e <> ""
            /\ is_Some (MemStore.blobs Sample.repository !! Octokit.sha e)) as Hsha.
  { intros e. vm_compute. intros [= <-]. split; [discriminate|by eexists]. }
  assert (Octokit.result
            (Octokit.run MemStore.handler
               (GitHub.fetchMarkdownFile Sample.config "content/a.md")
               Sample.repository) <> inr "theirs") as Hdiffers.
  { vm_compute. discriminate. }
  exact (proj2 (proj2 (commitFile_stale_write_rejected Sample.config Sample.repository
                         "content/a.md" "ours" "theirs" "edit" "other" Sample.base
                         Hb Hhead Hsha Hdiffers))).
Defined.

(** ** What the handlers check first *)

Section RequestChecks.
Import Octokit Routes.
Variable env : Config.Env.
Variable draftToMarkdown : Draft -> Thrown + string.
Variable generateDraftFilename : Draft -> string -> Thrown + string.
Variable markdownToHTML : string -> string.

Local Abbreviation accepted := (fun r : Response => status r <> 400%N).

Ltac accepted_body :=
  cbv beta zeta;
  repeat first
    [ apply returns_only_seq; intros
    | match goal with
      | |- returns_only _ (Ret _) =>
          cbn [returns_only]; unfold config_invalid, respond; cbn; done
      | |- returns_only _ (match ?x with _ => _ end) => destruct x
      end
    | progress cbv beta zeta ].

Ltac accepted_handler :=
  apply answers_intro; [accepted_body|intros; unfold respond; cbn; done].

Lemma list_GET_accepts d : answers accepted (list_GET env d).
Proof. unfold list_GET. accepted_handler. Qed.

Lemma publish_POST_accepts body d ds :
  drafts body = Some (d :: ds) ->
  answers accepted (publish_POST env draftToMarkdown generateDraftFilename (inr body)).
Proof.
  intros Hd. unfold publish_POST. cbn [lift bind]. rewrite Hd. accepted_handler.
Qed.

Lemma publish_PUT_accepts body d :
  draft body = Some d ->
  answers accepted (publish_PUT env draftToMarkdown generateDraftFilename (inr body)).
Proof.
  intros Hd. unfold publish_PUT. cbn [lift bind]. rewrite Hd. accepted_handler.
Qed.

Lemma fetch_GET_accepts p :
  p <> "" -> answers accepted (fetch_GET env markdownToHTML (Some p)).
Proof.
  intros Hp. apply truthy_nonempty in Hp. unfold fetch_GET. rewrite Hp.
  cbn [negb]. accepted_handler.
Qed.

Lemma fetch_POST_accepts paths :
  answers accepted (fetch_POST env markdownToHTML (inr (Some paths))).
Proof. unfold fetch_POST. cbn [lift bind]. accepted_handler. Qed.

End RequestChecks.

(** X21.  The handlers check the request before anything else.  A
    request without its required field (no drafts or an empty list, no
    draft, no path or an empty one, no list of paths) is answered 400
    without a look at the configuration and without any call to the
    store; a request that has the field is never answered 400, whatever
    happens next; the listing handler, which requires nothing, never
    answers 400. *)
Theorem bad_request_iff_field_missing
    (env : Config.Env)
    (draftToMarkdown : Routes.Draft -> Js.Thrown + string)
    (generateDraftFilename : Routes.Draft -> string -> Js.Thrown + string)
    (markdownToHTML : string -> string) :
  let accepted := fun r => Routes.status r <> 400%N in
  let refused message :=
    Octokit.Ret (Routes.respond (Routes.Failure message None) 400) in
  let publish_POST := Routes.publish_POST env draftToMarkdown generateDraftFilename in
  let publish_PUT := Routes.publish_PUT env draftToMarkdown generateDraftFilename in
  (forall directory, Routes.answers accepted (Routes.list_GET env directory))
  /\ (forall body,
        Routes.drafts body = None \/ Routes.drafts body = Some [] ->
        publish_POST (inr body)
        = refused "Drafts array is required and must not be empty")
  /\ (forall body d ds,
        Routes.drafts body = Some (d :: ds) ->
        Routes.answers accepted (publish_POST (inr body)))
  /\ (forall body,
        Routes.draft body = None ->
        publish_PUT (inr body) = refused "Draft is required")
  /\ (forall body d,
        Routes.draft body = Some d ->
        Routes.answers accepted (publish_PUT (inr body)))
  /\ (forall path,
        path = None \/ path = Some "" ->
        Routes.fetch_GET env markdownToHTML path = refused "File path is required")
  /\ (forall p,
        p <> "" ->
        Routes.answers accepted (Routes.fetch_GET env markdownToHTML (Some p)))
  /\ Routes.fetch_POST env markdownToHTML (inr None)
     = refused "Paths array is required"
  /\ (forall paths,
        Routes.answers accepted
          (Routes.fetch_POST env markdownToHTML (inr (Some paths)))).
Proof.
  cbv zeta. split_and!.
  - apply list_GET_accepts.
  - intros body [Hd|Hd]; unfold Routes.publish_POST; cbn; by rewrite Hd.
  - apply publish_POST_accepts.
  - intros body Hd. unfold Routes.publish_PUT. cbn. by rewrite Hd.
  - apply publish_PUT_accepts.
  - by intros path [->| ->].
  - apply fetch_GET_accepts.
  - done.
  - apply fetch_POST_accepts.
Qed.
